(** * Selection-to-insight pipeline of the document viewer front end

    A shallow embedding of [frontend_app/src/lib/api-client.ts] (the backend
    gateway and the recommendation normalizer) and of the handlers of
    [frontend_app/src/app/(main)/page.tsx] (debounced selection pipeline,
    view state controller, annotation synchronizer), followed by the
    properties of the specification that can be settled on them.

    Conventions.
    - A decoded response body is a [json] value; [undefined] is the [None]
      of [option json].  A number of a body is kept as the real that its
      text denotes ([Q]); the Number the platform makes of it is the nearest
      IEEE 754 double ([binary64]), and every arithmetic operation rounds
      its exact result the same way.  A finite Number is a rational, the
      others live in [number].  The sign of zero is not kept.
    - Strings are sequences of 8-bit code units (Latin-1).
    - [String(v)] and [Number(v)] follow the conversions of the language
      for the values [JSON.parse] can give: an array is joined, an object
      prints as [[object Object]] unless it has a member of its own named
      [toString], in which case the conversion throws a [TypeError].
    - Builtins of the platform whose text is not part of the repository
      ([JSON.parse], the string-to-number and number-to-string conversions)
      are the fields of the class [Runtime]; every statement quantifies over
      the runtime.
    - Code that can throw lives in the [result] monad; [try ... catch] is
      [try_catch]. *)

From Stdlib Require Import List String Ascii Bool Arith NArith ZArith QArith Qminmax Lia Lqa DecimalString.
From Stdlib Require Import Qround DecimalNat DecimalFacts.
Import ListNotations.
Close Scope Q_scope.
Open Scope string_scope.

(* ================================================================== *)
(** ** The fragment of the language the client relies on *)
(* ================================================================== *)

Module JS.

(** Values produced by [JSON.parse] / [response.json()]. *)
#[warnings="-register-all"]
Inductive json : Type :=
| JNull
| JBool (b : bool)
| JNum (q : Q)
| JStr (s : string)
| JArr (items : list json)
| JObj (fields : list (string * json)).

(** Results of numeric conversion. *)
Inductive number : Type :=
| NaN
| Fin (q : Q)
| PosInf
| NegInf.

(** What a [throw] carries: an [Error] built by the client with its message,
    or an exception raised by the platform. *)
Inductive exn : Type :=
| Error (message : string)
| TypeError
| SyntaxError
| NetworkError.

Inductive result (A : Type) : Type :=
| Ok (a : A)
| Throw (e : exn).
Arguments Ok {A} a.
Arguments Throw {A} e.

Definition bind {A B : Type} (c : result A) (k : A -> result B) : result B :=
  match c with
  | Ok a => k a
  | Throw e => Throw e
  end.

Definition try_catch {A : Type} (body : result A) (handler : exn -> result A) : result A :=
  match body with
  | Ok a => Ok a
  | Throw e => handler e
  end.

Class Runtime : Type := {
  (** [JSON.parse]; [None] when it throws a [SyntaxError]. *)
  JSON_parse : string -> option json;
  (** [Number(s)] for a string [s]. *)
  StringToNumber : string -> number;
  (** [String(n)] for the number that the text of a body writes as [n]. *)
  NumberToString : Q -> string;
  encodeURIComponent : string -> string;
  (** [process.env.NEXT_PUBLIC_BACKEND_API_URL] *)
  NEXT_PUBLIC_BACKEND_API_URL : option string;
  (** The [message] of an exception raised by the platform. *)
  native_message : exn -> string
}.

(** [err.message] *)
Definition message_of `{RT : Runtime} (err : exn) : string :=
  match err with
  | Error message => message
  | other => native_message other
  end.

Fixpoint assoc (k : string) (fields : list (string * json)) : option json :=
  match fields with
  | [] => None
  | (k', v) :: rest => if String.eqb k k' then Some v else assoc k rest
  end.

(** [v?.k] *)
Definition get_prop (k : string) (v : json) : option json :=
  match v with
  | JObj fields => assoc k fields
  | _ => None
  end.

(** [v?.[0]] *)
Definition index0 (o : option json) : option json :=
  match o with
  | Some (JArr items) => nth_error items 0
  | Some (JObj fields) => assoc "0" fields
  | Some (JStr (String c _)) => Some (JStr (String c EmptyString))
  | _ => None
  end.

(** *** Numbers *)

(** [floor (log2 (n / d))] *)
Definition exponent (n d : positive) : Z :=
  let k := (Z.log2 (Zpos n) - Z.log2 (Zpos d))%Z in
  if (0 <=? k)%Z
  then (if (Zpos n <? Zpos d * 2 ^ k)%Z then k - 1 else k)%Z
  else (if (Zpos n * 2 ^ (- k) <? Zpos d)%Z then k - 1 else k)%Z.

(** The integer nearest to [n / d], a half going to the even neighbour. *)
Definition nearest_even (n d : Z) : Z :=
  let f := (n / d)%Z in
  match (2 * (n mod d) ?= d)%Z with
  | Lt => f
  | Gt => (f + 1)%Z
  | Eq => if Z.even f then f else (f + 1)%Z
  end.

(** The double nearest to [n / d]: 53 significant bits, the last place no
    finer than [2 ^ -1074]; the range is not bounded above here. *)
Definition binary64_pos (n d : positive) : Q :=
  let s := (Z.max (exponent n d) (-1022) - 52)%Z in
  if (0 <? s)%Z
  then inject_Z (nearest_even (Zpos n) (Zpos d * 2 ^ s) * 2 ^ s)
  else Qred (nearest_even (Zpos n * 2 ^ (- s)) (Zpos d) # Z.to_pos (2 ^ (- s))).

(** Rounding to the nearest double, ties to even. *)
Definition binary64 (q : Q) : Q :=
  match Qnum q with
  | Z0 => 0%Q
  | Zpos n => binary64_pos n (Qden q)
  | Zneg n => (- binary64_pos n (Qden q))%Q
  end.

(** The Number nearest to a real: beyond the largest double, an infinity. *)
Definition of_real (q : Q) : number :=
  let r := binary64 q in
  if Qle_bool (inject_Z (2 ^ 1024)) r then PosInf
  else if Qle_bool r (inject_Z (- 2 ^ 1024)) then NegInf
  else Fin r.

Arguments binary64 : simpl never.
Arguments of_real : simpl never.

Definition truthy (v : json) : bool :=
  match v with
  | JNull => false
  | JBool b => b
  | JNum q => negb (Qeq_bool (binary64 q) 0%Q)
  | JStr s => negb (String.eqb s "")
  | JArr _ => true
  | JObj _ => true
  end.

Definition truthy_opt (o : option json) : bool :=
  match o with
  | Some v => truthy v
  | None => false
  end.

(** [a || b] *)
Definition js_or (a b : option json) : option json :=
  if truthy_opt a then a else b.

(** [a ?? b] *)
Definition nullish_or (a : option json) (b : json) : json :=
  match a with
  | None | Some JNull => b
  | Some v => v
  end.

(** [Array.prototype.join] with its default separator, [convert] being the
    conversion of an element to a string. *)
Fixpoint join (convert : json -> result string) (xs : list json) : result string :=
  match xs with
  | [] => Ok ""
  | x :: rest =>
      bind (match x with
            | JNull => Ok ""
            | _ => convert x
            end)
           (fun s =>
              match rest with
              | [] => Ok s
              | _ :: _ => bind (join convert rest) (fun t => Ok (s ++ "," ++ t))
              end)
  end.

(** [String(v)], also the conversion of a template literal.  An array
    prints as its elements joined by commas, [null] among them as nothing.
    An object that has a member of its own named [toString] (never a
    function in a decoded body) cannot be converted: neither that member
    nor [valueOf] yields a primitive value. *)
Fixpoint String_ `{RT : Runtime} (v : json) : result string :=
  match v with
  | JStr s => Ok s
  | JNull => Ok "null"
  | JBool true => Ok "true"
  | JBool false => Ok "false"
  | JNum q => Ok (NumberToString q)
  | JArr items => join String_ items
  | JObj fields =>
      match assoc "toString" fields with
      | Some _ => Throw TypeError
      | None => Ok "[object Object]"
      end
  end.

(** [Number(v)]; an array or an object is converted to a string first. *)
Definition Number_ `{RT : Runtime} (v : json) : result number :=
  match v with
  | JNull => Ok (Fin 0%Q)
  | JBool b => Ok (Fin (if b then 1%Q else 0%Q))
  | JNum q => Ok (of_real q)
  | JStr s => Ok (StringToNumber s)
  | JArr _ | JObj _ => bind (String_ v) (fun s => Ok (StringToNumber s))
  end.

(** [n || 0] *)
Definition or_zero (n : number) : number :=
  match n with
  | NaN => Fin 0%Q
  | Fin q => if Qeq_bool q 0%Q then Fin 0%Q else Fin q
  | PosInf => PosInf
  | NegInf => NegInf
  end.

(** [n + 1] *)
Definition plus_one (n : number) : number :=
  match n with
  | Fin q => Fin (binary64 (q + 1))
  | other => other
  end.

(** [n > q] *)
Definition num_gt (n : number) (q : Q) : bool :=
  match n with
  | NaN => false
  | Fin p => negb (Qle_bool p q)
  | PosInf => true
  | NegInf => false
  end.

Definition double_quote : ascii := ascii_of_nat 34.

(** The global [replace] of the parsers: every single quote becomes a
    double quote. *)
Fixpoint replace_single_quotes (s : string) : string :=
  match s with
  | EmptyString => EmptyString
  | String c rest =>
      String (if Ascii.eqb c "'"%char then double_quote else c)
             (replace_single_quotes rest)
  end.

(** White space removed by [trim]: TAB, LF, VT, FF, CR, SP and NBSP. *)
Definition is_space (c : ascii) : bool :=
  match nat_of_ascii c with
  | 9 | 10 | 11 | 12 | 13 | 32 | 160 => true
  | _ => false
  end.

Fixpoint trim_start (s : string) : string :=
  match s with
  | EmptyString => EmptyString
  | String c rest => if is_space c then trim_start rest else s
  end.

Fixpoint reverse (s : string) : string :=
  match s with
  | EmptyString => EmptyString
  | String c rest => reverse rest ++ String c EmptyString
  end.

(** [s.trim()] *)
Definition trim (s : string) : string :=
  reverse (trim_start (reverse (trim_start s))).

(** [!text || !text.trim()] *)
Definition blank (text : string) : bool :=
  String.eqb text "" || String.eqb (trim text) "".

End JS.

Module JSNotations.
Notation "x <- c ;; k" := (JS.bind c (fun x => k))
  (at level 61, c at next level, right associativity).
End JSNotations.

(* ================================================================== *)
(** ** [lib/api-client.ts] *)
(* ================================================================== *)

Module ApiClient.
Import JS JSNotations.

Inductive ConnectionType : Type :=
| correlation
| contradiction
| elaboration
| context.

Definition BBox : Type := (number * number * number * number)%type.

Record BackendRecommendation : Type := {
  id : json;                 (* [ids[i] as string]: the value itself, unchecked *)
  sourceDocument : string;
  snippet : string;
  pageNumber : number;
  boundingBox : BBox;
  relevanceScore : Q;
  connectionType : ConnectionType
}.

(** What [extractAndSearch] resolves to: either [raw.recommendations]
    returned as it came, under a type assertion only, or the list built
    from a search-result bundle. *)
Inductive Recommendations : Type :=
| PassedThrough (items : list json)
| Normalized (items : list BackendRecommendation).

(** Of a decoded insights body the page reads the [insight] member, and
    hands it to the renderer as it came. *)
Record BackendInsightResponse : Type := {
  insight : option json
}.

Record Response : Type := {
  ok : bool;
  statusText : string;
  body : string
}.

(** How [fetch] settles. *)
Inductive FetchOutcome : Type :=
| Rejected
| Fulfilled (response : Response).

Section WithRuntime.
Context `{RT : Runtime}.

Definition API_BASE_URL : string :=
  match NEXT_PUBLIC_BACKEND_API_URL with
  | Some url => if String.eqb url "" then "http://localhost:8000" else url
  | None => "http://localhost:8000"
  end.

Definition getPdfUrl (filename : string) : string :=
  API_BASE_URL ++ "/get_pdf/" ++ encodeURIComponent filename.

(** [await response.json()] *)
Definition response_json (response : Response) : result json :=
  match JSON_parse (body response) with
  | Some v => Ok v
  | None => Throw SyntaxError
  end.

Definition parse_requoted (s : string) : result json :=
  match JSON_parse (replace_single_quotes s) with
  | Some v => Ok v
  | None => Throw SyntaxError
  end.

(** The body of the [try] of [parsePageStart]: [Ok (Some n)] when a
    [return] inside it is reached, [Ok None] when control falls out of it. *)
Definition parsePageStart_try (pageRange : option json) : result (option number) :=
  match pageRange with
  | Some (JStr s) =>
      parsed <- parse_requoted s ;;
      match parsed with
      | JArr (first :: _) => n <- Number_ first ;; Ok (Some (or_zero n))
      | _ => Ok None
      end
  | Some (JArr (first :: _)) => n <- Number_ first ;; Ok (Some (or_zero n))
  | _ => Ok None
  end.

Definition parsePageStart (pageRange : option json) : number :=
  match parsePageStart_try pageRange with
  | Ok (Some n) => n
  | Ok None => Fin 0%Q
  | Throw _ => Fin 0%Q
  end.

Definition bbox_of (bb : json) : result (option BBox) :=
  match bb with
  | JArr [a; b; c; d] =>
      x0 <- Number_ a ;;
      y0 <- Number_ b ;;
      x1 <- Number_ c ;;
      y1 <- Number_ d ;;
      Ok (Some (or_zero x0, or_zero y0, or_zero x1, or_zero y1))
  | _ => Ok None
  end.

Definition parseFirstBBox_try (bboxes : option json) : result (option BBox) :=
  parsed <- match bboxes with
            | Some (JStr s) => v <- parse_requoted s ;; Ok (Some v)
            | other => Ok other
            end ;;
  match parsed with
  | Some (JArr (bb :: _)) => bbox_of bb
  | _ => Ok None
  end.

Definition zero_bbox : BBox := (Fin 0%Q, Fin 0%Q, Fin 0%Q, Fin 0%Q).

Definition parseFirstBBox (bboxes : option json) : BBox :=
  match parseFirstBBox_try bboxes with
  | Ok (Some bb) => bb
  | Ok None => zero_bbox
  | Throw _ => zero_bbox
  end.

(** [Array.isArray(searchResults?.key?.[0]) ? searchResults.key[0] : []] *)
Definition column (key : string) (searchResults : json) : list json :=
  match get_prop key searchResults with
  | None | Some JNull => []
  | Some v =>
      match index0 (Some v) with
      | Some (JArr items) => items
      | _ => []
      end
  end.

(** [typeof relevance === 'number' ? 1 - Math.min(Math.max(relevance, 0), 1)
                                  : 0.8 - (i * 0.1)], in doubles: the
    constants are the doubles nearest to them and each operation rounds.  A
    distance too large for a double reads as an infinity and is clamped to
    1 like any number above 1, which is what the clamp makes of its
    rounding here. *)
Definition relevance_score (relevance : option json) (i : nat) : Q :=
  match relevance with
  | Some (JNum d) => binary64 (1 - Qmin (Qmax (binary64 d) 0) 1)%Q
  | _ => binary64 (binary64 0.8%Q - binary64 (inject_Z (Z.of_nat i) * binary64 0.1%Q))%Q
  end.

(** [relevanceScore > 0.8], then [relevanceScore > 0.6] *)
Definition connection_of (relevanceScore : Q) : ConnectionType :=
  if negb (Qle_bool relevanceScore (binary64 0.8%Q)) then elaboration
  else if negb (Qle_bool relevanceScore (binary64 0.6%Q)) then correlation
  else context.

(** [snippet.length > 200]; reading [length] off [null] throws, and so
    does the comparison when the member of an object cannot be converted. *)
Definition length_over_200 (snippet : json) : result bool :=
  match snippet with
  | JNull => Throw TypeError
  | JStr s => Ok (Nat.ltb 200 (String.length s))
  | JArr items => Ok (Nat.ltb 200 (List.length items))
  | JObj fields =>
      match assoc "length" fields with
      | Some v => n <- Number_ v ;; Ok (num_gt n 200%Q)
      | None => Ok false
      end
  | JBool _ | JNum _ => Ok false
  end.

(** [meta?.document || meta?.sourceDocument || 'Unknown Document'] *)
Definition document_label (meta : json) : json :=
  match js_or (js_or (get_prop "document" meta) (get_prop "sourceDocument" meta))
              (Some (JStr "Unknown Document")) with
  | Some v => v
  | None => JStr "Unknown Document"
  end.

(** [snippet || ''] *)
Definition or_empty (snippet : json) : json :=
  if truthy snippet then snippet else JStr "".

Definition decimal (i : nat) : string := NilZero.string_of_uint (Nat.to_uint i).

(** [metadatas[i] || {}] *)
Definition meta_at (metadatas : list json) (i : nat) : json :=
  match nth_error metadatas i with
  | Some m => if truthy m then m else JObj []
  | None => JObj []
  end.

(** The callback of [documents.slice(0, 3).map((snippet, i) => ...)]. *)
Definition recommendation_of (metadatas ids distances : list json)
    (i : nat) (snippet : json) : result BackendRecommendation :=
  let meta := meta_at metadatas i in
  let pageStartZeroIndexed := parsePageStart (get_prop "page_range" meta) in
  let pageNumber := plus_one pageStartZeroIndexed in
  let boundingBox := parseFirstBBox (get_prop "chunk_bboxes" meta) in
  let relevance := nth_error distances i in
  let relevanceScore := relevance_score relevance i in
  let connectionType := connection_of relevanceScore in
  source <- String_ (document_label meta) ;;
  shown <- String_ (or_empty snippet) ;;
  over <- length_over_200 snippet ;;
  Ok {| id := match nth_error ids i with
              | Some v => if truthy v then v else JStr ("rec-" ++ decimal i)
              | None => JStr ("rec-" ++ decimal i)
              end;
        sourceDocument := source;
        snippet := substring 0 200 shown ++ (if over then "..." else "");
        pageNumber := pageNumber;
        boundingBox := boundingBox;
        relevanceScore := relevanceScore;
        connectionType := connectionType |}.

(** [xs.map((x, i) => f(i, x))] for a callback that may throw, [i] counted
    from [start]. *)
Fixpoint map_indexed {A B : Type} (f : nat -> A -> result B) (start : nat)
    (xs : list A) : result (list B) :=
  match xs with
  | [] => Ok []
  | x :: rest =>
      y <- f start x ;;
      ys <- map_indexed f (S start) rest ;;
      Ok (y :: ys)
  end.

(** Lines 92-154 of [extractAndSearch]: a search-result bundle made into
    recommendations. *)
Definition normalize_bundle (raw : json) : result Recommendations :=
  let searchResults := nullish_or (get_prop "search_results" raw) raw in
  let documents := column "documents" searchResults in
  let metadatas := column "metadatas" searchResults in
  let ids := column "ids" searchResults in
  let distances := column "distances" searchResults in
  recommendations <-
    map_indexed (recommendation_of metadatas ids distances) 0
                (firstn 3 documents) ;;
  Ok (Normalized recommendations).

(** Lines 85-156 of [extractAndSearch]: what is done with the decoded body. *)
Definition normalize (raw : json) : result Recommendations :=
  match get_prop "recommendations" raw with
  | Some (JArr items) => Ok (PassedThrough items)
  | _ => normalize_bundle raw
  end.

(** [extractAndSearch], from the point where [fetch] settles.  The outer
    [catch] logs and rethrows. *)
Definition extractAndSearch (settled : FetchOutcome) : result Recommendations :=
  try_catch
    (match settled with
     | Rejected => Throw NetworkError
     | Fulfilled response =>
         if ok response then raw <- response_json response ;; normalize raw
         else Throw (Error ("Extract and search failed: " ++ statusText response))
     end)
    (fun error => Throw error).

(** [getInsights], from the point where [fetch] settles. *)
Definition getInsights (settled : FetchOutcome) : result json :=
  try_catch
    (match settled with
     | Rejected => Throw NetworkError
     | Fulfilled response =>
         if ok response then response_json response
         else
           try_catch
             (err <- response_json response ;;
              let structured :=
                js_or (js_or (get_prop "detail" err) (get_prop "message" err))
                      (get_prop "error" err) in
              detail <-
                (if truthy err && truthy_opt structured
                 then match structured with
                      | Some v => String_ v
                      | None => Ok "undefined"
                      end
                 else Ok (statusText response)) ;;
              Throw (Error ("Insights failed: " ++ detail)))
             (fun _ => Throw (Error ("Insights failed: " ++ statusText response)))
     end)
    (fun error => Throw error).

End WithRuntime.

End ApiClient.

(* ================================================================== *)
(** ** [app/(main)/page.tsx]: the state of [DocumentViewPage] *)
(* ================================================================== *)

Module Page.
Import JS ApiClient.

(** The capability object handed over by the rendering surface.  Only its
    identity matters here; what is asked of it is recorded in the world. *)
Record ViewerAPIs : Type := {
  handle : nat
}.

Record File : Type := {
  file_name : string
}.

Inductive AnnotationType : Type :=
| HIGHLIGHT.

Module Annotation.
Record t : Type := {
  pageNumber : number;
  type : AnnotationType;
  boundingBox : BBox;
  color : string;
  opacity : Q
}.
End Annotation.

Record DocumentFile : Type := {
  df_id : option string;
  url : option string;
  name : string;
  file : option File
}.

Record Document : Type := {
  doc_id : string;
  doc_name : string;
  uploadedAt : string
}.

Inductive View : Type :=
| upload
| library
| viewer.

Record State : Type := {
  document : option DocumentFile;
  viewerApis : option ViewerAPIs;
  recommendations : Recommendations;
  isLoading : bool;
  error : option string;
  annotations : list Annotation.t;
  insights : option BackendInsightResponse;
  isInsightsLoading : bool;
  currentView : View;
  selectedDocument : option Document;
  selectionTimerRef : option positive
}.

Definition setDocument (v : option DocumentFile) (s : State) : State :=
  {| document := v; viewerApis := viewerApis s;
     recommendations := recommendations s; isLoading := isLoading s;
     error := error s; annotations := annotations s; insights := insights s;
     isInsightsLoading := isInsightsLoading s; currentView := currentView s;
     selectedDocument := selectedDocument s;
     selectionTimerRef := selectionTimerRef s |}.

Definition setViewerApis (v : option ViewerAPIs) (s : State) : State :=
  {| document := document s; viewerApis := v;
     recommendations := recommendations s; isLoading := isLoading s;
     error := error s; annotations := annotations s; insights := insights s;
     isInsightsLoading := isInsightsLoading s; currentView := currentView s;
     selectedDocument := selectedDocument s;
     selectionTimerRef := selectionTimerRef s |}.

Definition setRecommendations (v : Recommendations) (s : State) : State :=
  {| document := document s; viewerApis := viewerApis s;
     recommendations := v; isLoading := isLoading s;
     error := error s; annotations := annotations s; insights := insights s;
     isInsightsLoading := isInsightsLoading s; currentView := currentView s;
     selectedDocument := selectedDocument s;
     selectionTimerRef := selectionTimerRef s |}.

Definition setIsLoading (v : bool) (s : State) : State :=
  {| document := document s; viewerApis := viewerApis s;
     recommendations := recommendations s; isLoading := v;
     error := error s; annotations := annotations s; insights := insights s;
     isInsightsLoading := isInsightsLoading s; currentView := currentView s;
     selectedDocument := selectedDocument s;
     selectionTimerRef := selectionTimerRef s |}.

Definition setError (v : option string) (s : State) : State :=
  {| document := document s; viewerApis := viewerApis s;
     recommendations := recommendations s; isLoading := isLoading s;
     error := v; annotations := annotations s; insights := insights s;
     isInsightsLoading := isInsightsLoading s; currentView := currentView s;
     selectedDocument := selectedDocument s;
     selectionTimerRef := selectionTimerRef s |}.

Definition setAnnotations (v : list Annotation.t) (s : State) : State :=
  {| document := document s; viewerApis := viewerApis s;
     recommendations := recommendations s; isLoading := isLoading s;
     error := error s; annotations := v; insights := insights s;
     isInsightsLoading := isInsightsLoading s; currentView := currentView s;
     selectedDocument := selectedDocument s;
     selectionTimerRef := selectionTimerRef s |}.

Definition setInsights (v : option BackendInsightResponse) (s : State) : State :=
  {| document := document s; viewerApis := viewerApis s;
     recommendations := recommendations s; isLoading := isLoading s;
     error := error s; annotations := annotations s; insights := v;
     isInsightsLoading := isInsightsLoading s; currentView := currentView s;
     selectedDocument := selectedDocument s;
     selectionTimerRef := selectionTimerRef s |}.

Definition setIsInsightsLoading (v : bool) (s : State) : State :=
  {| document := document s; viewerApis := viewerApis s;
     recommendations := recommendations s; isLoading := isLoading s;
     error := error s; annotations := annotations s; insights := insights s;
     isInsightsLoading := v; currentView := currentView s;
     selectedDocument := selectedDocument s;
     selectionTimerRef := selectionTimerRef s |}.

Definition setCurrentView (v : View) (s : State) : State :=
  {| document := document s; viewerApis := viewerApis s;
     recommendations := recommendations s; isLoading := isLoading s;
     error := error s; annotations := annotations s; insights := insights s;
     isInsightsLoading := isInsightsLoading s; currentView := v;
     selectedDocument := selectedDocument s;
     selectionTimerRef := selectionTimerRef s |}.

Definition setSelectedDocument (v : option Document) (s : State) : State :=
  {| document := document s; viewerApis := viewerApis s;
     recommendations := recommendations s; isLoading := isLoading s;
     error := error s; annotations := annotations s; insights := insights s;
     isInsightsLoading := isInsightsLoading s; currentView := currentView s;
     selectedDocument := v;
     selectionTimerRef := selectionTimerRef s |}.

(** [selectionTimerRef.current = v] *)
Definition assignSelectionTimerRef (v : option positive) (s : State) : State :=
  {| document := document s; viewerApis := viewerApis s;
     recommendations := recommendations s; isLoading := isLoading s;
     error := error s; annotations := annotations s; insights := insights s;
     isInsightsLoading := isInsightsLoading s; currentView := currentView s;
     selectedDocument := selectedDocument s;
     selectionTimerRef := v |}.

(** The values of the [useState] / [useRef] calls at mount. *)
Definition mounted : State :=
  {| document := None; viewerApis := None;
     recommendations := Normalized []; isLoading := false;
     error := None; annotations := []; insights := None;
     isInsightsLoading := false; currentView := upload;
     selectedDocument := None; selectionTimerRef := None |}.

(** *** View state controller *)

Definition handleViewerReady (apis : ViewerAPIs) (s : State) : State :=
  setViewerApis (Some apis) s.

Definition handleUploadComplete (uploadedFiles : list string) (s : State) : State :=
  setCurrentView library s.

Definition handleDocumentSelect `{RT : Runtime} (doc : Document) (s : State) : State :=
  setError None
    (setInsights None
      (setAnnotations []
        (setRecommendations (Normalized [])
          (setViewerApis None
            (setCurrentView viewer
              (setDocument
                 (Some {| df_id := Some (doc_id doc);
                          url := Some (getPdfUrl (doc_name doc));
                          name := doc_name doc;
                          file := None |})
                 (setSelectedDocument (Some doc) s))))))).

Definition handleBackToLibrary (s : State) : State :=
  setSelectedDocument None (setDocument None (setCurrentView library s)).

Definition handleBackToUpload (s : State) : State :=
  setSelectedDocument None (setDocument None (setCurrentView upload s)).

Definition handleOpenSinglePdf (f : File) (s : State) : State :=
  setError None
    (setInsights None
      (setAnnotations []
        (setRecommendations (Normalized [])
          (setViewerApis None
            (setCurrentView viewer
              (setDocument
                 (Some {| df_id := None; url := None;
                          name := file_name f; file := Some f |})
                 s)))))).

(** The [onClick] of the Library button of the header, written in line in
    the JSX: [() => setCurrentView('library')]. *)
Definition libraryButtonClick (s : State) : State :=
  setCurrentView library s.

(** *** Insights *)

(** [handleFetchInsights] once a call under its [try] has thrown [err]: the
    [catch], where every exception of the client is an [Error], then the
    [finally]. *)
Definition handleFetchInsights_failed `{RT : Runtime} (err : exn) (s : State) : State :=
  setIsInsightsLoading false (setError (Some (message_of err)) s).

(** *** Annotation overlay synchronizer *)

Definition highlight (recommendation : BackendRecommendation) : Annotation.t :=
  {| Annotation.pageNumber := pageNumber recommendation;
     Annotation.type := HIGHLIGHT;
     Annotation.boundingBox := boundingBox recommendation;
     Annotation.color := "#FBBF24";
     Annotation.opacity := 0.4%Q |}.

End Page.

(* ================================================================== *)
(** ** The page in its event loop *)
(* ================================================================== *)

(** One logical thread runs the handlers; between two handlers the
    environment decides what happens next: the user acts, time passes and
    due timers fire, a promise of an invocation suspended at an [await]
    settles.  [World] holds the component state together with what the
    browser holds for it. *)

Module EventLoop.
Import JS ApiClient Page.

(** A pending [window.setTimeout].  The callback scheduled by
    [handleTextSelect] is [() => processSelectionWithScreenshot(selectedText)];
    what it closes over is the text and the [viewerApis] of the render that
    created [processSelectionWithScreenshot]. *)
Record Timer : Type := {
  timer_id : positive;
  due : N;
  captured_text : string;
  captured_viewerApis : option ViewerAPIs
}.

(** Where an invocation of [processSelectionWithScreenshot] is suspended. *)
Inductive Stage : Type :=
| AwaitingScreenshot
| AwaitingSearch (screenshot : File).

(** [run_id] names the suspended invocation, in order of start; no handler
    reads it. *)
Record Run : Type := {
  run_id : nat;
  run_text : string;
  stage : Stage
}.

(** A [POST /extract_and_search/] handed to [fetch]. *)
Record Request : Type := {
  issued_by : nat;
  image : File;
  text : string
}.

Inductive ViewerCall : Type :=
| goToLocation (apis : ViewerAPIs) (page : number)
| addAnnotations (apis : ViewerAPIs) (annotations : list Annotation.t).

(** The effect of [PdfViewer] on [[viewerApis, annotations]]
    ([DocumentLibrary.tsx], lines 448-453), for the handle the component
    holds and the list the page passes down: a list that is not empty is
    handed to the rendering surface.  No other call of the repository
    concerns annotations; in particular nothing is ever asked to be
    removed. *)
Definition drawAnnotations (viewerApis : option ViewerAPIs)
    (annotations : list Annotation.t) : list ViewerCall :=
  match viewerApis with
  | Some apis =>
      if Nat.ltb 0 (List.length annotations)
      then [addAnnotations apis annotations]
      else []
  | None => []
  end.

Record World : Type := {
  page : State;
  now : N;
  timers : list Timer;
  next_timer : positive;
  viewer_element : bool;
  runs : list Run;
  next_run : nat;
  requests : list Request;
  viewer_calls : list ViewerCall
}.

Definition with_page (p : State) (w : World) : World :=
  {| page := p; now := now w; timers := timers w; next_timer := next_timer w;
     viewer_element := viewer_element w; runs := runs w;
     next_run := next_run w; requests := requests w;
     viewer_calls := viewer_calls w |}.

Definition with_runs (rs : list Run) (w : World) : World :=
  {| page := page w; now := now w; timers := timers w;
     next_timer := next_timer w; viewer_element := viewer_element w;
     runs := rs; next_run := next_run w; requests := requests w;
     viewer_calls := viewer_calls w |}.

Definition booted : World :=
  {| page := mounted; now := 0%N; timers := []; next_timer := 1%positive;
     viewer_element := false; runs := []; next_run := 0; requests := [];
     viewer_calls := [] |}.

Definition failure_message : string := "Failed to process selection. Try again.".

(** [catch { setError(...) } finally { setIsLoading(false) }] *)
Definition fail_run (p : State) : State :=
  setIsLoading false (setError (Some failure_message) p).

(** [window.clearTimeout(id)] *)
Definition clearTimeout (id : positive) (ts : list Timer) : list Timer :=
  filter (fun t => negb (Pos.eqb (timer_id t) id)) ts.

Definition debounce_ms : N := 600.

Definition handleTextSelect (selectedText : string) (w : World) : World :=
  let p := setAnnotations [] (page w) in
  let kept := match selectionTimerRef p with
              | Some id => clearTimeout id (timers w)
              | None => timers w
              end in
  let id := next_timer w in
  {| page := assignSelectionTimerRef (Some id) p;
     now := now w;
     timers := kept ++ [ {| timer_id := id;
                            due := (now w + debounce_ms)%N;
                            captured_text := selectedText;
                            captured_viewerApis := viewerApis (page w) |} ];
     next_timer := Pos.succ id;
     viewer_element := viewer_element w;
     runs := runs w; next_run := next_run w; requests := requests w;
     viewer_calls := viewer_calls w |}.

(** [processSelectionWithScreenshot(text)] up to its first [await]. *)
Definition processSelectionWithScreenshot
    (closure_viewerApis : option ViewerAPIs) (text : string) (w : World) : World :=
  match closure_viewerApis with
  | None => w
  | Some _ =>
      if blank text then w
      else
        let p := setInsights None (setError None (setIsLoading true (page w))) in
        if viewer_element w then
          {| page := p; now := now w; timers := timers w;
             next_timer := next_timer w; viewer_element := viewer_element w;
             runs := runs w ++ [ {| run_id := next_run w;
                                    run_text := trim text;
                                    stage := AwaitingScreenshot |} ];
             next_run := S (next_run w);
             requests := requests w; viewer_calls := viewer_calls w |}
        else with_page (fail_run p) w
  end.

(** The listener [PdfViewer] registers for the end of a selection (and its
    fall-back on [mouseup]), once [getSelectedContent()] has resolved with
    [rawText]: the text is trimmed and only handed to [onTextSelect] when
    something is left. *)
Definition selectionEnded (rawText : string) (w : World) : World :=
  let text := trim rawText in
  if Nat.ltb 0 (String.length text) then handleTextSelect text w else w.

Definition find_run (id : nat) (w : World) : option Run :=
  find (fun r => Nat.eqb (run_id r) id) (runs w).

Definition drop_run (id : nat) (w : World) : list Run :=
  filter (fun r => negb (Nat.eqb (run_id r) id)) (runs w).

(** The promise of [captureTextSelectionScreenshot] settles: rejected
    ([None]) or fulfilled with the image.  On fulfilment
    [apiClient.extractAndSearch(screenshot, text.trim())] builds the form and
    calls [fetch]. *)
Definition screenshotSettled (id : nat) (outcome : option File) (w : World) : World :=
  match find_run id w with
  | Some {| run_id := _; run_text := sent; stage := AwaitingScreenshot |} =>
      match outcome with
      | None => with_runs (drop_run id w) (with_page (fail_run (page w)) w)
      | Some screenshot =>
          {| page := page w; now := now w; timers := timers w;
             next_timer := next_timer w; viewer_element := viewer_element w;
             runs := drop_run id w ++ [ {| run_id := id; run_text := sent;
                                           stage := AwaitingSearch screenshot |} ];
             next_run := next_run w;
             requests := requests w ++ [ {| issued_by := id;
                                            image := screenshot;
                                            text := sent |} ];
             viewer_calls := viewer_calls w |}
      end
  | _ => w
  end.

(** The [fetch] of [extractAndSearch] settles and the rest of
    [processSelectionWithScreenshot] runs:
    [setRecommendations(result.recommendations || [])], or the [catch], then
    the [finally]. *)
Definition searchSettled `{RT : Runtime} (id : nat) (settled : FetchOutcome) (w : World) : World :=
  match find_run id w with
  | Some {| run_id := _; run_text := _; stage := AwaitingSearch _ |} =>
      match extractAndSearch settled with
      | Ok result =>
          with_runs (drop_run id w)
            (with_page (setIsLoading false (setRecommendations result (page w))) w)
      | Throw _ =>
          with_runs (drop_run id w) (with_page (fail_run (page w)) w)
      end
  | _ => w
  end.

Definition is_due (time : N) (t : Timer) : bool := (due t <=? time)%N.

(** A timer expires and its callback runs. *)
Definition fire (w : World) (t : Timer) : World :=
  processSelectionWithScreenshot (captured_viewerApis t) (captured_text t) w.

(** The clock advances by [ms].  Every timer of the page is set with the same delay, so
    the pending list, kept in order of creation, is in order of expiry. *)
Definition elapse (ms : N) (w : World) : World :=
  let time := (now w + ms)%N in
  fold_left fire
    (filter (is_due time) (timers w))
    {| page := page w; now := time;
       timers := filter (fun t => negb (is_due time t)) (timers w);
       next_timer := next_timer w; viewer_element := viewer_element w;
       runs := runs w; next_run := next_run w; requests := requests w;
       viewer_calls := viewer_calls w |}.

Definition handleJumpToPage (recommendation : BackendRecommendation) (w : World) : World :=
  match viewerApis (page w) with
  | Some apis =>
      {| page := setAnnotations [highlight recommendation] (page w);
         now := now w; timers := timers w; next_timer := next_timer w;
         viewer_element := viewer_element w; runs := runs w;
         next_run := next_run w; requests := requests w;
         viewer_calls := viewer_calls w
                         ++ [goToLocation apis (pageNumber recommendation)] |}
  | None => w
  end.

Inductive Event : Type :=
| SelectionEnded (rawText : string)
| TextSelect (selectedText : string)
| Elapse (ms : N)
| ScreenshotSettled (run : nat) (outcome : option File)
| SearchSettled (run : nat) (settled : FetchOutcome)
| JumpToPage (recommendation : BackendRecommendation)
| ViewerReady (apis : ViewerAPIs)
| UploadComplete (uploadedFiles : list string)
| DocumentSelect (doc : Document)
| OpenSinglePdf (f : File)
| BackToLibrary
| BackToUpload
| LibraryButton
| ViewerElement (present : bool).

Definition step `{RT : Runtime} (w : World) (e : Event) : World :=
  match e with
  | SelectionEnded rawText => selectionEnded rawText w
  | TextSelect selectedText => handleTextSelect selectedText w
  | Elapse ms => elapse ms w
  | ScreenshotSettled run outcome => screenshotSettled run outcome w
  | SearchSettled run settled => searchSettled run settled w
  | JumpToPage recommendation => handleJumpToPage recommendation w
  | ViewerReady apis => with_page (handleViewerReady apis (page w)) w
  | UploadComplete files => with_page (handleUploadComplete files (page w)) w
  | DocumentSelect doc => with_page (handleDocumentSelect doc (page w)) w
  | OpenSinglePdf f => with_page (handleOpenSinglePdf f (page w)) w
  | BackToLibrary => with_page (handleBackToLibrary (page w)) w
  | BackToUpload => with_page (handleBackToUpload (page w)) w
  | LibraryButton => with_page (libraryButtonClick (page w)) w
  | ViewerElement present =>
      {| page := page w; now := now w; timers := timers w;
         next_timer := next_timer w; viewer_element := present;
         runs := runs w; next_run := next_run w; requests := requests w;
         viewer_calls := viewer_calls w |}
  end.

Definition exec `{RT : Runtime} (events : list Event) (w : World) : World :=
  fold_left step events w.

(** A burst of raw selections: each event with the time elapsed since the
    one before. *)
Definition burst (selections : list (N * string)) : list Event :=
  flat_map (fun '(gap, selectedText) => [Elapse gap; TextSelect selectedText])
           selections.

(** The events by which the user selects text. *)
Definition is_selection (e : Event) : bool :=
  match e with
  | SelectionEnded _ | TextSelect _ => true
  | _ => false
  end.

(** The events that put recommendations in place: a search that comes back
    fulfilled, and entering the viewer, which empties them. *)
Definition replaces_recommendations `{RT : Runtime} (e : Event) : bool :=
  match e with
  | SearchSettled _ settled =>
      match extractAndSearch settled with
      | Ok _ => true
      | Throw _ => false
      end
  | DocumentSelect _ | OpenSinglePdf _ => true
  | _ => false
  end.

(** Nothing is pending: no timer and no suspended invocation. *)
Definition quiet (w : World) : Prop := timers w = [] /\ runs w = [].

(** The run started last. *)
Definition latest_issued (w : World) : option nat :=
  match next_run w with
  | O => None
  | S n => Some n
  end.

(** Every pending timer is the one [selectionTimerRef] points at. *)
Definition timers_tracked (w : World) : Prop :=
  forall t, In t (timers w) -> selectionTimerRef (page w) = Some (timer_id t).

(** Suspended invocations carry numbers already given out. *)
Definition runs_numbered (w : World) : Prop :=
  forall r, In r (runs w) -> run_id r < next_run w.

Definition wellformed (w : World) : Prop :=
  timers_tracked w /\ runs_numbered w.

(** Where a burst that began in [w0] stands after one of its selections:
    one timer is pending, due a quiet period from now, holding the text of
    that selection; nothing has been started or sent since [w0]. *)
Definition armed (w0 : World) (apis : ViewerAPIs) (selectedText : string)
    (w : World) : Prop :=
  (exists id,
      timers w = [ {| timer_id := id;
                      due := (now w + debounce_ms)%N;
                      captured_text := selectedText;
                      captured_viewerApis := Some apis |} ]) /\
  timers_tracked w /\
  viewerApis (page w) = Some apis /\
  viewer_element w = true /\
  runs w = runs w0 /\ next_run w = next_run w0 /\ requests w = requests w0.

End EventLoop.

(* ================================================================== *)
(** ** The properties as the specification words them *)
(* ================================================================== *)

Module Contract.
Import JS ApiClient Page EventLoop.

Definition entries (r : Recommendations) : nat :=
  match r with
  | PassedThrough items => List.length items
  | Normalized items => List.length items
  end.









(** "For every burst of raw selections within the quiet period of each
    other exactly one downstream request is issued, and it carries the text
    of the last event", for the burst [selections] met in [w] and followed
    by the events [later]; the text as the pipeline sends it, trimmed. *)
Definition one_request_per_burst `{RT : Runtime} (w : World)
    (selections : list (N * string)) (later : list Event) : Prop :=
  exists request,
    requests (exec (burst selections ++ later) w) = (requests w ++ [request])%list /\
    text request = trim (snd (last selections (0%N, ""))).

(** "A result is committed iff its generation equals the latest issued
    generation at completion time", for the run [id] of [w] whose search
    settles with [settled]. *)
Definition generation_gate `{RT : Runtime} (w : World) (id : nat) (settled : FetchOutcome) : Prop :=
  forall result,
    extractAndSearch settled = Ok result ->
    (recommendations (page (step w (SearchSettled id settled))) = result
     <-> latest_issued w = Some id).

End Contract.

(* ================================================================== *)
(** ** Stand-ins for the platform, used to run the definitions *)
(* ================================================================== *)

Module Doubles.
Import JS ApiClient Page EventLoop.

(** A runtime whose [JSON.parse] answers from a table of texts and throws
    on any other text. *)
Definition table_runtime (parses : list (string * json)) : Runtime :=
  {| JSON_parse := fun s => assoc s parses;
     StringToNumber := fun _ => NaN;
     NumberToString := fun q => NilZero.string_of_int (Z.to_int (Qfloor q));
     encodeURIComponent := fun s => s;
     NEXT_PUBLIC_BACKEND_API_URL := None;
     native_message := fun _ => "Failed to fetch" |}.

Fixpoint filler (n : nat) : string :=
  match n with
  | O => EmptyString
  | S k => String "a"%char (filler k)
  end.

Definition ready_made (name : string) (score : Q) : json :=
  JObj [("id", JStr name); ("sourceDocument", JStr "report.pdf");
        ("snippet", JStr "text"); ("pageNumber", JNum 1%Q);
        ("boundingBox", JArr [JNum 0%Q; JNum 0%Q; JNum 0%Q; JNum 0%Q]);
        ("relevanceScore", JNum score); ("connectionType", JStr "context")].



(** An object that cannot be converted to a string or to a number: its
    own [toString] member hides the method. *)
Definition unprintable : json := JObj [("toString", JNum 1%Q)].

(** Metadata with a page range and boxes in order, and a document name
    that is such an object. *)
Definition unnamed_metadata : json :=
  JObj [("page_range", JArr [JNum 4%Q]);
        ("chunk_bboxes", JArr [JArr [JNum 1%Q; JNum 2%Q; JNum 3%Q; JNum 4%Q]]);
        ("document", unprintable)].

(** A failed insights response whose body carries a structured detail. *)
Definition insights_unavailable : Response :=
  {| ok := false;
     statusText := "Internal Server Error";
     body := "body-with-detail" |}.

Definition insights_runtime : Runtime :=
  table_runtime
    [("body-with-detail", JObj [("detail", JStr "No documents indexed yet")])].

Definition notes : File := {| file_name := "notes.pdf" |}.

(** The page showing a document opened from disk. *)
Definition reading : State := handleOpenSinglePdf notes mounted.

Definition surface : ViewerAPIs := {| handle := 1 |}.

Definition hit (name : string) (p : Q) : BackendRecommendation :=
  {| id := JStr name; sourceDocument := "report.pdf"; snippet := "text";
     pageNumber := Fin p;
     boundingBox := (Fin 88%Q, Fin 552%Q, Fin 520%Q, Fin 564%Q);
     relevanceScore := 0.9%Q; connectionType := elaboration |}.

Definition shot (n : string) : File := {| file_name := n |}.

Definition search_runtime : Runtime :=
  table_runtime
    [("results-for-alpha",
      JObj [("recommendations", JArr [ready_made "alpha-1" 0.9%Q])]);
     ("results-for-beta",
      JObj [("recommendations", JArr [ready_made "beta-1" 0.8%Q])])].

Definition answer (b : string) : FetchOutcome :=
  Fulfilled {| ok := true; statusText := "OK"; body := b |}.

(** Two selections a second apart, each processed on its own; both
    screenshots are taken, and the search of the later selection has come
    back while the search of the earlier one is still under way. *)
Definition overtaken : World :=
  exec (RT := search_runtime)
    [ViewerReady surface; ViewerElement true;
     TextSelect "alpha"; Elapse 1000;
     TextSelect "beta"; Elapse 1000;
     ScreenshotSettled 0 (Some (shot "alpha.jpg"));
     ScreenshotSettled 1 (Some (shot "beta.jpg"));
     SearchSettled 1 (answer "results-for-beta")]
    booted.

(** A viewer that is ready, with nothing pending. *)
Definition idle : World :=
  exec (RT := search_runtime) [ViewerReady surface; ViewerElement true] booted.

(** A document opened from disk is on show, its viewer is ready and
    nothing is pending. *)
Definition viewing : World :=
  exec (RT := search_runtime)
    [OpenSinglePdf notes; ViewerReady surface; ViewerElement true] booted.

(** The bundle of the scenario: one snippet, page range [[2]] given as a
    string, distance 0.1. *)
Definition scenario_bundle (text : string) : json :=
  JObj [("documents", JArr [JArr [JStr text]]);
        ("metadatas", JArr [JArr [JObj [("page_range", JStr "[2]")]]]);
        ("distances", JArr [JArr [JNum 0.1%Q]])].

End Doubles.

(* ================================================================== *)
(** ** [lib/api-client.ts]: the other operations of the gateway *)
(* ================================================================== *)

Module Gateway.
Import JS JSNotations ApiClient.

Record DocumentInfo : Type := {
  id : string;
  name : string;
  uploadedAt : json          (* [doc.uploadedAt] as it came, or the time stamp *)
}.

Fixpoint drop (n : nat) (s : string) : string :=
  match n, s with
  | O, _ => s
  | S k, EmptyString => EmptyString
  | S k, String _ rest => drop k rest
  end.

(** [s.replace(pattern, '')] for a text pattern: its first occurrence is
    taken out. *)
Fixpoint remove_first (pattern s : string) : string :=
  if String.prefix pattern s then drop (String.length pattern) s
  else match s with
       | EmptyString => EmptyString
       | String c rest => String c (remove_first pattern rest)
       end.

Fixpoint has_dash (s : string) : bool :=
  match s with
  | EmptyString => false
  | String c rest => Ascii.eqb c "-"%char || has_dash rest
  end.

(** [a || b] on texts. *)
Definition or_text (a b : string) : string :=
  if String.eqb a "" then b else a.

Section WithRuntime.
Context `{RT : Runtime}.

(** [(v && String(v).trim()) ? String(v).trim() : ''] *)
Definition trimmed_member (v : option json) : result string :=
  match v with
  | Some x =>
      if truthy x
      then printed <- String_ x ;;
           if negb (String.eqb (trim printed) "")
           then again <- String_ x ;; Ok (trim again)
           else Ok ""
      else Ok ""
  | None => Ok ""
  end.

(** The time stamp [new Date().toISOString()] is taken when entry [index]
    is built; [clock] gives it. *)
Definition uploaded_at (doc : json) (clock : nat -> string) (index : nat) : json :=
  match js_or (get_prop "uploadedAt" doc) (Some (JStr (clock index))) with
  | Some v => v
  | None => JStr (clock index)
  end.

(** The callback of [result.documents.map]. *)
Definition document_entry (clock : nat -> string) (index : nat) (raw : json)
    : result DocumentInfo :=
  let doc := nullish_or (Some raw) (JObj []) in
  baseId <- trimmed_member (get_prop "id" doc) ;;
  baseName <- trimmed_member (get_prop "name" doc) ;;
  let fallbackId := remove_first ".pdf" (or_text baseName "doc") ++ "-" ++ decimal index in
  Ok {| id := or_text baseId fallbackId;
        name := baseName;
        uploadedAt := uploaded_at doc clock index |}.

(** The callback of [result.pdfs.map]: an entry may be a bare file name. *)
Definition pdf_entry (clock : nat -> string) (index : nat) (raw : json)
    : result DocumentInfo :=
  let doc := nullish_or (Some raw) (JObj []) in
  let asObj := match doc with
               | JStr s => JObj [("filename", JStr s)]
               | other => other
               end in
  baseId <- trimmed_member (get_prop "id" asObj) ;;
  filename <- trimmed_member (get_prop "filename" asObj) ;;
  named <- trimmed_member (get_prop "name" asObj) ;;
  let name := or_text named filename in
  let fallbackId :=
    remove_first ".pdf" (or_text (or_text filename name) "doc") ++ "-" ++ decimal index in
  Ok {| id := or_text baseId fallbackId;
        name := name;
        uploadedAt := uploaded_at asObj clock index |}.

(** The id an entry brings along, trimmed; empty when it brings none. *)
Definition own_id (raw : json) : result string :=
  trimmed_member (get_prop "id" (nullish_or (Some raw) (JObj []))).

(** Lines 215-246 of [getDocuments]: what is made of the decoded body. *)
Definition documents_of (result : json) (clock : nat -> string)
    : JS.result (list DocumentInfo) :=
  match get_prop "documents" result with
  | Some (JArr items) => map_indexed (document_entry clock) 0 items
  | _ =>
      match get_prop "pdfs" result with
      | Some (JArr items) => map_indexed (pdf_entry clock) 0 items
      | _ => Ok []
      end
  end.

Definition getDocuments (settled : FetchOutcome) (clock : nat -> string)
    : result (list DocumentInfo) :=
  try_catch
    (match settled with
     | Rejected => Throw NetworkError
     | Fulfilled response =>
         if ok response
         then result <- response_json response ;; documents_of result clock
         else Throw (Error ("Get documents failed: " ++ statusText response))
     end)
    (fun error => Throw error).

Definition uploadPDFs (settled : FetchOutcome) : result json :=
  try_catch
    (match settled with
     | Rejected => Throw NetworkError
     | Fulfilled response =>
         if ok response then response_json response
         else Throw (Error ("Upload failed: " ++ statusText response))
     end)
    (fun error => Throw error).

Definition generatePodcast (settled : FetchOutcome) : result json :=
  try_catch
    (match settled with
     | Rejected => Throw NetworkError
     | Fulfilled response =>
         if ok response then response_json response
         else Throw (Error ("Podcast generation failed: " ++ statusText response))
     end)
    (fun error => Throw error).

(** [getPdf]: the body is handed over as a blob, undecoded. *)
Definition getPdf (settled : FetchOutcome) : result string :=
  try_catch
    (match settled with
     | Rejected => Throw NetworkError
     | Fulfilled response =>
         if ok response then Ok (body response)
         else Throw (Error ("Get PDF failed: " ++ statusText response))
     end)
    (fun error => Throw error).

End WithRuntime.

End Gateway.

(* ================================================================== *)
(** ** [app/(main)/page.tsx]: the buttons of the header *)
(* ================================================================== *)

(** [handleUseSelection] (Analyze Page) and [handleFetchInsights]
    (Insights), each cut at its [await]s, and the page with both of them
    next to the selection pipeline. *)

Module Toolbar.
Import JS ApiClient Page EventLoop.

Inductive Canvas : Type :=
| canvas_element.

(** [document.createElement('canvas')] as written in both handlers.  They
    are closures of [DocumentViewPage], where [document] is the state
    variable of line 37, a [DocumentFile] or [null]; it hides the DOM
    document, which line 69 reaches as [window.document].  Reading the
    member off [null] throws; a [DocumentFile] has no such member and
    calling [undefined] throws. *)
Definition createElement (document : option DocumentFile) (tag : string) : result Canvas :=
  match document with
  | None => Throw TypeError
  | Some _ => Throw TypeError
  end.

(** What has been handed to [fetch] by the two handlers. *)
Inductive Sent : Type :=
| SearchRequest (image : File) (text : string)
| InsightsRequest.

(** Where an invocation of one of the two handlers is suspended. *)
Inductive Stage : Type :=
| AnalysisSelection
| AnalysisBlob (selectedText : string)
| AnalysisSearch
| InsightsSelection
| InsightsBlob (selectedText : string)
| InsightsSearch
| InsightsFetch.

Record Desk : Type := {
  world : World;
  pending : list (nat * Stage);
  next_pending : nat;
  outbox : list Sent
}.

Definition seated : Desk :=
  {| world := booted; pending := []; next_pending := 0; outbox := [] |}.

Definition on_page (f : State -> State) (d : Desk) : Desk :=
  {| world := with_page (f (page (world d))) (world d);
     pending := pending d; next_pending := next_pending d;
     outbox := outbox d |}.

Definition suspend (id : nat) (at_stage : Stage) (d : Desk) : Desk :=
  {| world := world d;
     pending := pending d ++ [(id, at_stage)];
     next_pending := next_pending d;
     outbox := outbox d |}.

Definition send (request : Sent) (d : Desk) : Desk :=
  {| world := world d; pending := pending d;
     next_pending := next_pending d;
     outbox := outbox d ++ [request] |}.

Definition stage_of (id : nat) (d : Desk) : option Stage :=
  option_map snd (find (fun entry => Nat.eqb (fst entry) id) (pending d)).

Definition resume (id : nat) (d : Desk) : Desk :=
  {| world := world d;
     pending := filter (fun entry => negb (Nat.eqb (fst entry) id)) (pending d);
     next_pending := next_pending d;
     outbox := outbox d |}.

Definition fresh (d : Desk) : Desk :=
  {| world := world d; pending := pending d;
     next_pending := S (next_pending d); outbox := outbox d |}.

(** [(selection?.text || '').trim()], or [''] past the inner [catch]. *)
Definition selected_text (outcome : option (option string)) : string :=
  match outcome with
  | Some (Some t) => trim t
  | Some None => trim ""
  | None => ""
  end.

(** *** Analyze Page *)

Definition analysis_default : string :=
  "Please analyze this document page and find related content".

Definition analysis_failure : string :=
  "Failed to analyze page. Please try again.".

(** [catch] and [finally] of [handleUseSelection]. *)
Definition analysis_failed (s : State) : State :=
  setIsLoading false (setError (Some analysis_failure) s).

(** Lines 191-207: from the canvas to the [await] of the blob. *)
Definition analysis_from_text (selectedText : string) (id : nat) (d : Desk) : Desk :=
  match createElement (document (page (world d))) "canvas" with
  | Ok _ => suspend id (AnalysisBlob selectedText) d
  | Throw _ => on_page analysis_failed d
  end.

Definition handleUseSelection (d : Desk) : Desk :=
  let id := next_pending d in
  let started :=
    fresh (on_page (fun s => setInsights None (setError None (setIsLoading true s))) d) in
  match viewerApis (page (world d)) with
  | Some _ => suspend id AnalysisSelection started
  | None => analysis_from_text analysis_default id started
  end.

(** *** Insights *)

Definition insights_default : string :=
  "Generate insights for this document page".

Definition insights_from_text `{RT : Runtime} (selectedText : string) (id : nat)
    (d : Desk) : Desk :=
  match createElement (document (page (world d))) "canvas" with
  | Ok _ => suspend id (InsightsBlob selectedText) d
  | Throw err => on_page (handleFetchInsights_failed err) d
  end.

Definition handleFetchInsights `{RT : Runtime} (d : Desk) : Desk :=
  match insights (page (world d)) with
  | Some _ => on_page (setInsights None) d
  | None =>
      let id := next_pending d in
      let started :=
        fresh (on_page (fun s => setError None
                                   (setRecommendations (Normalized [])
                                      (setIsInsightsLoading true s))) d) in
      match viewerApis (page (world d)) with
      | Some _ => suspend id InsightsSelection started
      | None => insights_from_text insights_default id started
      end
  end.

(** [setInsights(data)] keeps the decoded body.  The page only tests that
    state for truth and reads its [insight] member; that much is kept
    here. *)
Definition insights_of (data : json) : option BackendInsightResponse :=
  if truthy data then Some {| insight := get_prop "insight" data |} else None.

(** *** The promises of the two handlers settle *)

(** [getSelectedContent()] settles: rejected ([None]), or fulfilled with a
    selection that may lack its text. *)
Definition selectedContentSettled `{RT : Runtime} (id : nat)
    (outcome : option (option string)) (d : Desk) : Desk :=
  let text := selected_text outcome in
  match stage_of id d with
  | Some AnalysisSelection =>
      analysis_from_text (if String.eqb text "" then analysis_default else text)
                         id (resume id d)
  | Some InsightsSelection =>
      insights_from_text (if String.eqb text "" then insights_default
                          else "Generate insights for: " ++ text)
                         id (resume id d)
  | _ => d
  end.

(** The callback of [canvas.toBlob] runs.  Without a blob the promise is
    never resolved and the invocation stays where it is. *)
Definition blobSettled (id : nat) (blob : bool) (d : Desk) : Desk :=
  match stage_of id d with
  | Some (AnalysisBlob selectedText) =>
      if blob
      then suspend id AnalysisSearch
             (send (SearchRequest {| file_name := "page_analysis.png" |} selectedText)
                   (resume id d))
      else d
  | Some (InsightsBlob selectedText) =>
      if blob
      then suspend id InsightsSearch
             (send (SearchRequest {| file_name := "insights_analysis.png" |} selectedText)
                   (resume id d))
      else d
  | _ => d
  end.

Definition searchReturned `{RT : Runtime} (id : nat) (settled : FetchOutcome)
    (d : Desk) : Desk :=
  match stage_of id d with
  | Some AnalysisSearch =>
      match extractAndSearch settled with
      | Ok result =>
          on_page (fun s => setIsLoading false (setRecommendations result s))
                  (resume id d)
      | Throw _ => on_page analysis_failed (resume id d)
      end
  | Some InsightsSearch =>
      match extractAndSearch settled with
      | Ok _ => suspend id InsightsFetch (send InsightsRequest (resume id d))
      | Throw err => on_page (handleFetchInsights_failed err) (resume id d)
      end
  | _ => d
  end.

Definition insightsReturned `{RT : Runtime} (id : nat) (settled : FetchOutcome)
    (d : Desk) : Desk :=
  match stage_of id d with
  | Some InsightsFetch =>
      match getInsights settled with
      | Ok data =>
          on_page (fun s => setIsInsightsLoading false (setInsights (insights_of data) s))
                  (resume id d)
      | Throw err => on_page (handleFetchInsights_failed err) (resume id d)
      end
  | _ => d
  end.

(** *** The page with its header *)

(** The Analyze Page button is rendered in the viewer with a document and
    is disabled while [!viewerApis || isLoading]. *)
Definition analyze_enabled (s : State) : bool :=
  match currentView s, document s, viewerApis s with
  | viewer, Some _, Some _ => negb (isLoading s)
  | _, _, _ => false
  end.

(** The Insights button is rendered in the viewer with a document and is
    disabled while [isInsightsLoading]. *)
Definition insights_enabled (s : State) : bool :=
  match currentView s, document s with
  | viewer, Some _ => negb (isInsightsLoading s)
  | _, _ => false
  end.

Inductive Action : Type :=
| Core (e : Event)
| AnalyzePage
| FetchInsights
| SelectedContentSettled (id : nat) (outcome : option (option string))
| BlobSettled (id : nat) (blob : bool)
| SearchReturned (id : nat) (settled : FetchOutcome)
| InsightsReturned (id : nat) (settled : FetchOutcome).

Definition act `{RT : Runtime} (d : Desk) (a : Action) : Desk :=
  match a with
  | Core e =>
      {| world := step (world d) e; pending := pending d;
         next_pending := next_pending d; outbox := outbox d |}
  | AnalyzePage =>
      if analyze_enabled (page (world d)) then handleUseSelection d else d
  | FetchInsights =>
      if insights_enabled (page (world d)) then handleFetchInsights d else d
  | SelectedContentSettled id outcome => selectedContentSettled id outcome d
  | BlobSettled id blob => blobSettled id blob d
  | SearchReturned id settled => searchReturned id settled d
  | InsightsReturned id settled => insightsReturned id settled d
  end.

Definition perform `{RT : Runtime} (actions : list Action) (d : Desk) : Desk :=
  fold_left act actions d.

(** The numbers of the suspended invocations are distinct and have been
    given out. *)
Definition tidy (d : Desk) : Prop :=
  NoDup (map fst (pending d)) /\
  forall entry, In entry (pending d) -> fst entry < next_pending d.

(** No invocation of a handler of the header is past its first [await]. *)
Definition at_selection_only (d : Desk) : Prop :=
  forall entry, In entry (pending d) ->
                snd entry = AnalysisSelection \/ snd entry = InsightsSelection.

(** In the viewer there is a document to show. *)
Definition document_on_show (s : State) : Prop :=
  currentView s = viewer -> document s <> None.

(** While the loading flag is up something is under way: an invocation of
    the selection pipeline, or one of Analyze Page waiting for the
    selection. *)
Definition loading_accounted (d : Desk) : Prop :=
  isLoading (page (world d)) = true ->
  runs (world d) <> [] \/ exists id, In (id, AnalysisSelection) (pending d).

(** What a step of the selection pipeline may change of what the header
    relies on: neither the view nor the document; the insights only by
    clearing them; and if the loading flag is up afterwards, an invocation
    is under way or flag and invocations are as before. *)
Definition pipeline_frame (w w' : World) : Prop :=
  currentView (page w') = currentView (page w) /\
  document (page w') = document (page w) /\
  (insights (page w') = None \/ insights (page w') = insights (page w)) /\
  (isLoading (page w') = true ->
   runs w' <> [] \/ (isLoading (page w) = true /\ runs w' = runs w)).

(** What holds of the page and its header in every state they reach. *)
Definition settled_desk (d : Desk) : Prop :=
  tidy d /\ at_selection_only d /\ outbox d = [] /\
  insights (page (world d)) = None /\
  document_on_show (page (world d)) /\
  loading_accounted d.

End Toolbar.

(* ================================================================== *)
(** ** The side bar and its cards *)
(* ================================================================== *)

(** [Sidebar] ([components/layout/Sidebar.tsx]), [RecommendationCard] and
    the [aside] of the page.  Of an element only what decides its content is
    kept: which branch is rendered and with which data; [key]s and class
    names of the layout are left out. *)

Module Layout.
Import JS ApiClient Page EventLoop.

Inductive SidebarContent : Type :=
| Loader
| ErrorText (message : string)
| Prompt
| Cards (items : Recommendations).

Definition count (r : Recommendations) : nat :=
  match r with
  | PassedThrough items => List.length items
  | Normalized items => List.length items
  end.

(** [renderContent] of [Sidebar]. *)
Definition renderContent (recommendations : Recommendations) (isLoading : bool)
    (error : option string) : SidebarContent :=
  if isLoading then Loader
  else
    match error with
    | Some message =>
        if negb (String.eqb message "") then ErrorText message
        else if Nat.eqb (count recommendations) 0 then Prompt
        else Cards recommendations
    | None =>
        if Nat.eqb (count recommendations) 0 then Prompt
        else Cards recommendations
    end.

Inductive AsideContent : Type :=
| Spinner
| InsightsPanel (insight : option json)
| SidebarPanel (content : SidebarContent).

(** The [aside] of the page: only in the viewer; the spinner while insights
    load, the insights when there are some, the side bar otherwise. *)
Definition aside (s : State) : option AsideContent :=
  match currentView s with
  | viewer =>
      Some (if isInsightsLoading s then Spinner
            else match insights s with
                 | Some i => InsightsPanel (insight i)
                 | None => SidebarPanel
                             (renderContent (recommendations s) (isLoading s) (error s))
                 end)
  | _ => None
  end.

(** [Math.round(x)]: the integer nearest to the number [x], halves
    upwards. *)
Definition round (x : Q) : Z := Qfloor (x + (1 # 2))%Q.

(** [relevancePercent] of [RecommendationCard]: the product is a double,
    rounded like every other one, before [Math.round] sees it. *)
Definition relevancePercent (relevanceScore : Q) : Z :=
  round (binary64 (relevanceScore * 100)%Q).

Definition getConnectionTypeColor (type : string) : string :=
  if String.eqb type "correlation" then "text-blue-600 dark:text-blue-400"
  else if String.eqb type "contradiction" then "text-orange-600 dark:text-orange-400"
  else if String.eqb type "elaboration" then "text-green-600 dark:text-green-400"
  else if String.eqb type "context" then "text-purple-600 dark:text-purple-400"
  else "text-gray-600 dark:text-gray-400".

(** The text a connection type is in the object built by the normalizer. *)
Definition connection_text (c : ConnectionType) : string :=
  match c with
  | correlation => "correlation"
  | contradiction => "contradiction"
  | elaboration => "elaboration"
  | context => "context"
  end.

End Layout.

(* ================================================================== *)
(** ** [components/library/DocumentLibrary.tsx] *)
(* ================================================================== *)

Module Library.
Import JS ApiClient.

(** [toLowerCase] on the strings of this development, sequences of code
    units of Latin-1, where it acts unit by unit: A-Z, and the capital
    letters U+00C0 to U+00DE, the multiplication sign apart.  Beyond
    Latin-1 the builtin depends on the context of a letter (the final
    sigma) and is not a map of units; such names are outside these
    definitions. *)
Definition lower_unit (c : ascii) : ascii :=
  let n := nat_of_ascii c in
  if (Nat.leb 65 n && Nat.leb n 90)
     || (Nat.leb 192 n && Nat.leb n 222 && negb (Nat.eqb n 215))
  then ascii_of_nat (n + 32)
  else c.

Fixpoint toLowerCase (s : string) : string :=
  match s with
  | EmptyString => EmptyString
  | String c rest => String (lower_unit c) (toLowerCase rest)
  end.

(** [hay.includes(needle)] *)
Fixpoint includes (needle hay : string) : bool :=
  String.prefix needle hay ||
  match hay with
  | EmptyString => false
  | String _ rest => includes needle rest
  end.

(** [filteredDocuments] *)
Definition filteredDocuments (documents : list Gateway.DocumentInfo)
    (searchTerm : string) : list Gateway.DocumentInfo :=
  filter (fun doc => includes (toLowerCase searchTerm)
                              (toLowerCase (Gateway.name doc)))
         documents.

Record State : Type := {
  documents : list Gateway.DocumentInfo;
  isLoading : bool;
  error : option string;
  searchTerm : string
}.

Definition mounted : State :=
  {| documents := []; isLoading := true; error := None; searchTerm := "" |}.

(** [loadDocuments] once the [fetch] of [getDocuments] has settled; the
    part before the [await] sets the loading flag and clears the error. *)
Definition loadDocuments `{RT : Runtime} (settled : FetchOutcome)
    (clock : nat -> string) (s : State) : State :=
  match Gateway.getDocuments settled clock with
  | Ok docs =>
      {| documents := docs; isLoading := false; error := None;
         searchTerm := searchTerm s |}
  | Throw err =>
      {| documents := documents s; isLoading := false;
         error := Some (message_of err); searchTerm := searchTerm s |}
  end.

End Library.

(* ================================================================== *)
(** ** [components/upload/BulkPdfUpload.tsx] *)
(* ================================================================== *)

Module Upload.
Import JS ApiClient.

Record PickedFile : Type := {
  file_name : string;
  type : string
}.

Inductive Status : Type :=
| pending
| uploading
| success
| error.

Record UploadProgress : Type := {
  file : PickedFile;
  status : Status;
  error_text : option string
}.

(** The component with what it has asked of its surroundings: the alerts
    shown, the uploads handed to the gateway and not yet settled, the calls
    of [onUploadComplete], and the timers set to empty the list. *)
Record State : Type := {
  uploadProgress : list UploadProgress;
  isUploading : bool;
  dragActive : bool;
  alerts : list string;
  uploads : list (list PickedFile);
  completed : list (option json);
  clear_timers : nat
}.

Definition mounted : State :=
  {| uploadProgress := []; isUploading := false; dragActive := false;
     alerts := []; uploads := []; completed := []; clear_timers := 0 |}.

Definition setUploadProgress (f : list UploadProgress -> list UploadProgress)
    (s : State) : State :=
  {| uploadProgress := f (uploadProgress s); isUploading := isUploading s;
     dragActive := dragActive s; alerts := alerts s; uploads := uploads s;
     completed := completed s; clear_timers := clear_timers s |}.

Definition setIsUploading (v : bool) (s : State) : State :=
  {| uploadProgress := uploadProgress s; isUploading := v;
     dragActive := dragActive s; alerts := alerts s; uploads := uploads s;
     completed := completed s; clear_timers := clear_timers s |}.

Definition setDragActive (v : bool) (s : State) : State :=
  {| uploadProgress := uploadProgress s; isUploading := isUploading s;
     dragActive := v; alerts := alerts s; uploads := uploads s;
     completed := completed s; clear_timers := clear_timers s |}.

Definition alert (message : string) (s : State) : State :=
  {| uploadProgress := uploadProgress s; isUploading := isUploading s;
     dragActive := dragActive s; alerts := alerts s ++ [message];
     uploads := uploads s; completed := completed s;
     clear_timers := clear_timers s |}.

Definition is_pdf (f : PickedFile) : bool := String.eqb (type f) "application/pdf".

Definition mark (st : Status) (p : UploadProgress) : UploadProgress :=
  {| file := file p; status := st; error_text := error_text p |}.

Definition mark_error (message : string) (p : UploadProgress) : UploadProgress :=
  {| file := file p; status := error; error_text := Some message |}.

Definition handleFiles (maxFiles : nat) (files : list PickedFile) (s : State) : State :=
  let pdfFiles := filter is_pdf files in
  if Nat.eqb (List.length pdfFiles) 0 then alert "Please select PDF files only." s
  else if Nat.ltb maxFiles (List.length pdfFiles)
  then alert ("You can only upload up to " ++ decimal maxFiles ++ " files at once.") s
  else setUploadProgress
         (fun _ => map (fun f => {| file := f; status := pending; error_text := None |})
                       pdfFiles)
         s.

(** [startUpload] up to the [await] of [uploadPDFs]. *)
Definition startUpload (s : State) : State :=
  match uploadProgress s with
  | [] => s
  | queued =>
      let s1 := setUploadProgress (map (mark uploading)) (setIsUploading true s) in
      {| uploadProgress := uploadProgress s1; isUploading := isUploading s1;
         dragActive := dragActive s1; alerts := alerts s1;
         uploads := uploads s1 ++ [map file queued];
         completed := completed s1; clear_timers := clear_timers s1 |}
  end.

Definition backend_unavailable : string :=
  "Backend not available. Please ensure your friend's backend is running.".

(** The message of the [catch] of [startUpload]. *)
Definition upload_error_message `{RT : Runtime} (err : exn) : string :=
  let message := message_of err in
  if Library.includes "Failed to fetch" message
     || Library.includes "ERR_CONNECTION_REFUSED" message
     || Library.includes "NetworkError" message
  then backend_unavailable
  else message.

Definition upload_failed `{RT : Runtime} (err : exn) (s : State) : State :=
  setIsUploading false (setUploadProgress (map (mark_error (upload_error_message err))) s).

(** The oldest upload under way settles and the rest of [startUpload]
    runs.  Reading [files] off a [null] body throws inside the [try]. *)
Definition uploadSettled `{RT : Runtime} (settled : FetchOutcome) (s : State) : State :=
  match uploads s with
  | [] => s
  | _ :: others =>
      let s0 := {| uploadProgress := uploadProgress s; isUploading := isUploading s;
                   dragActive := dragActive s; alerts := alerts s;
                   uploads := others; completed := completed s;
                   clear_timers := clear_timers s |} in
      match Gateway.uploadPDFs settled with
      | Ok result =>
          let s1 := setUploadProgress (map (mark success)) s0 in
          match result with
          | JNull => upload_failed TypeError s1
          | _ =>
              setIsUploading false
                {| uploadProgress := uploadProgress s1; isUploading := isUploading s1;
                   dragActive := dragActive s1; alerts := alerts s1;
                   uploads := uploads s1;
                   completed := completed s1 ++ [get_prop "files" result];
                   clear_timers := S (clear_timers s1) |}
          end
      | Throw err => upload_failed err s0
      end
  end.

(** One of the two-second timers set after a successful upload expires. *)
Definition clearTimerFired (s : State) : State :=
  match clear_timers s with
  | O => s
  | S n =>
      {| uploadProgress := []; isUploading := isUploading s;
         dragActive := dragActive s; alerts := alerts s; uploads := uploads s;
         completed := completed s; clear_timers := n |}
  end.

Definition clearFiles (s : State) : State := setUploadProgress (fun _ => []) s.

Inductive DragKind : Type :=
| dragenter
| dragover
| dragleave.

Definition handleDrag (kind : DragKind) (s : State) : State :=
  match kind with
  | dragenter | dragover => setDragActive true s
  | dragleave => setDragActive false s
  end.

(** [handleDrop] and [handleChange]: the files go to [handleFiles] when
    there is a first one. *)
Definition handleDrop (maxFiles : nat) (files : list PickedFile) (s : State) : State :=
  let s1 := setDragActive false s in
  match files with
  | [] => s1
  | _ :: _ => handleFiles maxFiles files s1
  end.

Definition handleChange (maxFiles : nat) (files : list PickedFile) (s : State) : State :=
  match files with
  | [] => s
  | _ :: _ => handleFiles maxFiles files s
  end.

(** Upload All is rendered while nothing is uploading and some entry is
    pending. *)
Definition upload_all_shown (s : State) : bool :=
  negb (isUploading s) &&
  existsb (fun p => match status p with pending => true | _ => false end)
          (uploadProgress s).

Inductive Event : Type :=
| Drop (files : list PickedFile)
| Change (files : list PickedFile)
| Drag (kind : DragKind)
| UploadAll
| Clear
| UploadSettled (settled : FetchOutcome)
| ClearTimer.

Definition step `{RT : Runtime} (maxFiles : nat) (s : State) (e : Event) : State :=
  match e with
  | Drop files => handleDrop maxFiles files s
  | Change files => handleChange maxFiles files s
  | Drag kind => handleDrag kind s
  | UploadAll => if upload_all_shown s then startUpload s else s
  | Clear => if isUploading s then s else clearFiles s
  | UploadSettled settled => uploadSettled settled s
  | ClearTimer => clearTimerFired s
  end.

Definition exec `{RT : Runtime} (maxFiles : nat) (events : list Event) (s : State) : State :=
  fold_left (step maxFiles) events s.

(** All entries of the list carry the status [st]. *)
Definition all_status (st : Status) (s : State) : Prop :=
  Forall (fun p => status p = st) (uploadProgress s).

(** The list holds PDF files only, no more than [maxFiles] of them, and
    all in one status. *)
Definition queue_ok (maxFiles : nat) (s : State) : Prop :=
  Forall (fun p => is_pdf (file p) = true) (uploadProgress s) /\
  List.length (uploadProgress s) <= maxFiles /\
  exists st, all_status st s.

(** The busy flag is up exactly while one upload is under way. *)
Definition one_upload (s : State) : Prop :=
  (isUploading s = false /\ uploads s = []) \/
  (isUploading s = true /\ List.length (uploads s) = 1).

End Upload.

(* ================================================================== *)
(** ** More stand-ins *)
(* ================================================================== *)

Module Samples.
Import JS ApiClient Page EventLoop Doubles.

Definition listing_runtime : Runtime :=
  table_runtime
    [("three-documents",
      JObj [("documents",
             JArr [JObj [("id", JStr " q1 "); ("name", JStr "Q1-Financials.pdf")];
                   JObj [("name", JStr "Market-Analysis.pdf")];
                   JNull])]);
     ("two-files", JObj [("pdfs", JArr [JStr "a.pdf"; JStr "a.pdf"])])].

Definition stamp (index : nat) : string := "2025-08-18T10:00:00.000Z".

Definition library_shelf : list Gateway.DocumentInfo :=
  match Gateway.documents_of (RT := listing_runtime)
          (JObj [("documents",
                  JArr [JObj [("id", JStr "q1"); ("name", JStr "Q1-Financials.pdf")];
                        JObj [("id", JStr "m2"); ("name", JStr "Market-Analysis.pdf")]])])
          stamp
  with
  | Ok docs => docs
  | Throw _ => []
  end.

(** Two invocations with their searches under way. *)
Definition both_searching : World :=
  exec (RT := search_runtime)
    [ViewerReady surface; ViewerElement true;
     TextSelect "alpha"; Elapse 1000;
     TextSelect "beta"; Elapse 1000;
     ScreenshotSettled 0 (Some (shot "alpha.jpg"));
     ScreenshotSettled 1 (Some (shot "beta.jpg"))]
    booted.

(** A document is open and the viewer is ready. *)
Definition at_desk : Toolbar.Desk :=
  Toolbar.perform (RT := search_runtime)
    [Toolbar.Core (OpenSinglePdf notes); Toolbar.Core (ViewerReady surface);
     Toolbar.Core (ViewerElement true)]
    Toolbar.seated.

Definition report : Document :=
  {| doc_id := "q1"; doc_name := "Q1-Financials.pdf";
     uploadedAt := "2025-08-18T10:00:00.000Z" |}.

Definition pdf (n : string) : Upload.PickedFile :=
  {| Upload.file_name := n; Upload.type := "application/pdf" |}.

Definition picture (n : string) : Upload.PickedFile :=
  {| Upload.file_name := n; Upload.type := "image/png" |}.

End Samples.

(* ================================================================== *)
(** ** The definitions at work *)
(* ================================================================== *)

Section Examples.
Import JS ApiClient Page EventLoop Contract Doubles.

Example trim_strips_both_ends : trim "  two words " = "two words".
Proof. reflexivity. Qed.

Example tab_and_newline_are_blank :
  blank (String (ascii_of_nat 9) (String (ascii_of_nat 10) EmptyString)) = true.
Proof. reflexivity. Qed.

Example single_quotes_become_double :
  replace_single_quotes "['a']"
  = String "["%char (String double_quote (String "a"%char
      (String double_quote (String "]"%char EmptyString)))).
Proof. reflexivity. Qed.

(** The doubles nearest to 0.1 and to 0.9, and two sums that are not the
    doubles nearest to what they look like. *)
Example doubles_nearest :
  binary64 0.1%Q = (3602879701896397 # 36028797018963968)%Q /\
  binary64 0.9%Q = (8106479329266893 # 9007199254740992)%Q /\
  binary64 (binary64 0.1 + binary64 0.2)%Q = (1351079888211149 # 4503599627370496)%Q /\
  binary64 0.3%Q = (5404319552844595 # 18014398509481984)%Q /\
  binary64 (inject_Z (2 ^ 53 + 1)) = inject_Z (2 ^ 53) /\
  binary64 (binary64 0.1%Q) = binary64 0.1%Q.
Proof. vm_compute. repeat split. Qed.

Example numbers_out_of_range :
  of_real (inject_Z (10 ^ 400)) = PosInf /\
  of_real (1 # 10 ^ 400)%Q = Fin 0%Q /\
  truthy (JNum (1 # 10 ^ 400)%Q) = false.
Proof. vm_compute. repeat split. Qed.

(** Without a distance the three scores are 0.8, 0.7000000000000001 and
    0.6000000000000001: the last one is above the double 0.6. *)
Example placeholder_scores :
  map (relevance_score None) [0; 1; 2]
  = [binary64 0.8%Q;
     (6305039478318695 # 9007199254740992)%Q;
     (1351079888211149 # 2251799813685248)%Q] /\
  Qle_bool (relevance_score None 2) (binary64 0.6%Q) = false /\
  relevance_score (Some (JStr "0.2")) 1 = relevance_score None 1.
Proof. vm_compute. repeat split. Qed.

Example distance_is_clamped :
  relevance_score (Some (JNum 1.7%Q)) 0 = 0%Q /\
  relevance_score (Some (JNum (-3)%Q)) 0 = 1%Q /\
  relevance_score (Some (JNum 0.25%Q)) 0 = (3 # 4)%Q /\
  relevance_score (Some (JNum (inject_Z (10 ^ 400)))) 0 = 0%Q.
Proof. vm_compute. repeat split. Qed.

Example connection_thresholds :
  connection_of (binary64 0.9%Q) = elaboration /\
  connection_of (binary64 0.8%Q) = correlation /\
  connection_of (binary64 0.61%Q) = correlation /\
  connection_of (binary64 0.6%Q) = context /\
  map (fun i => connection_of (relevance_score None i)) [0; 1; 2]
  = [correlation; correlation; correlation].
Proof. vm_compute. repeat split. Qed.

Example conversions_of_arrays_and_objects :
  String_ (RT := table_runtime [])
    (JArr [JStr "a"; JNull; JArr [JStr "b"; JBool true]; JObj [("k", JNull)]])
  = Ok "a,,b,true,[object Object]" /\
  String_ (RT := table_runtime []) unprintable = Throw TypeError /\
  String_ (RT := table_runtime []) (JArr [JStr "a"; JArr [unprintable]]) = Throw TypeError /\
  Number_ (RT := table_runtime []) unprintable = Throw TypeError.
Proof. vm_compute. repeat split. Qed.

Example page_range_given_as_array :
  parsePageStart (RT := table_runtime []) (Some (JArr [JNum 4%Q; JNum 5%Q])) = Fin 4%Q.
Proof. vm_compute. reflexivity. Qed.

(** A first element that cannot be converted makes the parser fall back
    on its default, inside its own [try]. *)
Example unconvertible_entries_give_defaults :
  parsePageStart (RT := table_runtime []) (Some (JArr [unprintable])) = Fin 0%Q /\
  parseFirstBBox (RT := table_runtime [])
    (Some (JArr [JArr [JNum 1%Q; JNum 2%Q; unprintable; JNum 4%Q]]))
  = zero_bbox.
Proof. vm_compute. repeat split. Qed.

Example page_range_missing :
  parsePageStart (RT := table_runtime []) None = Fin 0%Q.
Proof. reflexivity. Qed.

Example first_box_of_two :
  parseFirstBBox (RT := table_runtime [])
    (Some (JArr [JArr [JNum 1%Q; JNum 2%Q; JNum 3%Q; JNum 4%Q];
                 JArr [JNum 5%Q; JNum 6%Q; JNum 7%Q; JNum 8%Q]]))
  = (Fin 1%Q, Fin 2%Q, Fin 3%Q, Fin 4%Q).
Proof. vm_compute. reflexivity. Qed.

Example four_documents_give_three :
  match normalize (RT := table_runtime [])
          (JObj [("search_results",
                  JObj [("documents",
                         JArr [JArr [JStr "a"; JStr "b"; JStr "c"; JStr "d"]])])])
  with
  | Ok r => entries r = 3 /\
            match r with
            | Normalized items => map snippet items = ["a"; "b"; "c"]
            | PassedThrough _ => False
            end
  | Throw _ => False
  end.
Proof. vm_compute. split; reflexivity. Qed.

Example null_snippet_aborts :
  normalize (RT := table_runtime []) (JObj [("documents", JArr [JArr [JStr "a"; JNull]])])
  = Throw TypeError.
Proof. vm_compute. reflexivity. Qed.

(** A document name that cannot be converted aborts the batch as well,
    although the page range and the boxes of that entry are in order. *)
Example unprintable_name_aborts :
  normalize (RT := table_runtime [])
    (JObj [("documents", JArr [JArr [JStr "a"]]);
           ("metadatas", JArr [JArr [unnamed_metadata]])])
  = Throw TypeError.
Proof. vm_compute. reflexivity. Qed.

Example extract_and_search_rejects_failed_response :
  extractAndSearch (RT := table_runtime [])
    (Fulfilled {| ok := false; statusText := "Bad Gateway"; body := "" |})
  = Throw (Error "Extract and search failed: Bad Gateway").
Proof. reflexivity. Qed.

Example one_selection_one_timer :
  timers (exec (RT := search_runtime) [TextSelect "alpha"] idle)
  = [ {| timer_id := 1%positive; due := 600%N; captured_text := "alpha";
         captured_viewerApis := Some surface |} ].
Proof. reflexivity. Qed.

Example second_selection_replaces_timer :
  timers (exec (RT := search_runtime)
            [TextSelect "alpha"; Elapse 599; TextSelect "beta"] idle)
  = [ {| timer_id := 2%positive; due := 1199%N; captured_text := "beta";
         captured_viewerApis := Some surface |} ].
Proof. reflexivity. Qed.

Example selection_before_viewer_ready_is_dropped :
  runs (exec (RT := search_runtime)
          [ViewerElement true; TextSelect "alpha"; Elapse 600] booted)
  = [].
Proof. reflexivity. Qed.

End Examples.

(* ================================================================== *)
(** ** Recommendation normalizer *)
(* ================================================================== *)

Section NumberFacts.
Import JS.

Lemma nearest_even_le (n d N : Z) :
  (0 < d)%Z -> (n <= N * d)%Z -> (nearest_even n d <= N)%Z.
Proof.
  intros Hd Hn. unfold nearest_even.
  pose proof (Z.div_mod n d ltac:(lia)) as Hdiv.
  pose proof (Z.mod_pos_bound n d Hd) as Hmod.
  assert (Hf : (n / d <= N)%Z) by nia.
  assert (Hup : (0 < n mod d -> n / d + 1 <= N)%Z) by nia.
  destruct (Z.compare_spec (2 * (n mod d)) d) as [Heq | Hlt | Hgt].
  - destruct (Z.even (n / d)); [exact Hf | apply Hup; lia].
  - exact Hf.
  - apply Hup. lia.
Qed.

Lemma nearest_even_nonneg (n d : Z) :
  (0 < d)%Z -> (0 <= n)%Z -> (0 <= nearest_even n d)%Z.
Proof.
  intros Hd Hn. unfold nearest_even.
  pose proof (Z.div_pos n d Hn Hd) as Hf.
  destruct (2 * (n mod d) ?= d)%Z; [destruct (Z.even (n / d)) | | ]; lia.
Qed.

(** The integer that [nearest_even] gives is within a half of [n / d]. *)
Lemma nearest_even_close (n d : Z) :
  (0 < d)%Z -> (2 * Z.abs (nearest_even n d * d - n) <= d)%Z.
Proof.
  intros Hd. unfold nearest_even.
  pose proof (Z.div_mod n d ltac:(lia)) as Hdiv.
  pose proof (Z.mod_pos_bound n d Hd) as Hmod.
  destruct (Z.compare_spec (2 * (n mod d)) d) as [Heq | Hlt | Hgt];
    [destruct (Z.even (n / d)) | | ]; nia.
Qed.

(** [exponent n d] is the binary order of magnitude of [n / d]. *)
Lemma exponent_spec (n d : positive) :
  let k := exponent n d in
  ((0 <= k)%Z -> (Zpos d * 2 ^ k <= Zpos n < Zpos d * 2 ^ (k + 1))%Z) /\
  ((k < 0)%Z -> (Zpos d <= Zpos n * 2 ^ (- k) /\ Zpos n * 2 ^ (- k - 1) < Zpos d)%Z).
Proof.
  unfold exponent.
  pose proof (Z.log2_spec (Zpos n) ltac:(lia)) as Hn.
  pose proof (Z.log2_spec (Zpos d) ltac:(lia)) as Hd.
  pose proof (Z.log2_nonneg (Zpos n)) as Ha.
  pose proof (Z.log2_nonneg (Zpos d)) as Hb.
  set (a := Z.log2 (Zpos n)) in *. set (b := Z.log2 (Zpos d)) in *.
  clearbody a b.
  rewrite !Z.pow_succ_r in Hn, Hd by lia.
  destruct (Z.leb_spec 0 (a - b)) as [Hk | Hk].
  - assert (Hab : (2 ^ a = 2 ^ b * 2 ^ (a - b))%Z)
      by (rewrite <- Z.pow_add_r by lia; f_equal; lia).
    assert (Hpos : (0 < 2 ^ (a - b))%Z) by (apply Z.pow_pos_nonneg; lia).
    destruct (Z.ltb_spec (Zpos n) (Zpos d * 2 ^ (a - b))) as [Hlt | Hge]; cbv zeta.
    + split.
      * intros Hk1. replace (a - b - 1 + 1)%Z with (a - b)%Z by lia.
        split; [ | exact Hlt].
        assert (Hstep : (2 ^ (a - b) = 2 * 2 ^ (a - b - 1))%Z)
          by (rewrite <- Z.pow_succ_r by lia; f_equal; lia).
        nia.
      * intros Hk1. assert (Hz : (a - b = 0)%Z) by lia.
        rewrite Hz in *.
        change (2 ^ 0)%Z with 1%Z in *.
        change (2 ^ (- (0 - 1)))%Z with 2%Z.
        change (2 ^ (- (0 - 1) - 1))%Z with 1%Z.
        nia.
    + split; [ | lia]. intros _. rewrite Z.pow_add_r by lia.
      change (2 ^ 1)%Z with 2%Z. nia.
  - assert (Hab : (2 ^ b = 2 ^ a * 2 ^ (- (a - b)))%Z)
      by (rewrite <- Z.pow_add_r by lia; f_equal; lia).
    assert (Hpos : (0 < 2 ^ (- (a - b)))%Z) by (apply Z.pow_pos_nonneg; lia).
    destruct (Z.ltb_spec (Zpos n * 2 ^ (- (a - b))) (Zpos d)) as [Hlt | Hge]; cbv zeta.
    + split; [lia | ]. intros _.
      replace (- (a - b - 1) - 1)%Z with (- (a - b))%Z by lia.
      split; [ | exact Hlt].
      replace (- (a - b - 1))%Z with (Z.succ (- (a - b)))%Z by lia.
      rewrite Z.pow_succ_r by lia. nia.
    + split; [lia | ]. intros _. split; [exact Hge | ].
      assert (Hstep : (2 ^ (- (a - b)) = 2 * 2 ^ (- (a - b) - 1))%Z)
        by (rewrite <- Z.pow_succ_r by lia; f_equal; lia).
      assert (Hpos' : (0 < 2 ^ (- (a - b) - 1))%Z) by (apply Z.pow_pos_nonneg; lia).
      nia.
Qed.

Lemma exponent_le (n d : positive) :
  (exponent n d <= Z.log2 (Zpos n) - Z.log2 (Zpos d))%Z.
Proof.
  unfold exponent.
  destruct (0 <=? Z.log2 (Zpos n) - Z.log2 (Zpos d))%Z;
    match goal with |- context [if ?c then _ else _] => destruct c end; lia.
Qed.

(** A real between 0 and a whole number below [2 ^ 51] rounds to a double
    of the same interval. *)
Lemma binary64_pos_bounds (n d : positive) (B : Z) :
  (0 < B)%Z -> (Z.log2 B < 51)%Z ->
  (Zpos n <= B * Zpos d)%Z ->
  (0 <= binary64_pos n d)%Q /\ (binary64_pos n d <= inject_Z B)%Q.
Proof.
  intros HB Hsmall Hle. unfold binary64_pos.
  set (s := (Z.max (exponent n d) (-1022) - 52)%Z).
  assert (Hs : (s <= 0)%Z).
  { pose proof (exponent_le n d) as He.
    assert (Hlog : (Z.log2 (Zpos n) <= Z.log2 B + Z.log2 (Zpos d) + 1)%Z).
    { etransitivity; [apply Z.log2_le_mono; exact Hle | ].
      apply Z.log2_mul_above; lia. }
    subst s. lia. }
  assert (Hneg : (0 <? s)%Z = false) by (apply Z.ltb_ge; exact Hs).
  rewrite Hneg.
  set (p := (2 ^ (- s))%Z).
  assert (Hp : (0 < p)%Z) by (subst p; apply Z.pow_pos_nonneg; lia).
  set (m := nearest_even (Zpos n * p) (Zpos d)).
  assert (Hm0 : (0 <= m)%Z) by (apply nearest_even_nonneg; nia).
  assert (Hm1 : (m <= B * p)%Z) by (apply nearest_even_le; nia).
  rewrite Qred_correct. unfold Qle. cbn [Qnum Qden inject_Z].
  rewrite Z2Pos.id by exact Hp.
  split; lia.
Qed.

Lemma binary64_bounds (q : Q) (B : Z) :
  (0 < B)%Z -> (Z.log2 B < 51)%Z ->
  (0 <= q)%Q -> (q <= inject_Z B)%Q ->
  (0 <= binary64 q)%Q /\ (binary64 q <= inject_Z B)%Q.
Proof.
  intros HB Hsmall Hlo Hhi.
  destruct q as [[ | n | n] d]; unfold binary64; cbn [Qnum Qden].
  - split; [apply Qle_refl | unfold Qle; cbn; lia].
  - apply binary64_pos_bounds; [exact HB | exact Hsmall | ].
    unfold Qle in Hhi. cbn in Hhi. lia.
  - exfalso. unfold Qle in Hlo. cbn in Hlo. lia.
Qed.

Lemma binary64_unit (q : Q) :
  (0 <= q)%Q -> (q <= 1)%Q -> (0 <= binary64 q)%Q /\ (binary64 q <= 1)%Q.
Proof.
  intros Hlo Hhi.
  apply (binary64_bounds q 1); [lia | cbn; lia | exact Hlo | exact Hhi].
Qed.

End NumberFacts.

Section ConversionFacts.
Import JS.
Context `{RT : Runtime}.

Lemma json_induction (P : json -> Prop) :
  P JNull -> (forall b, P (JBool b)) -> (forall q, P (JNum q)) ->
  (forall s, P (JStr s)) ->
  (forall items, Forall P items -> P (JArr items)) ->
  (forall fields, P (JObj fields)) ->
  forall v, P v.
Proof.
  intros Hnull Hbool Hnum Hstr Harr Hobj.
  fix IH 1. intros [ | b | q | s | items | fields].
  - exact Hnull.
  - apply Hbool.
  - apply Hnum.
  - apply Hstr.
  - apply Harr. induction items as [ | x rest IHrest]; constructor;
      [apply IH | exact IHrest].
  - apply Hobj.
Qed.

(** The only exception a conversion to a string raises is a [TypeError]. *)
Lemma String_throws (v : json) :
  forall e, String_ v = Throw e -> e = TypeError.
Proof.
  induction v as [ | b | q | s | items IHitems | fields] using json_induction;
    intros e; cbn [String_].
  - discriminate.
  - destruct b; discriminate.
  - discriminate.
  - discriminate.
  - revert e. induction IHitems as [ | x rest Hx Hrest IHrest]; intros e;
      [discriminate | ].
    cbn [join].
    assert (Hhead : forall e0,
               match x with
               | JNull => Ok ""
               | _ => String_ x
               end = Throw e0 -> e0 = TypeError).
    { intros e0. destruct x; try discriminate; apply Hx. }
    destruct (match x with
              | JNull => Ok ""
              | _ => String_ x
              end) as [s0 | e0] eqn:Hs0; cbn [bind].
    + destruct rest as [ | y rest']; [discriminate | ].
      destruct (join String_ (y :: rest')) as [t | e1] eqn:Ht; cbn [bind];
        [discriminate | ].
      intros [= <-]. apply IHrest. reflexivity.
    + intros [= <-]. apply Hhead. reflexivity.
  - destruct (assoc "toString" fields); [intros [= <-]; reflexivity | discriminate].
Qed.

Lemma Number_throws (v : json) (e : exn) :
  Number_ v = Throw e -> e = TypeError.
Proof.
  destruct v as [ | b | q | s | items | fields]; cbn -[String_]; try discriminate.
  - destruct (String_ (JArr items)) as [s | e0] eqn:Hs; cbn; [discriminate | ].
    intros [= <-]. apply (String_throws _ _ Hs).
  - destruct (String_ (JObj fields)) as [s | e0] eqn:Hs; cbn; [discriminate | ].
    intros [= <-]. apply (String_throws _ _ Hs).
Qed.

End ConversionFacts.

Section NormalizerFacts.
Import JS JSNotations ApiClient Contract Doubles.
Context `{RT : Runtime}.

Lemma relevance_score_from_distance (d : Q) (i : nat) :
  (0 <= relevance_score (Some (JNum d)) i)%Q /\
  (relevance_score (Some (JNum d)) i <= 1)%Q.
Proof.
  unfold relevance_score.
  pose proof (Q.le_min_r (Qmax (binary64 d) 0) 1) as Hhi.
  assert (Hlo : (0 <= Qmin (Qmax (binary64 d) 0) 1)%Q).
  { apply Q.min_glb; [apply Q.le_max_r | discriminate]. }
  apply binary64_unit; lra.
Qed.

Lemma relevance_score_placeholder (relevance : option json) (i : nat) :
  (forall d, relevance <> Some (JNum d)) ->
  i < 3 ->
  (0 <= relevance_score relevance i)%Q /\ (relevance_score relevance i <= 1)%Q.
Proof.
  intros Hnot Hi.
  assert (Hcases : i = 0 \/ i = 1 \/ i = 2) by lia.
  destruct relevance as [[ | b | d | s | l | f] | ];
    try (exfalso; eapply Hnot; reflexivity);
    destruct Hcases as [-> | [-> | ->]]; vm_compute; split; discriminate.
Qed.

Lemma relevance_score_unit (relevance : option json) (i : nat) :
  i < 3 ->
  (0 <= relevance_score relevance i)%Q /\ (relevance_score relevance i <= 1)%Q.
Proof.
  intros Hi.
  destruct relevance as [[ | b | d | s | l | f] | ];
    try (apply relevance_score_placeholder; [congruence | exact Hi]).
  apply relevance_score_from_distance.
Qed.

Lemma length_over_200_throws (snippet : json) (e : exn) :
  length_over_200 snippet = Throw e -> e = TypeError.
Proof.
  destruct snippet as [ | b | q | s | l | f]; cbn; try discriminate.
  - intros [= <-]. reflexivity.
  - destruct (assoc "length" f) as [v | ]; [ | discriminate].
    destruct (Number_ v) as [n | e0] eqn:Hn; cbn; [discriminate | ].
    intros [= <-]. apply (Number_throws _ _ Hn).
Qed.

(** What decides whether a record is built: the document name and the
    snippet convert to strings and the length of the snippet can be
    compared.  The record then holds what the two parsers give. *)
Lemma recommendation_of_cases metadatas ids distances i snippet :
  let meta := meta_at metadatas i in
  match recommendation_of metadatas ids distances i snippet with
  | Ok r =>
      (exists name shown over,
          String_ (document_label meta) = Ok name /\
          String_ (or_empty snippet) = Ok shown /\
          length_over_200 snippet = Ok over /\
          sourceDocument r = name /\
          ApiClient.snippet r = substring 0 200 shown ++ (if over then "..." else "")) /\
      pageNumber r = plus_one (parsePageStart (get_prop "page_range" meta)) /\
      boundingBox r = parseFirstBBox (get_prop "chunk_bboxes" meta) /\
      relevanceScore r = relevance_score (nth_error distances i) i /\
      connectionType r = connection_of (relevanceScore r)
  | Throw e =>
      e = TypeError /\
      (String_ (document_label meta) = Throw TypeError \/
       String_ (or_empty snippet) = Throw TypeError \/
       length_over_200 snippet = Throw TypeError)
  end.
Proof.
  intros meta. unfold recommendation_of. fold meta.
  destruct (String_ (document_label meta)) as [name | e1] eqn:Hname; cbn -[String_].
  - destruct (String_ (or_empty snippet)) as [shown | e2] eqn:Hshown; cbn -[String_].
    + destruct (length_over_200 snippet) as [over | e3] eqn:Hover; cbn -[String_].
      * split; [exists name, shown, over; repeat split | repeat split].
      * pose proof (length_over_200_throws _ _ Hover). subst e3. auto.
    + pose proof (String_throws _ _ Hshown). subst e2. auto.
  - pose proof (String_throws _ _ Hname). subst e1. auto.
Qed.

Lemma recommendation_of_score metadatas ids distances i snippet r :
  recommendation_of metadatas ids distances i snippet = Ok r ->
  relevanceScore r = relevance_score (nth_error distances i) i.
Proof.
  intros Hr. pose proof (recommendation_of_cases metadatas ids distances i snippet) as H.
  cbv zeta in H. rewrite Hr in H. tauto.
Qed.

Lemma recommendation_of_throws metadatas ids distances i snippet e :
  recommendation_of metadatas ids distances i snippet = Throw e ->
  e = TypeError.
Proof.
  intros Hr. pose proof (recommendation_of_cases metadatas ids distances i snippet) as H.
  cbv zeta in H. rewrite Hr in H. tauto.
Qed.

Lemma map_indexed_ok {A B : Type} (f : nat -> A -> result B) :
  forall xs start ys,
    map_indexed f start xs = Ok ys ->
    List.length ys = List.length xs /\
    forall k y, nth_error ys k = Some y ->
                exists x, nth_error xs k = Some x /\ f (start + k) x = Ok y.
Proof.
  induction xs as [ | x xs IH]; intros start ys; cbn.
  - intros [= <-]. split; [reflexivity | ].
    intros [ | k] y; discriminate.
  - destruct (f start x) as [y0 | e] eqn:Hx; cbn; [ | discriminate].
    destruct (map_indexed f (S start) xs) as [ys0 | e] eqn:Hrest; cbn; [ | discriminate].
    intros [= <-].
    destruct (IH _ _ Hrest) as [Hlen Hnth].
    split; [cbn; congruence | ].
    intros [ | k] y; cbn.
    + intros [= <-]. exists x. rewrite Nat.add_0_r. auto.
    + intros Hk. destruct (Hnth _ _ Hk) as [x' [Hx' Hf]].
      exists x'. split; [exact Hx' | ].
      rewrite Nat.add_succ_r. exact Hf.
Qed.

Lemma map_indexed_throws {A B : Type} (f : nat -> A -> result B) :
  forall xs start e,
    map_indexed f start xs = Throw e ->
    exists k x, nth_error xs k = Some x /\ f (start + k) x = Throw e.
Proof.
  induction xs as [ | x xs IH]; intros start e; cbn; [discriminate | ].
  destruct (f start x) as [y0 | e0] eqn:Hx; cbn.
  - destruct (map_indexed f (S start) xs) as [ys0 | e1] eqn:Hrest; cbn; [discriminate | ].
    intros [= <-].
    destruct (IH _ _ Hrest) as [k [x' [Hk Hf]]].
    exists (S k), x'. split; [exact Hk | ].
    rewrite Nat.add_succ_r. exact Hf.
  - intros [= <-]. exists 0, x. rewrite Nat.add_0_r. auto.
Qed.

Lemma normalize_bundle_bounds (raw : json) :
  match normalize_bundle raw with
  | Ok (Normalized items) =>
      List.length items <= 3 /\
      Forall (fun r => (0 <= relevanceScore r)%Q /\ (relevanceScore r <= 1)%Q) items
  | Ok (PassedThrough _) => False
  | Throw e => e = TypeError
  end.
Proof.
  unfold normalize_bundle.
  set (sr := nullish_or (get_prop "search_results" raw) raw).
  set (f := recommendation_of (column "metadatas" sr) (column "ids" sr)
                              (column "distances" sr)).
  set (docs := firstn 3 (column "documents" sr)).
  assert (Hdocs : List.length docs <= 3) by apply firstn_le_length.
  destruct (map_indexed f 0 docs) as [items | e] eqn:Hmap; cbn.
  - destruct (map_indexed_ok _ _ _ _ Hmap) as [Hlen Hnth].
    split; [lia | ].
    apply Forall_forall. intros r Hin.
    destruct (In_nth_error _ _ Hin) as [k Hk].
    destruct (Hnth _ _ Hk) as [x [Hx Hf]].
    assert (Hk3 : k < 3).
    { assert (Hb : k < List.length docs)
        by (apply nth_error_Some; congruence).
      lia. }
    cbn in Hf. unfold f in Hf.
    rewrite (recommendation_of_score _ _ _ _ _ _ Hf).
    apply relevance_score_unit. exact Hk3.
  - destruct (map_indexed_throws _ _ _ _ Hmap) as [k [x [_ Hf]]].
    unfold f in Hf. apply recommendation_of_throws in Hf. exact Hf.
Qed.

Lemma normalize_as_bundle (raw : json) (items : list BackendRecommendation) :
  normalize raw = Ok (Normalized items) ->
  normalize_bundle raw = Ok (Normalized items).
Proof.
  unfold normalize.
  destruct (get_prop "recommendations" raw) as [[ | b | q | s | l | f] | ];
    try (intros H; exact H); discriminate.
Qed.


(** C4.  For the bundle of the scenario (one snippet of more than 200
    characters, page range [[2]] given as text, distance 0.1) the normalizer
    returns a single recommendation with page number 3, relevance score
    0.9, connection type elaboration, and the first 200 characters of the
    snippet followed by three dots.  The score is the number that the
    literal 0.9 denotes, the double nearest to 0.9, which is what [1 - 0.1]
    evaluates to. *)
Theorem C4_scenario_bundle (text : string) :
  JSON_parse "[2]" = Some (JArr [JNum 2%Q]) ->
  200 < String.length text ->
  exists r,
    normalize (scenario_bundle text) = Ok (Normalized [r]) /\
    pageNumber r = Fin 3%Q /\
    relevanceScore r = binary64 0.9%Q /\
    connectionType r = elaboration /\
    snippet r = substring 0 200 text ++ "...".
Proof.
  intros Hparse Hlong.
  assert (Hover : Nat.ltb 200 (String.length text) = true)
    by (apply Nat.ltb_lt; exact Hlong).
  assert (Hshown : or_empty (JStr text) = JStr text).
  { destruct text; [cbn in Hlong; lia | reflexivity]. }
  assert (Hpage : parsePageStart (Some (JStr "[2]")) = Fin 2%Q).
  { unfold parsePageStart, parsePageStart_try, parse_requoted. cbn.
    rewrite Hparse. vm_compute. reflexivity. }
  set (meta := JObj [("page_range", JStr "[2]")]).
  assert (Hrecord : recommendation_of [meta] [] [JNum 0.1%Q] 0 (JStr text)
                    = Ok {| id := JStr "rec-0";
                            sourceDocument := "Unknown Document";
                            snippet := substring 0 200 text ++ "...";
                            pageNumber := Fin 3%Q;
                            boundingBox := zero_bbox;
                            relevanceScore := binary64 0.9%Q;
                            connectionType := elaboration |}).
  { unfold recommendation_of.
    change (meta_at [meta] 0) with meta.
    change (get_prop "page_range" meta) with (Some (JStr "[2]")).
    rewrite Hpage, Hshown.
    change (String_ (document_label meta)) with (Ok "Unknown Document").
    change (String_ (JStr text)) with (Ok text).
    change (length_over_200 (JStr text)) with (Ok (Nat.ltb 200 (String.length text))).
    rewrite Hover. cbn [bind]. reflexivity. }
  eexists. split.
  - unfold normalize, normalize_bundle, scenario_bundle.
    change (get_prop "recommendations" _) with (@None json).
    cbv beta iota.
    change (map_indexed _ 0 _)
      with (y <- recommendation_of [meta] [] [JNum 0.1%Q] 0 (JStr text) ;;
            Ok [y]).
    rewrite Hrecord. reflexivity.
  - cbn [pageNumber relevanceScore connectionType snippet]. repeat split.
Qed.





(** Whatever the body of a failed insights response holds, the error that
    leaves [getInsights] carries the status text: the [throw] of the inner
    [try] is caught by its own [catch]. *)
Lemma getInsights_not_ok (response : Response) :
  ok response = false ->
  getInsights (Fulfilled response)
  = Throw (Error ("Insights failed: " ++ statusText response)).
Proof.
  intros Hok. unfold getInsights. cbn -[String_]. rewrite Hok.
  destruct (response_json response) as [err | e]; cbn -[String_]; [ | reflexivity].
  match goal with
  | |- try_catch (try_catch (bind ?c _) _) _ = _ => destruct c; reflexivity
  end.
Qed.

End NormalizerFacts.


Lemma C4_scenario_bundle_witness :
  exists r,
    ApiClient.normalize (RT := Doubles.table_runtime [("[2]", JS.JArr [JS.JNum 2%Q])])
      (Doubles.scenario_bundle (Doubles.filler 250))
    = JS.Ok (ApiClient.Normalized [r]) /\
    ApiClient.pageNumber r = JS.Fin 3%Q /\
    ApiClient.relevanceScore r = JS.binary64 0.9%Q /\
    ApiClient.connectionType r = ApiClient.elaboration /\
    ApiClient.snippet r = Doubles.filler 200 ++ "...".
Proof.
  apply (C4_scenario_bundle
           (RT := Doubles.table_runtime [("[2]", JS.JArr [JS.JNum 2%Q])])
           (Doubles.filler 250)).
  - reflexivity.
  - vm_compute. lia.
Defined.


(** C5 at a failing input, for [getInsights] on its own: the response is
    500 "Internal Server Error" and its body carries
    [detail: "No documents indexed yet"]; the message of the error that
    leaves [getInsights] is built from the status text, not from the
    detail. *)
Theorem C5_insights_detail_not_surfaced :
  ApiClient.response_json (RT := Doubles.insights_runtime) Doubles.insights_unavailable
  = JS.Ok (JS.JObj [("detail", JS.JStr "No documents indexed yet")]) /\
  ApiClient.getInsights (RT := Doubles.insights_runtime)
    (ApiClient.Fulfilled Doubles.insights_unavailable)
  = JS.Throw (JS.Error "Insights failed: Internal Server Error") /\
  ApiClient.getInsights (RT := Doubles.insights_runtime)
    (ApiClient.Fulfilled Doubles.insights_unavailable)
  <> JS.Throw (JS.Error "Insights failed: No documents indexed yet").
Proof.
  repeat split; try reflexivity. discriminate.
Qed.

(* ================================================================== *)
(** ** View state controller and annotation synchronizer *)
(* ================================================================== *)

Section PageFacts.
Import JS ApiClient Page EventLoop Contract Doubles.
Context `{RT : Runtime}.

(** Entering the viewer, from the library or from a local file, resets the
    per-document state. *)
Lemma entering_viewer_resets (s : State) (doc : Document) (f : File) :
  let chosen := handleDocumentSelect doc s in
  let opened := handleOpenSinglePdf f s in
  (currentView chosen = viewer /\ viewerApis chosen = None /\
   recommendations chosen = Normalized [] /\ annotations chosen = [] /\
   insights chosen = None /\ error chosen = None) /\
  (currentView opened = viewer /\ viewerApis opened = None /\
   recommendations opened = Normalized [] /\ annotations opened = [] /\
   insights opened = None /\ error opened = None).
Proof. cbn. repeat split. Qed.

(** The two handlers named after leaving the viewer clear the document. *)
Lemma back_handlers_clear_document (s : State) :
  (currentView (handleBackToLibrary s) = library /\
   document (handleBackToLibrary s) = None /\
   selectedDocument (handleBackToLibrary s) = None) /\
  (currentView (handleBackToUpload s) = upload /\
   document (handleBackToUpload s) = None /\
   selectedDocument (handleBackToUpload s) = None).
Proof. cbn. repeat split. Qed.

(** The Library button of the header changes the view and nothing else. *)
Lemma libraryButtonClick_keeps_document (s : State) :
  currentView (libraryButtonClick s) = library /\
  document (libraryButtonClick s) = document s /\
  selectedDocument (libraryButtonClick s) = selectedDocument s.
Proof. cbn. repeat split. Qed.

Lemma processSelection_annotations apis text (w : World) :
  annotations (page (processSelectionWithScreenshot apis text w))
  = annotations (page w).
Proof.
  unfold processSelectionWithScreenshot.
  destruct apis; [ | reflexivity].
  destruct (blank text); [reflexivity | ].
  destruct (viewer_element w); reflexivity.
Qed.

Lemma fired_annotations (ts : list Timer) :
  forall w,
    annotations (page (fold_left fire ts w)) = annotations (page w).
Proof.
  induction ts as [ | t ts IH]; intros w; cbn; [reflexivity | ].
  rewrite IH. apply processSelection_annotations.
Qed.

Lemma step_annotations (w : World) (e : Event) :
  List.length (annotations (page w)) <= 1 ->
  List.length (annotations (page (step w e))) <= 1.
Proof.
  intros Hw. destruct e; cbn; try exact Hw; try (cbn; lia).
  - unfold selectionEnded.
    destruct (Nat.ltb 0 (String.length (trim rawText))); [cbn; lia | exact Hw].
  - unfold elapse. rewrite fired_annotations. exact Hw.
  - unfold screenshotSettled.
    destruct (find_run run w) as [[rid rtext [ | s]] | ]; try exact Hw.
    destruct outcome; exact Hw.
  - unfold searchSettled.
    destruct (find_run run w) as [[rid rtext [ | s]] | ]; try exact Hw.
    destruct (extractAndSearch settled); exact Hw.
  - unfold handleJumpToPage.
    destruct (viewerApis (page w)); [cbn; lia | exact Hw].
Qed.

Lemma exec_annotations (events : list Event) :
  forall w,
    List.length (annotations (page w)) <= 1 ->
    List.length (annotations (page (exec events w))) <= 1.
Proof.
  induction events as [ | e events IH]; intros w Hw; cbn; [exact Hw | ].
  apply IH. apply step_annotations. exact Hw.
Qed.

Lemma annotations_are_highlights_step (w : World) (e : Event) :
  (forall x, In x (annotations (page w)) -> exists r, x = highlight r) ->
  forall x, In x (annotations (page (step w e))) -> exists r, x = highlight r.
Proof.
  intros Hw x.
  assert (Hsame : forall w', annotations (page w') = annotations (page w) ->
                             In x (annotations (page w')) -> exists r, x = highlight r).
  { intros w' Heq Hin. rewrite Heq in Hin. apply Hw. exact Hin. }
  destruct e; cbn; try (apply Hw); try (intros []).
  - unfold selectionEnded.
    destruct (Nat.ltb 0 (String.length (trim rawText))); [intros [] | apply Hw].
  - unfold elapse. apply Hsame. rewrite fired_annotations. reflexivity.
  - unfold screenshotSettled.
    destruct (find_run run w) as [[rid rtext [ | s]] | ]; try apply Hw.
    destruct outcome; apply Hw.
  - unfold searchSettled.
    destruct (find_run run w) as [[rid rtext [ | s]] | ]; try apply Hw.
    destruct (extractAndSearch settled); apply Hw.
  - unfold handleJumpToPage.
    destruct (viewerApis (page w)); [ | apply Hw].
    cbn. intros [<- | []]. exists recommendation. reflexivity.
Qed.

Lemma annotations_are_highlights (events : list Event) :
  forall w,
    (forall x, In x (annotations (page w)) -> exists r, x = highlight r) ->
    forall x, In x (annotations (page (exec events w))) -> exists r, x = highlight r.
Proof.
  induction events as [ | e events IH]; intros w Hw; cbn; [exact Hw | ].
  apply IH. apply annotations_are_highlights_step. exact Hw.
Qed.

(** C8.  With the capability handle ready, choosing a recommendation asks
    the surface for [goToLocation(pageNumber)] and makes the annotation list
    the single highlight of that recommendation: its page number and its
    bounding box, in the colour and opacity of the page.  Choosing A and
    then B leaves B's highlight alone in the list, and the list handed to
    the surface by the viewer component after each choice holds that one
    highlight.  Without a handle the choice changes nothing and nothing is
    kept for later.  In every state the page reaches the annotation list
    holds at most one entry, the highlight of a recommendation, and once
    a new selection has emptied the list nothing is handed to the surface. *)
Theorem C8_single_highlight (w : World) (a b : BackendRecommendation) :
  (forall apis,
      viewerApis (page w) = Some apis ->
      let chosen_a := step w (JumpToPage a) in
      let chosen_b := step chosen_a (JumpToPage b) in
      let highlight_of (r : BackendRecommendation) :=
        {| Annotation.pageNumber := pageNumber r;
           Annotation.type := HIGHLIGHT;
           Annotation.boundingBox := boundingBox r;
           Annotation.color := "#FBBF24";
           Annotation.opacity := 0.4%Q |} in
      viewer_calls chosen_a
      = (viewer_calls w ++ [goToLocation apis (pageNumber a)])%list /\
      annotations (page chosen_a) = [highlight_of a] /\
      viewer_calls chosen_b
      = (viewer_calls w ++ [goToLocation apis (pageNumber a);
                            goToLocation apis (pageNumber b)])%list /\
      annotations (page chosen_b) = [highlight_of b] /\
      (forall held,
          drawAnnotations (Some held) (annotations (page chosen_a))
          = [addAnnotations held [highlight_of a]] /\
          drawAnnotations (Some held) (annotations (page chosen_b))
          = [addAnnotations held [highlight_of b]] /\
          forall selectedText,
            drawAnnotations (Some held)
              (annotations (page (step chosen_b (TextSelect selectedText))))
            = [])) /\
  (viewerApis (page w) = None ->
   step w (JumpToPage a) = w /\
   forall apis, step (step w (JumpToPage a)) (ViewerReady apis)
                = step w (ViewerReady apis)) /\
  (forall events,
      List.length (annotations (page (exec events booted))) <= 1 /\
      forall x, In x (annotations (page (exec events booted))) ->
                exists r,
                  Annotation.pageNumber x = pageNumber r /\
                  Annotation.boundingBox x = boundingBox r).
Proof.
  split; [ | split].
  - intros apis Hready chosen_a chosen_b highlight_of.
    assert (Ha : chosen_a
                 = {| page := setAnnotations [highlight a] (page w);
                      now := now w; timers := timers w; next_timer := next_timer w;
                      viewer_element := viewer_element w; runs := runs w;
                      next_run := next_run w; requests := requests w;
                      viewer_calls := viewer_calls w
                                      ++ [goToLocation apis (pageNumber a)] |}).
    { subst chosen_a. cbn [step]. unfold handleJumpToPage. rewrite Hready. reflexivity. }
    assert (Hb : chosen_b
                 = {| page := setAnnotations [highlight b] (page chosen_a);
                      now := now w; timers := timers w; next_timer := next_timer w;
                      viewer_element := viewer_element w; runs := runs w;
                      next_run := next_run w; requests := requests w;
                      viewer_calls := (viewer_calls w
                                       ++ [goToLocation apis (pageNumber a)])
                                      ++ [goToLocation apis (pageNumber b)] |}).
    { subst chosen_b. rewrite Ha. cbn [step]. unfold handleJumpToPage.
      cbn [page setAnnotations viewerApis]. rewrite Hready. reflexivity. }
    clearbody chosen_a chosen_b. subst chosen_b chosen_a. cbn.
    rewrite <- app_assoc. cbn. repeat split.
  - intros Hnone.
    assert (Hsame : step w (JumpToPage a) = w).
    { cbn. unfold handleJumpToPage. rewrite Hnone. reflexivity. }
    split; [exact Hsame | ]. intros apis. rewrite Hsame. reflexivity.
  - intros events. split.
    + apply exec_annotations. cbn. lia.
    + intros x Hin.
      destruct (annotations_are_highlights events booted (fun y H => match H with end) x Hin)
        as [r ->].
      exists r. split; reflexivity.
Qed.

End PageFacts.

Lemma C8_single_highlight_witness :
  EventLoop.viewer_calls
    (EventLoop.step (RT := Doubles.search_runtime) Doubles.idle
       (EventLoop.JumpToPage (Doubles.hit "A" 4%Q)))
  = [EventLoop.goToLocation Doubles.surface (JS.Fin 4%Q)] /\
  Page.annotations
    (EventLoop.page
       (EventLoop.exec (RT := Doubles.search_runtime)
          [EventLoop.JumpToPage (Doubles.hit "A" 4%Q);
           EventLoop.JumpToPage (Doubles.hit "B" 7%Q)]
          Doubles.idle))
  = [ {| Page.Annotation.pageNumber := JS.Fin 7%Q;
         Page.Annotation.type := Page.HIGHLIGHT;
         Page.Annotation.boundingBox :=
           (JS.Fin 88%Q, JS.Fin 552%Q, JS.Fin 520%Q, JS.Fin 564%Q);
         Page.Annotation.color := "#FBBF24";
         Page.Annotation.opacity := 0.4%Q |} ].
Proof.
  destruct (C8_single_highlight (RT := Doubles.search_runtime) Doubles.idle
              (Doubles.hit "A" 4%Q) (Doubles.hit "B" 7%Q))
    as [Hready _].
  destruct (Hready Doubles.surface eq_refl) as [Hcalls [_ [_ [Hlast _]]]].
  split; [exact Hcalls | exact Hlast].
Defined.

(** C7 at a failing input: a document opened from disk is on show; a click
    on the Library button of the header leaves the viewer for the library
    and the document reference is still set, whereas the Back to Library
    button clears it. *)
Theorem C7_library_button_keeps_document :
  Page.currentView Doubles.reading = Page.viewer /\
  Page.currentView (Page.libraryButtonClick Doubles.reading) = Page.library /\
  Page.document (Page.libraryButtonClick Doubles.reading)
  = Some {| Page.df_id := None; Page.url := None;
            Page.name := "notes.pdf"; Page.file := Some Doubles.notes |} /\
  Page.document (Page.handleBackToLibrary Doubles.reading) = None.
Proof. repeat split. Qed.

(* ================================================================== *)
(** ** Debounced selection pipeline *)
(* ================================================================== *)

Section PipelineFacts.
Import JS ApiClient Page EventLoop Contract Doubles.
Context `{RT : Runtime}.

(** *** What an invocation leaves alone *)

Lemma processSelection_frame apis text (w : World) :
  let w' := processSelectionWithScreenshot apis text w in
  timers w' = timers w /\ next_timer w' = next_timer w /\ now w' = now w /\
  viewer_element w' = viewer_element w /\ requests w' = requests w /\
  viewer_calls w' = viewer_calls w /\
  selectionTimerRef (page w') = selectionTimerRef (page w) /\
  viewerApis (page w') = viewerApis (page w) /\
  recommendations (page w') = recommendations (page w).
Proof.
  unfold processSelectionWithScreenshot.
  destruct apis; [ | cbn; repeat split].
  destruct (blank text); [cbn; repeat split | ].
  destruct (viewer_element w) eqn:Hel; cbn; rewrite ?Hel; repeat split.
Qed.

Lemma processSelection_numbered apis text (w : World) :
  runs_numbered w -> runs_numbered (processSelectionWithScreenshot apis text w).
Proof.
  intros Hw. unfold processSelectionWithScreenshot.
  destruct apis; [ | exact Hw].
  destruct (blank text); [exact Hw | ].
  destruct (viewer_element w); [ | exact Hw].
  intros r Hin. cbn in *. apply in_app_or in Hin.
  destruct Hin as [Hin | [<- | []]]; [ | cbn; lia].
  specialize (Hw r Hin). lia.
Qed.

Lemma fired_frame (ts : list Timer) :
  forall w,
    let w' := fold_left fire ts w in
    timers w' = timers w /\
    selectionTimerRef (page w') = selectionTimerRef (page w) /\
    (runs_numbered w -> runs_numbered w').
Proof.
  induction ts as [ | t ts IH]; intros w; cbn.
  - repeat split; auto.
  - destruct (IH (fire w t)) as [Ht [Hr Hn]].
    destruct (processSelection_frame (captured_viewerApis t) (captured_text t) w)
      as [Ht' [_ [_ [_ [_ [_ [Hr' _]]]]]]].
    cbn in Ht', Hr'. fold (fire w t) in Ht', Hr'.
    split; [congruence | split; [congruence | ]].
    intros Hw. apply Hn. apply processSelection_numbered. exact Hw.
Qed.

(** *** The debounce timer *)

Lemma clearTimeout_all (id : positive) (ts : list Timer) :
  (forall t, In t ts -> Some id = Some (timer_id t)) ->
  clearTimeout id ts = [].
Proof.
  unfold clearTimeout.
  induction ts as [ | t ts IH]; intros Hall; cbn; [reflexivity | ].
  assert (Ht : id = timer_id t) by (injection (Hall t (or_introl eq_refl)); auto).
  rewrite <- Ht, Pos.eqb_refl. cbn.
  apply IH. intros t' Hin. apply Hall. right. exact Hin.
Qed.

(** A raw selection cancels whatever timer is pending and arms one of its
    own: afterwards exactly one timer is pending, due a quiet period later,
    holding the text of this selection. *)
Lemma handleTextSelect_arms_one (selectedText : string) (w : World) :
  timers_tracked w ->
  timers (handleTextSelect selectedText w)
  = [ {| timer_id := next_timer w;
         due := (now w + debounce_ms)%N;
         captured_text := selectedText;
         captured_viewerApis := viewerApis (page w) |} ].
Proof.
  intros Htracked. unfold handleTextSelect. cbn.
  destruct (selectionTimerRef (page w)) as [id | ] eqn:Href.
  - rewrite clearTimeout_all; [reflexivity | ].
    intros t Hin. rewrite <- Href. apply Htracked. exact Hin.
  - destruct (timers w) as [ | t ts] eqn:Hts; [reflexivity | ].
    specialize (Htracked t). rewrite Hts in Htracked.
    specialize (Htracked (or_introl eq_refl)). congruence.
Qed.

Lemma elapse_before_due (ms : N) (w : World) (t : Timer) :
  timers w = [t] ->
  (now w + ms < due t)%N ->
  elapse ms w
  = {| page := page w; now := (now w + ms)%N; timers := [t];
       next_timer := next_timer w; viewer_element := viewer_element w;
       runs := runs w; next_run := next_run w; requests := requests w;
       viewer_calls := viewer_calls w |}.
Proof.
  intros Hts Hlt. unfold elapse. rewrite Hts. cbn [filter]. unfold is_due.
  apply N.leb_gt in Hlt. rewrite Hlt. reflexivity.
Qed.

Lemma elapse_when_due (ms : N) (w : World) (t : Timer) :
  timers w = [t] ->
  (due t <= now w + ms)%N ->
  elapse ms w
  = processSelectionWithScreenshot (captured_viewerApis t) (captured_text t)
      {| page := page w; now := (now w + ms)%N; timers := [];
         next_timer := next_timer w; viewer_element := viewer_element w;
         runs := runs w; next_run := next_run w; requests := requests w;
         viewer_calls := viewer_calls w |}.
Proof.
  intros Hts Hle. unfold elapse. rewrite Hts. cbn [filter]. unfold is_due.
  apply N.leb_le in Hle. rewrite Hle. reflexivity.
Qed.

Lemma elapse_nothing_pending (ms : N) (w : World) :
  timers w = [] ->
  elapse ms w
  = {| page := page w; now := (now w + ms)%N; timers := [];
       next_timer := next_timer w; viewer_element := viewer_element w;
       runs := runs w; next_run := next_run w; requests := requests w;
       viewer_calls := viewer_calls w |}.
Proof.
  intros Hts. unfold elapse. rewrite Hts. reflexivity.
Qed.

(** *** Well-formed worlds *)

Lemma handleTextSelect_wellformed (selectedText : string) (w : World) :
  wellformed w -> wellformed (handleTextSelect selectedText w).
Proof.
  intros [Htracked Hnumbered]. split.
  - intros t Hin. rewrite (handleTextSelect_arms_one _ _ Htracked) in Hin.
    destruct Hin as [<- | []]. reflexivity.
  - exact Hnumbered.
Qed.

Lemma elapse_wellformed (ms : N) (w : World) :
  wellformed w -> wellformed (elapse ms w).
Proof.
  intros [Htracked Hnumbered]. unfold elapse.
  match goal with
  | |- wellformed (fold_left _ ?ts ?w0) =>
      destruct (fired_frame ts w0) as [Ht [Hr Hn]]
  end.
  cbn in Ht, Hr, Hn. split.
  - intros t Hin. rewrite Ht in Hin. rewrite Hr.
    apply filter_In in Hin. apply Htracked. tauto.
  - apply Hn. exact Hnumbered.
Qed.

Lemma find_run_In (id : nat) (w : World) (r : Run) :
  find_run id w = Some r -> In r (runs w) /\ run_id r = id.
Proof.
  unfold find_run. intros Hfind. apply find_some in Hfind.
  destruct Hfind as [Hin Heq]. apply Nat.eqb_eq in Heq. tauto.
Qed.

Lemma drop_run_In (id : nat) (w : World) (r : Run) :
  In r (drop_run id w) -> In r (runs w) /\ run_id r <> id.
Proof.
  unfold drop_run. intros Hin. apply filter_In in Hin.
  destruct Hin as [Hin Hne]. apply negb_true_iff, Nat.eqb_neq in Hne. tauto.
Qed.

Lemma screenshotSettled_wellformed id outcome (w : World) :
  wellformed w -> wellformed (screenshotSettled id outcome w).
Proof.
  intros [Htracked Hnumbered]. unfold screenshotSettled.
  destruct (find_run id w) as [[rid rtext [ | s]] | ] eqn:Hfind;
    try (split; assumption).
  apply find_run_In in Hfind. destruct Hfind as [Hin Hid]. cbn in Hid.
  destruct outcome as [screenshot | ]; split; try exact Htracked.
  - intros r Hr. cbn in Hr |- *. apply in_app_or in Hr.
    destruct Hr as [Hr | [<- | []]].
    + apply drop_run_In in Hr. apply Hnumbered. tauto.
    + cbn. subst id. apply (Hnumbered _ Hin).
  - intros r Hr. cbn in Hr |- *. apply drop_run_In in Hr.
    apply Hnumbered. tauto.
Qed.

Lemma searchSettled_wellformed id settled (w : World) :
  wellformed w -> wellformed (searchSettled id settled w).
Proof.
  intros [Htracked Hnumbered]. unfold searchSettled.
  destruct (find_run id w) as [[rid rtext [ | s]] | ] eqn:Hfind;
    try (split; assumption).
  destruct (extractAndSearch settled); split; try exact Htracked;
    intros r Hr; cbn in Hr |- *; apply drop_run_In in Hr;
    apply Hnumbered; tauto.
Qed.

Lemma step_wellformed (w : World) (e : Event) :
  wellformed w -> wellformed (step w e).
Proof.
  intros Hw. destruct e; cbn;
    try (destruct Hw as [Ht Hn]; split; [exact Ht | exact Hn]).
  - unfold selectionEnded.
    destruct (Nat.ltb 0 (String.length (trim rawText))); [ | exact Hw].
    apply handleTextSelect_wellformed. exact Hw.
  - apply handleTextSelect_wellformed. exact Hw.
  - apply elapse_wellformed. exact Hw.
  - apply screenshotSettled_wellformed. exact Hw.
  - apply searchSettled_wellformed. exact Hw.
  - unfold handleJumpToPage. destruct (viewerApis (page w)); [ | exact Hw].
    destruct Hw as [Ht Hn]; split; [exact Ht | exact Hn].
Qed.

Lemma exec_wellformed (events : list Event) :
  forall w, wellformed w -> wellformed (exec events w).
Proof.
  induction events as [ | e events IH]; intros w Hw; cbn; [exact Hw | ].
  apply IH. apply step_wellformed. exact Hw.
Qed.

Lemma booted_wellformed : wellformed booted.
Proof. split; intros x []. Qed.

Lemma handleTextSelect_tracked (selectedText : string) (w : World) :
  timers_tracked w -> timers_tracked (handleTextSelect selectedText w).
Proof.
  intros Htracked t Hin.
  rewrite (handleTextSelect_arms_one _ _ Htracked) in Hin.
  destruct Hin as [<- | []]. reflexivity.
Qed.

(** *** A burst *)

Lemma arm_from_quiet (w0 : World) apis (gap : N) (selectedText : string) :
  timers w0 = [] ->
  viewerApis (page w0) = Some apis ->
  viewer_element w0 = true ->
  armed w0 apis selectedText (handleTextSelect selectedText (elapse gap w0)).
Proof.
  intros Hquiet Hready Hel.
  rewrite (elapse_nothing_pending _ _ Hquiet).
  set (w1 := {| page := page w0; now := (now w0 + gap)%N; timers := [] |}).
  assert (Htracked : timers_tracked w1) by (intros t []).
  unfold armed. split; [ | split; [ | repeat split]].
  - eexists. rewrite (handleTextSelect_arms_one _ _ Htracked).
    cbn. rewrite Hready. reflexivity.
  - apply handleTextSelect_tracked. exact Htracked.
  - exact Hready.
  - exact Hel.
Qed.

Lemma rearm (w0 w : World) apis (gap : N) (before selectedText : string) :
  armed w0 apis before w ->
  (gap < debounce_ms)%N ->
  armed w0 apis selectedText (handleTextSelect selectedText (elapse gap w)).
Proof.
  intros [[id Hts] [Htracked [Hready [Hel [Hruns [Hnext Hreq]]]]]] Hgap.
  rewrite (elapse_before_due gap w _ Hts); [ | cbn; lia].
  match goal with
  | |- armed _ _ _ (handleTextSelect _ ?w') => set (w1 := w')
  end.
  assert (Htracked1 : timers_tracked w1).
  { intros t Hin. cbn in Hin |- *. apply Htracked. rewrite Hts. exact Hin. }
  unfold armed. split; [ | split; [ | repeat split]].
  - eexists. rewrite (handleTextSelect_arms_one _ _ Htracked1).
    cbn. rewrite Hready. reflexivity.
  - apply handleTextSelect_tracked. exact Htracked1.
  - exact Hready.
  - exact Hel.
  - exact Hruns.
  - exact Hnext.
  - exact Hreq.
Qed.

Lemma last_cons_default {A : Type} (l : list A) :
  forall x d, last (x :: l) d = last l x.
Proof.
  induction l as [ | y l IH]; intros x d; [reflexivity | ].
  change (last (x :: y :: l) d) with (last (y :: l) d).
  rewrite (IH y d), (IH y x). reflexivity.
Qed.

Lemma exec_app (xs ys : list Event) (w : World) :
  exec (xs ++ ys) w = exec ys (exec xs w).
Proof. unfold exec. apply fold_left_app. Qed.

Lemma burst_rearms (w0 : World) apis (rest : list (N * string)) :
  forall (d : N * string) (w : World),
    armed w0 apis (snd d) w ->
    Forall (fun sel => (fst sel < debounce_ms)%N) rest ->
    armed w0 apis (snd (last rest d)) (exec (burst rest) w).
Proof.
  induction rest as [ | [gap selectedText] rest IH]; intros d w Harmed Hgaps.
  - exact Harmed.
  - rewrite last_cons_default.
    inversion Hgaps as [ | x l Hgap Hrest]; subst.
    change (exec (burst ((gap, selectedText) :: rest)) w)
      with (exec (burst rest) (handleTextSelect selectedText (elapse gap w))).
    apply IH; [ | exact Hrest].
    apply (rearm w0 w apis gap (snd d) selectedText Harmed Hgap).
Qed.

Lemma find_fresh_run (rs : list Run) (r : Run) :
  (forall x, In x rs -> run_id x < run_id r) ->
  find (fun x => Nat.eqb (run_id x) (run_id r)) (rs ++ [r]) = Some r.
Proof.
  induction rs as [ | x rs IH]; intros Hlt; cbn.
  - rewrite Nat.eqb_refl. reflexivity.
  - assert (Hx : Nat.eqb (run_id x) (run_id r) = false).
    { apply Nat.eqb_neq. specialize (Hlt x (or_introl eq_refl)). lia. }
    rewrite Hx. apply IH. intros y Hy. apply Hlt. right. exact Hy.
Qed.

Lemma find_run_after_drop (id1 id2 : nat) (w w' : World) :
  id1 <> id2 ->
  runs w' = drop_run id1 w ->
  find_run id2 w' = find_run id2 w.
Proof.
  intros Hne Hruns. unfold find_run, drop_run in *. rewrite Hruns.
  clear Hruns.
  induction (runs w) as [ | r rs IH]; cbn; [reflexivity | ].
  destruct (Nat.eqb (run_id r) id1) eqn:H1; cbn.
  - apply Nat.eqb_eq in H1.
    assert (H2 : Nat.eqb (run_id r) id2 = false) by (apply Nat.eqb_neq; lia).
    rewrite H2. exact IH.
  - destruct (Nat.eqb (run_id r) id2); [reflexivity | exact IH].
Qed.

Lemma searchSettled_commits (w : World) id r screenshot settled result :
  find_run id w = Some r ->
  stage r = AwaitingSearch screenshot ->
  extractAndSearch settled = Ok result ->
  searchSettled id settled w
  = with_runs (drop_run id w)
      (with_page (setIsLoading false (setRecommendations result (page w))) w).
Proof.
  intros Hfind Hstage Hok. unfold searchSettled. rewrite Hfind.
  destruct r as [rid rtext st]. cbn in Hstage. subst st.
  rewrite Hok. reflexivity.
Qed.

(** *** What leaves the recommendations alone *)

Lemma fired_recommendations (ts : list Timer) :
  forall w,
    recommendations (page (fold_left fire ts w)) = recommendations (page w).
Proof.
  induction ts as [ | t ts IH]; intros w; cbn; [reflexivity | ].
  rewrite IH. unfold fire.
  apply (processSelection_frame (captured_viewerApis t) (captured_text t) w).
Qed.

Lemma step_keeps_recommendations (w : World) (e : Event) :
  replaces_recommendations e = false ->
  recommendations (page (step w e)) = recommendations (page w).
Proof.
  intros Hkeeps. destruct e; cbn in Hkeeps |- *; try reflexivity; try discriminate.
  - unfold selectionEnded.
    destruct (Nat.ltb 0 (String.length (trim rawText))); reflexivity.
  - unfold elapse. rewrite fired_recommendations. reflexivity.
  - unfold screenshotSettled.
    destruct (find_run run w) as [[rid rtext [ | s]] | ]; try reflexivity.
    destruct outcome; reflexivity.
  - unfold searchSettled.
    destruct (find_run run w) as [[rid rtext [ | s]] | ]; try reflexivity.
    destruct (extractAndSearch settled); [discriminate | reflexivity].
  - unfold handleJumpToPage. destruct (viewerApis (page w)); reflexivity.
Qed.

Lemma exec_keeps_recommendations (events : list Event) :
  forall w,
    Forall (fun e => replaces_recommendations e = false) events ->
    recommendations (page (exec events w)) = recommendations (page w).
Proof.
  induction events as [ | e events IH]; intros w Hall; [reflexivity | ].
  inversion Hall as [ | x l He Hrest]; subst.
  change (exec (e :: events) w) with (exec events (step w e)).
  rewrite (IH _ Hrest). apply step_keeps_recommendations. exact He.
Qed.

(** *** A page with nothing pending *)

Lemma step_quiet (w : World) (e : Event) :
  quiet w -> is_selection e = false ->
  quiet (step w e) /\ requests (step w e) = requests w.
Proof.
  intros [Htimers Hruns] Hnot. unfold quiet.
  destruct e; cbn in Hnot |- *; try discriminate; try (repeat split; assumption).
  - rewrite (elapse_nothing_pending _ _ Htimers). cbn. repeat split. exact Hruns.
  - unfold screenshotSettled, find_run. rewrite Hruns. cbn.
    repeat split; assumption.
  - unfold searchSettled, find_run. rewrite Hruns. cbn.
    repeat split; assumption.
  - unfold handleJumpToPage.
    destruct (viewerApis (page w)); cbn; repeat split; assumption.
Qed.

(** With no timer and no invocation pending, nothing is sent until the
    user selects again. *)
Lemma quiet_world_sends_nothing (events : list Event) :
  forall w,
    quiet w ->
    Forall (fun e => is_selection e = false) events ->
    quiet (exec events w) /\ requests (exec events w) = requests w.
Proof.
  induction events as [ | e events IH]; intros w Hw Hall; [auto | ].
  inversion Hall as [ | x l He Hrest]; subst.
  change (exec (e :: events) w) with (exec events (step w e)).
  destruct (step_quiet w e Hw He) as [Hquiet Hreq].
  destruct (IH _ Hquiet Hrest) as [Hq Hr].
  split; [exact Hq | congruence].
Qed.

End PipelineFacts.

Section PipelineClaims.
Import JS ApiClient Page EventLoop Contract Doubles.
Context `{RT : Runtime}.

(** C1 (as amended).  No generation is compared when a search comes back:
    the result of every invocation whose search is fulfilled is committed to
    the recommendations, whichever invocations were started after it; of two
    invocations under way the one whose search settles last decides the
    recommendations, so results are applied in order of completion. *)
Theorem C1_every_fulfilled_search_is_committed (w : World) :
  (forall id r screenshot settled result,
      find_run id w = Some r ->
      stage r = AwaitingSearch screenshot ->
      extractAndSearch settled = Ok result ->
      recommendations (page (step w (SearchSettled id settled))) = result) /\
  (forall id1 id2 r1 r2 s1 s2 settled1 settled2 result1 result2,
      id1 <> id2 ->
      find_run id1 w = Some r1 -> stage r1 = AwaitingSearch s1 ->
      find_run id2 w = Some r2 -> stage r2 = AwaitingSearch s2 ->
      extractAndSearch settled1 = Ok result1 ->
      extractAndSearch settled2 = Ok result2 ->
      recommendations
        (page (exec [SearchSettled id1 settled1; SearchSettled id2 settled2] w))
      = result2).
Proof.
  split.
  - intros id r screenshot settled result Hfind Hstage Hok. cbn.
    rewrite (searchSettled_commits w id r screenshot settled result Hfind Hstage Hok).
    reflexivity.
  - intros id1 id2 r1 r2 s1 s2 settled1 settled2 result1 result2
           Hne Hf1 Hs1 Hf2 Hs2 Hok1 Hok2.
    cbn.
    rewrite (searchSettled_commits w id1 r1 s1 settled1 result1 Hf1 Hs1 Hok1).
    match goal with
    | |- context [searchSettled id2 settled2 ?w1] =>
        assert (Hf2' : find_run id2 w1 = Some r2)
          by (rewrite (find_run_after_drop id1 id2 w w1 Hne eq_refl); exact Hf2);
        rewrite (searchSettled_commits w1 id2 r2 s2 settled2 result2 Hf2' Hs2 Hok2)
    end.
    reflexivity.
Qed.

(** C3.  A burst of one or more raw selections, each less than the quiet
    period of 600 ms after the one before, begun with no timer pending, the
    viewer ready and its element mounted, and ending on a text that is not
    blank: every selection leaves exactly one timer pending, the one it set
    itself; once the quiet period has passed one invocation has been started,
    for the text of the last selection, and nothing has been sent yet; when
    its screenshot is there exactly one request has been sent, carrying the
    trimmed text of the last selection, and no timer is left. *)
Theorem C3_burst_issues_one_request
    (w : World) (apis : ViewerAPIs) (first : N * string)
    (rest : list (N * string)) (quiet : N) (screenshot : File) :
  wellformed w ->
  timers w = [] ->
  viewerApis (page w) = Some apis ->
  viewer_element w = true ->
  Forall (fun sel => (fst sel < debounce_ms)%N) rest ->
  blank (snd (last rest first)) = false ->
  (debounce_ms <= quiet)%N ->
  let selectedText := snd (last rest first) in
  let armed_world := exec (burst (first :: rest)) w in
  let fired := step armed_world (Elapse quiet) in
  let sent := step fired (ScreenshotSettled (next_run w) (Some screenshot)) in
  (exists id,
      timers armed_world
      = [ {| timer_id := id; due := (now armed_world + debounce_ms)%N;
             captured_text := selectedText;
             captured_viewerApis := Some apis |} ]) /\
  requests armed_world = requests w /\
  runs armed_world = runs w /\
  timers fired = [] /\
  requests fired = requests w /\
  runs fired = (runs w ++ [ {| run_id := next_run w;
                               run_text := trim selectedText;
                               stage := AwaitingScreenshot |} ])%list /\
  requests sent = (requests w ++ [ {| issued_by := next_run w;
                                      image := screenshot;
                                      text := trim selectedText |} ])%list /\
  timers sent = [].
Proof.
  intros [Htracked Hnumbered] Hquiet Hready Hel Hgaps Hblank Hlong
         selectedText armed_world fired sent.
  assert (Harmed : armed w apis selectedText armed_world).
  { subst armed_world selectedText. destruct first as [gap0 text0].
    change (exec (burst ((gap0, text0) :: rest)) w)
      with (exec (burst rest) (handleTextSelect text0 (elapse gap0 w))).
    apply (burst_rearms w apis rest (gap0, text0)); [ | exact Hgaps].
    apply arm_from_quiet; assumption. }
  destruct Harmed as [[id Hts] [Htr [Hready' [Hel' [Hruns [Hnext Hreq]]]]]].
  change (blank selectedText = false) in Hblank.
  clearbody armed_world selectedText.
  assert (Hfired :
            fired
            = {| page := setInsights None
                           (setError None (setIsLoading true (page armed_world)));
                 now := (now armed_world + quiet)%N;
                 timers := [];
                 next_timer := next_timer armed_world;
                 viewer_element := true;
                 runs := runs w ++ [ {| run_id := next_run w;
                                        run_text := trim selectedText;
                                        stage := AwaitingScreenshot |} ];
                 next_run := S (next_run w);
                 requests := requests w;
                 viewer_calls := viewer_calls armed_world |}).
  { subst fired. cbn [step].
    rewrite (elapse_when_due quiet armed_world _ Hts); [ | cbn; lia].
    unfold processSelectionWithScreenshot. cbn.
    rewrite Hblank, Hel', Hruns, Hnext, Hreq. reflexivity. }
  split; [exists id; exact Hts | ].
  split; [exact Hreq | ].
  split; [exact Hruns | ].
  rewrite Hfired. cbn [timers requests runs].
  split; [reflexivity | ].
  split; [reflexivity | ].
  split; [reflexivity | ].
  subst sent. rewrite Hfired. cbn [step]. unfold screenshotSettled, find_run.
  cbn [runs].
  pose proof (find_fresh_run (runs w)
                {| run_id := next_run w; run_text := trim selectedText;
                   stage := AwaitingScreenshot |} Hnumbered) as Hfind.
  cbn [run_id] in Hfind. rewrite Hfind.
  cbn. split; reflexivity.
Qed.

(** C9.  For a selection text that is empty or only white space the
    pipeline does nothing: the listener of the viewer drops it before it
    reaches the page; [processSelectionWithScreenshot] returns the world it
    was given; and taken through the debouncer (the selection, then any
    lapse of time) no invocation is started, no request is sent, and
    loading, error, insights and recommendations are as they were. *)
Theorem C9_blank_selection_is_noop (selectedText : string) :
  blank selectedText = true ->
  (forall w, selectionEnded selectedText w = w) /\
  (forall apis w, processSelectionWithScreenshot apis selectedText w = w) /\
  (forall w ms,
      timers_tracked w ->
      let w' := exec [TextSelect selectedText; Elapse ms] w in
      requests w' = requests w /\ runs w' = runs w /\
      isLoading (page w') = isLoading (page w) /\
      error (page w') = error (page w) /\
      insights (page w') = insights (page w) /\
      recommendations (page w') = recommendations (page w)).
Proof.
  intros Hblank.
  assert (Hnoop : forall apis w,
             processSelectionWithScreenshot apis selectedText w = w).
  { intros apis w. unfold processSelectionWithScreenshot.
    destruct apis; [rewrite Hblank | ]; reflexivity. }
  split.
  { intros w. unfold selectionEnded.
    assert (Htrim : trim selectedText = "").
    { unfold blank in Hblank. apply orb_true_iff in Hblank.
      destruct Hblank as [Hempty | Hspaces].
      - apply String.eqb_eq in Hempty. subst selectedText. reflexivity.
      - apply String.eqb_eq in Hspaces. exact Hspaces. }
    rewrite Htrim. reflexivity. }
  split; [exact Hnoop | ].
  intros w ms Htracked.
  change (exec [TextSelect selectedText; Elapse ms] w)
    with (elapse ms (handleTextSelect selectedText w)).
  cbv zeta.
  pose proof (handleTextSelect_arms_one selectedText w Htracked) as Hts.
  destruct (N.le_gt_cases
              (now (handleTextSelect selectedText w) + debounce_ms)
              (now (handleTextSelect selectedText w) + ms)) as [Hdue | Hnot].
  - rewrite (elapse_when_due ms _ _ Hts); [ | exact Hdue].
    cbn [captured_text captured_viewerApis]. rewrite Hnoop.
    cbn. repeat split.
  - rewrite (elapse_before_due ms _ _ Hts); [ | exact Hnot].
    cbn. repeat split.
Qed.

(** C10.  When a run of the selection pipeline fails, the recommendations
    committed before stay as they are.  The handling of the failure
    ([fail_run]) sets the error text, clears the loading flag and touches no
    other part of the state; it is what happens when the viewer element is
    missing, when the screenshot is rejected and when the gateway call
    throws.  Nor does any earlier step of a run touch the recommendations:
    over any sequence of events of the page they change only when a search
    comes back fulfilled or when a document is opened, so a run, from the
    selection that starts it to its failure, leaves them as it found them. *)
Theorem C10_failed_run_keeps_recommendations (w : World) :
  (forall events,
      Forall (fun e => replaces_recommendations e = false) events ->
      recommendations (page (exec events w)) = recommendations (page w)) /\
  (forall apis selectedText,
      recommendations (page (processSelectionWithScreenshot apis selectedText w))
      = recommendations (page w)) /\
  (forall p,
      recommendations (fail_run p) = recommendations p /\
      error (fail_run p) = Some failure_message /\
      isLoading (fail_run p) = false /\
      document (fail_run p) = document p /\
      viewerApis (fail_run p) = viewerApis p /\
      annotations (fail_run p) = annotations p /\
      insights (fail_run p) = insights p /\
      isInsightsLoading (fail_run p) = isInsightsLoading p /\
      currentView (fail_run p) = currentView p /\
      selectedDocument (fail_run p) = selectedDocument p /\
      selectionTimerRef (fail_run p) = selectionTimerRef p) /\
  (forall apis selectedText,
      blank selectedText = false ->
      viewer_element w = false ->
      let w' := processSelectionWithScreenshot (Some apis) selectedText w in
      page w'
      = fail_run (setInsights None (setError None (setIsLoading true (page w)))) /\
      recommendations (page w') = recommendations (page w) /\
      runs w' = runs w /\ requests w' = requests w) /\
  (forall id r,
      find_run id w = Some r ->
      stage r = AwaitingScreenshot ->
      let w' := step w (ScreenshotSettled id None) in
      page w' = fail_run (page w) /\
      recommendations (page w') = recommendations (page w) /\
      requests w' = requests w) /\
  (forall id r screenshot settled e,
      find_run id w = Some r ->
      stage r = AwaitingSearch screenshot ->
      extractAndSearch settled = Throw e ->
      let w' := step w (SearchSettled id settled) in
      page w' = fail_run (page w) /\
      recommendations (page w') = recommendations (page w)).
Proof.
  split; [ | split; [ | split; [ | split; [ | split]]]].
  - intros events. apply exec_keeps_recommendations.
  - intros apis selectedText.
    apply (processSelection_frame apis selectedText w).
  - intros p. cbn. repeat split.
  - intros apis selectedText Hblank Hel. unfold processSelectionWithScreenshot.
    rewrite Hblank, Hel. cbn. repeat split.
  - intros id [rid rtext st] Hfind Hstage. cbn in Hstage. subst st.
    cbn. unfold screenshotSettled. rewrite Hfind. cbn. repeat split.
  - intros id [rid rtext st] screenshot settled e Hfind Hstage Hthrow.
    cbn in Hstage. subst st.
    cbn. unfold searchSettled. rewrite Hfind, Hthrow. cbn. repeat split.
Qed.

End PipelineClaims.

(** Counterexample to C1 as stated.  In [overtaken] two invocations have
    been started; the later one (number 1, the latest issued) has committed
    its result; the search of the earlier one (number 0) then comes back and
    its result replaces that of the later selection. *)
Lemma C1_superseded_result_is_committed :
  EventLoop.latest_issued Doubles.overtaken = Some 1 /\
  Page.recommendations (EventLoop.page Doubles.overtaken)
  = ApiClient.PassedThrough [Doubles.ready_made "beta-1" 0.8%Q] /\
  Page.recommendations
    (EventLoop.page
       (EventLoop.step (RT := Doubles.search_runtime) Doubles.overtaken
          (EventLoop.SearchSettled 0 (Doubles.answer "results-for-alpha"))))
  = ApiClient.PassedThrough [Doubles.ready_made "alpha-1" 0.9%Q] /\
  ~ Contract.generation_gate (RT := Doubles.search_runtime) Doubles.overtaken 0
      (Doubles.answer "results-for-alpha").
Proof.
  split; [vm_compute; reflexivity | ].
  split; [vm_compute; reflexivity | ].
  split; [vm_compute; reflexivity | ].
  intros Hgate.
  assert (Hok : ApiClient.extractAndSearch (RT := Doubles.search_runtime)
                  (Doubles.answer "results-for-alpha")
                = JS.Ok (ApiClient.PassedThrough [Doubles.ready_made "alpha-1" 0.9%Q]))
    by (vm_compute; reflexivity).
  destruct (Hgate _ Hok) as [Hcommitted _].
  assert (Hlatest : EventLoop.latest_issued Doubles.overtaken = Some 0)
    by (apply Hcommitted; vm_compute; reflexivity).
  vm_compute in Hlatest. discriminate Hlatest.
Qed.

Lemma C1_every_fulfilled_search_is_committed_witness :
  Page.recommendations
    (EventLoop.page
       (EventLoop.step (RT := Doubles.search_runtime) Doubles.overtaken
          (EventLoop.SearchSettled 0 (Doubles.answer "results-for-alpha"))))
  = ApiClient.PassedThrough [Doubles.ready_made "alpha-1" 0.9%Q].
Proof.
  destruct (C1_every_fulfilled_search_is_committed
              (RT := Doubles.search_runtime) Doubles.overtaken) as [Hcommit _].
  apply (Hcommit 0
           {| EventLoop.run_id := 0; EventLoop.run_text := "alpha";
              EventLoop.stage := EventLoop.AwaitingSearch (Doubles.shot "alpha.jpg") |}
           (Doubles.shot "alpha.jpg")).
  - vm_compute. reflexivity.
  - reflexivity.
  - vm_compute. reflexivity.
Defined.

Lemma C3_burst_issues_one_request_witness :
  EventLoop.requests
    (EventLoop.exec (RT := Doubles.search_runtime)
       (EventLoop.burst [(0%N, "alpha"); (100%N, "beta"); (599%N, " gamma ")]
        ++ [EventLoop.Elapse 600;
            EventLoop.ScreenshotSettled 0 (Some (Doubles.shot "page.jpg"))])
       Doubles.idle)
  = [ {| EventLoop.issued_by := 0;
         EventLoop.image := Doubles.shot "page.jpg";
         EventLoop.text := "gamma" |} ].
Proof.
  assert (Hwf : EventLoop.wellformed Doubles.idle).
  { split; intros x Hin; vm_compute in Hin; contradiction. }
  assert (Hgaps : Forall (fun sel : N * string => (fst sel < EventLoop.debounce_ms)%N)
                         [(100%N, "beta"); (599%N, " gamma ")]).
  { repeat constructor. }
  destruct (C3_burst_issues_one_request (RT := Doubles.search_runtime)
              Doubles.idle Doubles.surface (0%N, "alpha")
              [(100%N, "beta"); (599%N, " gamma ")] 600%N
              (Doubles.shot "page.jpg")
              Hwf eq_refl eq_refl eq_refl Hgaps eq_refl)
    as [_ [_ [_ [_ [_ [_ [Hsent _]]]]]]].
  - vm_compute. discriminate.
  - exact Hsent.
Defined.

Lemma C9_blank_selection_is_noop_witness :
  JS.blank "   " = true /\
  EventLoop.selectionEnded "   " Doubles.idle = Doubles.idle /\
  EventLoop.processSelectionWithScreenshot (Some Doubles.surface) "   " Doubles.idle
  = Doubles.idle /\
  EventLoop.requests
    (EventLoop.exec (RT := Doubles.search_runtime)
       [EventLoop.TextSelect "   "; EventLoop.Elapse 600] Doubles.idle)
  = [] /\
  EventLoop.runs
    (EventLoop.exec (RT := Doubles.search_runtime)
       [EventLoop.TextSelect "   "; EventLoop.Elapse 600] Doubles.idle)
  = [].
Proof.
  destruct (C9_blank_selection_is_noop (RT := Doubles.search_runtime) "   " eq_refl)
    as [Hdropped [Hnoop Hdebounced]].
  split; [reflexivity | ].
  split; [apply Hdropped | ].
  split; [apply Hnoop | ].
  assert (Htracked : EventLoop.timers_tracked Doubles.idle).
  { intros x Hin. vm_compute in Hin. contradiction. }
  destruct (Hdebounced Doubles.idle 600%N Htracked) as [Hreq [Hruns _]].
  split; [exact Hreq | exact Hruns].
Defined.

Lemma C10_failed_run_keeps_recommendations_witness :
  Page.recommendations
    (EventLoop.page
       (EventLoop.step (RT := Doubles.search_runtime) Doubles.overtaken
          (EventLoop.SearchSettled 0 ApiClient.Rejected)))
  = ApiClient.PassedThrough [Doubles.ready_made "beta-1" 0.8%Q] /\
  Page.error
    (EventLoop.page
       (EventLoop.step (RT := Doubles.search_runtime) Doubles.overtaken
          (EventLoop.SearchSettled 0 ApiClient.Rejected)))
  = Some "Failed to process selection. Try again." /\
  Page.recommendations
    (EventLoop.page
       (EventLoop.exec (RT := Doubles.search_runtime)
          [EventLoop.SearchSettled 0 ApiClient.Rejected;
           EventLoop.TextSelect "gamma"; EventLoop.Elapse 600;
           EventLoop.ScreenshotSettled 2 None]
          Doubles.overtaken))
  = Page.recommendations (EventLoop.page Doubles.overtaken).
Proof.
  destruct (C10_failed_run_keeps_recommendations
              (RT := Doubles.search_runtime) Doubles.overtaken)
    as [Hframe [_ [_ [_ [_ Hsearch]]]]].
  destruct (Hsearch 0
              {| EventLoop.run_id := 0; EventLoop.run_text := "alpha";
                 EventLoop.stage := EventLoop.AwaitingSearch (Doubles.shot "alpha.jpg") |}
              (Doubles.shot "alpha.jpg") ApiClient.Rejected JS.NetworkError)
    as [Hpage Hrecs].
  - vm_compute. reflexivity.
  - reflexivity.
  - reflexivity.
  - split; [ | split].
    + rewrite Hrecs. vm_compute. reflexivity.
    + rewrite Hpage. reflexivity.
    + apply Hframe. repeat constructor.
Defined.

(** Counterexample to C3 as stated.  A document is on show and its viewer
    is ready; a burst of two selections 100 ms apart is followed by the
    quiet period, and the one invocation it starts fails when its screenshot
    is rejected.  No request has been sent, no timer and no invocation is
    left that could send one, and the error text is on show. *)
Lemma C3_rejected_screenshot_sends_nothing :
  Page.currentView (EventLoop.page Doubles.viewing) = Page.viewer /\
  Page.viewerApis (EventLoop.page Doubles.viewing) = Some Doubles.surface /\
  EventLoop.requests
    (EventLoop.exec (RT := Doubles.search_runtime)
       (EventLoop.burst [(0%N, "alpha"); (100%N, "beta")]
        ++ [EventLoop.Elapse 600; EventLoop.ScreenshotSettled 0 None])
       Doubles.viewing)
  = [] /\
  EventLoop.quiet
    (EventLoop.exec (RT := Doubles.search_runtime)
       (EventLoop.burst [(0%N, "alpha"); (100%N, "beta")]
        ++ [EventLoop.Elapse 600; EventLoop.ScreenshotSettled 0 None])
       Doubles.viewing) /\
  Page.error
    (EventLoop.page
       (EventLoop.exec (RT := Doubles.search_runtime)
          (EventLoop.burst [(0%N, "alpha"); (100%N, "beta")]
           ++ [EventLoop.Elapse 600; EventLoop.ScreenshotSettled 0 None])
          Doubles.viewing))
  = Some "Failed to process selection. Try again." /\
  ~ Contract.one_request_per_burst (RT := Doubles.search_runtime) Doubles.viewing
      [(0%N, "alpha"); (100%N, "beta")]
      [EventLoop.Elapse 600; EventLoop.ScreenshotSettled 0 None].
Proof.
  split; [vm_compute; reflexivity | ].
  split; [vm_compute; reflexivity | ].
  split; [vm_compute; reflexivity | ].
  split; [split; vm_compute; reflexivity | ].
  split; [vm_compute; reflexivity | ].
  intros [request [Hsent _]].
  vm_compute in Hsent. discriminate Hsent.
Qed.

(* ================================================================== *)
(** ** The document list of the gateway *)
(* ================================================================== *)

Section GatewayFacts.
Import JS JSNotations ApiClient Gateway Samples.
Context `{RT : Runtime}.

Lemma append_dash_nonempty (a b : string) : a ++ "-" ++ b <> "".
Proof. destruct a; discriminate. Qed.

Lemma or_text_nonempty (a b : string) : b <> "" -> or_text a b <> "".
Proof.
  intros Hb. unfold or_text. destruct (String.eqb a "") eqn:Ha; [exact Hb | ].
  apply String.eqb_neq in Ha. exact Ha.
Qed.

(** An entry that is built has the id it brought, or else one made up
    from a name and its position. *)
Lemma document_entry_built clock index raw d :
  document_entry clock index raw = Ok d ->
  exists own base,
    own_id raw = Ok own /\
    id d = or_text own (base ++ String "-"%char (decimal index)).
Proof.
  unfold document_entry, own_id.
  destruct (trimmed_member (get_prop "id" (nullish_or (Some raw) (JObj []))))
    as [baseId | e]; cbn [bind]; [ | discriminate].
  destruct (trimmed_member (get_prop "name" (nullish_or (Some raw) (JObj []))))
    as [baseName | e]; cbn [bind]; [ | discriminate].
  intros [= <-]. cbn [id]. eexists _, _. split; reflexivity.
Qed.

Lemma pdf_entry_built clock index raw d :
  pdf_entry clock index raw = Ok d ->
  exists own base,
    own_id raw = Ok own /\
    id d = or_text own (base ++ String "-"%char (decimal index)).
Proof.
  unfold pdf_entry, own_id.
  set (doc := nullish_or (Some raw) (JObj [])).
  set (asObj := match doc with
                | JStr s => JObj [("filename", JStr s)]
                | other => other
                end).
  assert (Hid : get_prop "id" asObj = get_prop "id" doc)
    by (subst asObj; destruct doc; reflexivity).
  rewrite Hid.
  destruct (trimmed_member (get_prop "id" doc)) as [baseId | e];
    cbn [bind]; [ | discriminate].
  destruct (trimmed_member (get_prop "filename" asObj)) as [filename | e];
    cbn [bind]; [ | discriminate].
  destruct (trimmed_member (get_prop "name" asObj)) as [named | e];
    cbn [bind]; [ | discriminate].
  intros [= <-]. cbn [id]. eexists _, _. split; reflexivity.
Qed.

Lemma built_id_not_empty (own base : string) (index : nat) :
  or_text own (base ++ String "-"%char (decimal index)) <> "".
Proof. apply or_text_nonempty, append_dash_nonempty. Qed.

Lemma documents_of_entries (result : json) (clock : nat -> string)
    (docs : list DocumentInfo) :
  documents_of result clock = Ok docs ->
  forall k d,
    nth_error docs k = Some d ->
    exists own base,
      id d = or_text own (base ++ String "-"%char (decimal k)) /\
      forall items raw,
        (get_prop "documents" result = Some (JArr items) \/
         ((forall l, get_prop "documents" result <> Some (JArr l)) /\
          get_prop "pdfs" result = Some (JArr items))) ->
        nth_error items k = Some raw ->
        own_id raw = Ok own.
Proof.
  unfold documents_of. intros Hdocs k d Hk.
  destruct (get_prop "documents" result) as [documents | ] eqn:Hd.
  2: destruct (get_prop "pdfs" result) as [pdfs | ] eqn:Hp.
  1: destruct documents as [ | b | q | s | items | f].
  all: try destruct (get_prop "pdfs" result) as [pdfs | ] eqn:Hp.
  all: try destruct pdfs as [ | b' | q' | s' | items' | f'].
  all: try (injection Hdocs as <-; destruct k; discriminate Hk).
  all: destruct (map_indexed_ok _ _ _ _ Hdocs) as [_ Hnth];
    destruct (Hnth _ _ Hk) as [x [Hx Hbuilt]]; cbn [Nat.add] in Hbuilt.
  all: try (destruct (document_entry_built _ _ _ _ Hbuilt) as [own [base [Hown Hid]]]).
  all: try (destruct (pdf_entry_built _ _ _ _ Hbuilt) as [own [base [Hown Hid]]]).
  all: exists own, base; (split; [exact Hid | ]).
  all: intros items0 raw [Hshape | [Hnot Hshape]] Hraw;
    try (exfalso; eapply Hnot; reflexivity);
    try discriminate Hshape;
    injection Hshape as <-; congruence.
Qed.

(** X1.  Whatever the backend lists, every document that [getDocuments]
    returns has an id that is not empty. *)
Theorem getDocuments_ids_not_empty (settled : FetchOutcome) (clock : nat -> string)
    (docs : list DocumentInfo) :
  getDocuments settled clock = Ok docs ->
  Forall (fun d => id d <> "") docs.
Proof.
  unfold getDocuments. destruct settled as [ | response]; cbn; [discriminate | ].
  destruct (ok response); [ | discriminate].
  destruct (response_json response) as [result | e]; cbn [bind]; [ | discriminate].
  intros Hdocs. apply Forall_forall. intros d Hin.
  destruct (In_nth_error _ _ Hin) as [k Hk].
  assert (Hlisted : documents_of result clock = Ok docs).
  { destruct (documents_of result clock); [exact Hdocs | discriminate Hdocs]. }
  destruct (documents_of_entries result clock docs Hlisted k d Hk)
    as [own [base [Hid _]]].
  rewrite Hid. apply built_id_not_empty.
Qed.

(** *** Ids made up for entries that bring none *)

Lemma has_dash_app (a b : string) : has_dash (a ++ String "-"%char b) = true.
Proof.
  induction a as [ | c a IH]; cbn; [reflexivity | ].
  rewrite IH. apply orb_true_r.
Qed.

Lemma suffix_after_dash (a : string) :
  forall b x y,
    has_dash x = false -> has_dash y = false ->
    a ++ String "-"%char x = b ++ String "-"%char y -> x = y.
Proof.
  induction a as [ | c a IH]; intros [ | c' b] x y Hx Hy Heq; cbn in Heq.
  - injection Heq. auto.
  - injection Heq as Hc Hrest. subst x.
    rewrite has_dash_app in Hx. discriminate.
  - injection Heq as Hc Hrest. subst y.
    rewrite has_dash_app in Hy. discriminate.
  - injection Heq as Hc Hrest. apply (IH b x y Hx Hy Hrest).
Qed.

Lemma digits_no_dash (d : Decimal.uint) :
  has_dash (NilEmpty.string_of_uint d) = false.
Proof. induction d; cbn; auto. Qed.

Lemma decimal_no_dash (i : nat) : has_dash (decimal i) = false.
Proof.
  unfold decimal, NilZero.string_of_uint.
  destruct (Nat.to_uint i) eqn:Hd; try reflexivity;
    rewrite <- Hd at 1; try apply digits_no_dash;
    change (has_dash (NilEmpty.string_of_uint (Nat.to_uint i)) = false);
    apply digits_no_dash.
Qed.

Lemma to_uint_not_nil (i : nat) : Nat.to_uint i <> Decimal.Nil.
Proof.
  intros Hnil.
  pose proof (Unsigned.of_to i) as Hback. rewrite Hnil in Hback.
  cbn in Hback. subst i. discriminate Hnil.
Qed.

Lemma decimal_injective (i j : nat) : decimal i = decimal j -> i = j.
Proof.
  unfold decimal. intros Heq.
  apply Unsigned.to_uint_inj.
  pose proof (NilZero.usu (Nat.to_uint i) (to_uint_not_nil i)) as Hi.
  pose proof (NilZero.usu (Nat.to_uint j) (to_uint_not_nil j)) as Hj.
  rewrite Heq in Hi. rewrite Hi in Hj. injection Hj. auto.
Qed.

Lemma fallback_differs (a b : string) (i j : nat) :
  i <> j -> a ++ String "-"%char (decimal i) <> b ++ String "-"%char (decimal j).
Proof.
  intros Hne Heq. apply Hne, decimal_injective.
  apply (suffix_after_dash a b); [apply decimal_no_dash | apply decimal_no_dash | exact Heq].
Qed.

(** X2.  Two entries of one listing that bring no id of their own are given
    different ids, in the [documents] form as in the legacy [pdfs] form. *)
Theorem made_up_ids_differ (result : json) (clock : nat -> string)
    (items : list json) (docs : list DocumentInfo)
    (i j : nat) (ri rj : json) (di dj : DocumentInfo) :
  get_prop "documents" result = Some (JArr items) \/
  ((forall l, get_prop "documents" result <> Some (JArr l)) /\
   get_prop "pdfs" result = Some (JArr items)) ->
  documents_of result clock = Ok docs ->
  i <> j ->
  nth_error items i = Some ri -> own_id ri = Ok "" ->
  nth_error items j = Some rj -> own_id rj = Ok "" ->
  nth_error docs i = Some di ->
  nth_error docs j = Some dj ->
  id di <> id dj.
Proof.
  intros Hshape Hdocs Hne Hri Hidi Hrj Hidj Hdi Hdj.
  destruct (documents_of_entries result clock docs Hdocs i di Hdi)
    as [owni [a [Hi Howni]]].
  destruct (documents_of_entries result clock docs Hdocs j dj Hdj)
    as [ownj [b [Hj Hownj]]].
  specialize (Howni items ri Hshape Hri).
  specialize (Hownj items rj Hshape Hrj).
  assert (owni = "") by congruence. assert (ownj = "") by congruence.
  subst owni ownj. rewrite Hi, Hj. cbn [or_text String.eqb].
  apply fallback_differs. exact Hne.
Qed.

End GatewayFacts.

Example listing_with_and_without_ids :
  Gateway.documents_of (RT := Samples.listing_runtime)
    (JS.JObj [("documents",
               JS.JArr [JS.JObj [("id", JS.JStr " q1 ");
                                 ("name", JS.JStr "Q1-Financials.pdf")];
                        JS.JObj [("name", JS.JStr "Market-Analysis.pdf")];
                        JS.JNull])])
    Samples.stamp
  = JS.Ok [ {| Gateway.id := "q1"; Gateway.name := "Q1-Financials.pdf";
               Gateway.uploadedAt := JS.JStr "2025-08-18T10:00:00.000Z" |};
            {| Gateway.id := "Market-Analysis-1";
               Gateway.name := "Market-Analysis.pdf";
               Gateway.uploadedAt := JS.JStr "2025-08-18T10:00:00.000Z" |};
            {| Gateway.id := "doc-2"; Gateway.name := "";
               Gateway.uploadedAt := JS.JStr "2025-08-18T10:00:00.000Z" |} ].
Proof. vm_compute. reflexivity. Qed.

(** The array under [documents] is the one listed, whatever is under
    [pdfs]; a body with neither lists nothing; an id that cannot be
    converted fails the whole listing. *)
Example listing_by_shape :
  Gateway.documents_of (RT := Samples.listing_runtime)
    (JS.JObj [("pdfs", JS.JArr [JS.JStr "a.pdf"]); ("documents", JS.JArr [])])
    Samples.stamp
  = JS.Ok [] /\
  Gateway.documents_of (RT := Samples.listing_runtime)
    (JS.JObj [("message", JS.JStr "nothing here")]) Samples.stamp
  = JS.Ok [] /\
  Gateway.documents_of (RT := Samples.listing_runtime)
    (JS.JObj [("documents", JS.JArr [JS.JObj [("id", Doubles.unprintable)]])])
    Samples.stamp
  = JS.Throw JS.TypeError.
Proof. vm_compute. repeat split. Qed.

Lemma getDocuments_ids_not_empty_witness :
  Forall (fun d => Gateway.id d <> "")
    [ {| Gateway.id := "q1"; Gateway.name := "Q1-Financials.pdf";
         Gateway.uploadedAt := JS.JStr "2025-08-18T10:00:00.000Z" |};
      {| Gateway.id := "Market-Analysis-1";
         Gateway.name := "Market-Analysis.pdf";
         Gateway.uploadedAt := JS.JStr "2025-08-18T10:00:00.000Z" |};
      {| Gateway.id := "doc-2"; Gateway.name := "";
         Gateway.uploadedAt := JS.JStr "2025-08-18T10:00:00.000Z" |} ].
Proof.
  apply (getDocuments_ids_not_empty (RT := Samples.listing_runtime)
           (ApiClient.Fulfilled
              {| ApiClient.ok := true; ApiClient.statusText := "OK";
                 ApiClient.body := "three-documents" |})
           Samples.stamp).
  vm_compute. reflexivity.
Defined.

Lemma made_up_ids_differ_witness :
  Gateway.id {| Gateway.id := "a-0"; Gateway.name := "a.pdf";
                Gateway.uploadedAt := JS.JStr "2025-08-18T10:00:00.000Z" |}
  <> Gateway.id {| Gateway.id := "a-1"; Gateway.name := "a.pdf";
                   Gateway.uploadedAt := JS.JStr "2025-08-18T10:00:00.000Z" |}.
Proof.
  apply (made_up_ids_differ (RT := Samples.listing_runtime)
           (JS.JObj [("pdfs", JS.JArr [JS.JStr "a.pdf"; JS.JStr "a.pdf"])])
           Samples.stamp [JS.JStr "a.pdf"; JS.JStr "a.pdf"]
           [ {| Gateway.id := "a-0"; Gateway.name := "a.pdf";
                Gateway.uploadedAt := JS.JStr "2025-08-18T10:00:00.000Z" |};
             {| Gateway.id := "a-1"; Gateway.name := "a.pdf";
                Gateway.uploadedAt := JS.JStr "2025-08-18T10:00:00.000Z" |} ]
           0 1 (JS.JStr "a.pdf") (JS.JStr "a.pdf")).
  - right. split; [intros l; discriminate | reflexivity].
  - vm_compute. reflexivity.
  - discriminate.
  - reflexivity.
  - reflexivity.
  - reflexivity.
  - reflexivity.
  - reflexivity.
  - reflexivity.
Defined.

(* ================================================================== *)
(** ** Searching the library *)
(* ================================================================== *)

Section LibraryFacts.
Import JS ApiClient Library Samples.

Lemma prefix_app (s t : string) : String.prefix s (s ++ t) = true.
Proof.
  induction s as [ | c s IH]; cbn; [destruct t; reflexivity | ].
  destruct (ascii_dec c c) as [_ | Hne]; [exact IH | contradiction].
Qed.

Lemma includes_inside (pre mid post : string) :
  includes mid (pre ++ mid ++ post) = true.
Proof.
  induction pre as [ | c pre IH]; cbn [append].
  - destruct (mid ++ post) eqn:Hrest; cbn [includes];
      rewrite <- Hrest, prefix_app; reflexivity.
  - cbn [includes]. rewrite IH. apply orb_true_r.
Qed.

Lemma includes_empty (hay : string) : includes "" hay = true.
Proof. destruct hay; reflexivity. Qed.

Lemma toLowerCase_app (a b : string) :
  toLowerCase (a ++ b) = toLowerCase a ++ toLowerCase b.
Proof.
  induction a as [ | c a IH]; cbn; [reflexivity | ].
  rewrite IH. reflexivity.
Qed.

Lemma filter_all {A : Type} (p : A -> bool) (xs : list A) :
  (forall x, p x = true) -> filter p xs = xs.
Proof.
  intros Hp. induction xs as [ | x xs IH]; cbn; [reflexivity | ].
  rewrite Hp, IH. reflexivity.
Qed.

(** X4.  With the search box empty the library shows every document, in
    the order of the listing. *)
Theorem empty_search_shows_all (docs : list Gateway.DocumentInfo) :
  filteredDocuments docs "" = docs.
Proof.
  unfold filteredDocuments. apply filter_all.
  intros doc. apply includes_empty.
Qed.

(** X5.  For names and search terms written in Latin-1, where
    [toLowerCase] acts letter by letter: a document of the listing is shown
    for a search term that is any part of its name, typed in any letter
    case. *)
Theorem found_by_part_of_name (docs : list Gateway.DocumentInfo)
    (doc : Gateway.DocumentInfo) (pre mid post term : string) :
  In doc docs ->
  Gateway.name doc = pre ++ mid ++ post ->
  toLowerCase term = toLowerCase mid ->
  In doc (filteredDocuments docs term).
Proof.
  intros Hin Hname Hterm. unfold filteredDocuments.
  apply filter_In. split; [exact Hin | ].
  rewrite Hname, Hterm, !toLowerCase_app.
  apply includes_inside.
Qed.

End LibraryFacts.

Example search_is_case_blind :
  map Gateway.name (Library.filteredDocuments Samples.library_shelf "FINANC")
  = ["Q1-Financials.pdf"] /\
  map Gateway.name (Library.filteredDocuments Samples.library_shelf "xyz") = [].
Proof. split; reflexivity. Qed.

Lemma found_by_part_of_name_witness :
  In {| Gateway.id := "m2"; Gateway.name := "Market-Analysis.pdf";
        Gateway.uploadedAt := JS.JStr "2025-08-18T10:00:00.000Z" |}
     (Library.filteredDocuments Samples.library_shelf "ANALYSIS").
Proof.
  apply (found_by_part_of_name Samples.library_shelf _ "Market-" "Analysis" ".pdf").
  - right. left. reflexivity.
  - reflexivity.
  - reflexivity.
Defined.

(* ================================================================== *)
(** ** What the side bar shows *)
(* ================================================================== *)

Section LayoutFacts.
Import JS ApiClient Page EventLoop Layout Samples Doubles.
Context `{RT : Runtime}.

Lemma relevancePercent_unit (q : Q) :
  (0 <= q)%Q -> (q <= 1)%Q ->
  (0 <= relevancePercent q <= 100)%Z.
Proof.
  intros Hlo Hhi. unfold relevancePercent, round.
  destruct (binary64_bounds (q * 100)%Q 100) as [Hlo' Hhi'];
    [lia | cbn; lia | lra | change (inject_Z 100) with 100%Q; lra | ].
  change (inject_Z 100) with 100%Q in Hhi'.
  set (x := binary64 (q * 100)%Q) in *.
  assert (Hlow : (1 # 2 <= x + (1 # 2))%Q) by lra.
  assert (Hhigh : (x + (1 # 2) <= 201 # 2)%Q) by lra.
  apply Qfloor_resp_le in Hlow. apply Qfloor_resp_le in Hhigh.
  change (Qfloor (1 # 2)) with 0%Z in Hlow.
  change (Qfloor (201 # 2)) with 100%Z in Hhigh.
  lia.
Qed.

(** X6.  For every recommendation that the normalizer builds from a search
    bundle, the percentage on its card, which is also the width of its
    relevance bar, lies between 0 and 100. *)
Theorem built_cards_show_a_percentage (raw : json) (items : list BackendRecommendation) :
  normalize raw = Ok (Normalized items) ->
  Forall (fun r => (0 <= relevancePercent (relevanceScore r) <= 100)%Z) items.
Proof.
  intros Hnorm.
  pose proof (normalize_as_bundle raw items Hnorm) as Hbundle.
  pose proof (normalize_bundle_bounds raw) as Hb. rewrite Hbundle in Hb.
  destruct Hb as [_ Hscores].
  eapply Forall_impl; [ | exact Hscores].
  intros r [Hlo Hhi]. apply relevancePercent_unit; assumption.
Qed.

(** X7.  An error is cleared when a run starts, not when one succeeds.
    With two invocations under way, when one of them fails (its screenshot
    is rejected or its search throws) and the search of the other then
    comes back fulfilled, the result is committed and the side bar goes on
    showing the error text instead of the new recommendations; the next
    run that starts takes the error away. *)
Theorem error_outlives_success (w : World) (failing id : nat) (r : Run)
    (screenshot : File) (failure : Event) (settled : FetchOutcome)
    (result : Recommendations) :
  failing <> id ->
  find_run id w = Some r ->
  stage r = AwaitingSearch screenshot ->
  extractAndSearch settled = Ok result ->
  (exists lost,
      find_run failing w = Some lost /\
      ((stage lost = AwaitingScreenshot /\ failure = ScreenshotSettled failing None) \/
       (exists shot answer e,
           stage lost = AwaitingSearch shot /\
           extractAndSearch answer = Throw e /\
           failure = SearchSettled failing answer))) ->
  let after := page (exec [failure; SearchSettled id settled] w) in
  recommendations after = result /\
  error after = Some failure_message /\
  renderContent (recommendations after) (isLoading after) (error after)
  = ErrorText failure_message /\
  (forall later apis selectedText,
      blank selectedText = false ->
      viewer_element later = true ->
      error (page (processSelectionWithScreenshot (Some apis) selectedText later))
      = None).
Proof.
  intros Hne Hfind Hstage Hok [lost [Hlost Hfailure]] after.
  assert (Hfailed : page (step w failure) = fail_run (page w) /\
                    runs (step w failure) = drop_run failing w).
  { destruct lost as [lid ltext lstage].
    destruct Hfailure as [[Hs ->] | [shot [answer [e [Hs [Hthrow ->]]]]]];
      cbn in Hs; subst lstage; cbn [step].
    - unfold screenshotSettled. rewrite Hlost. split; reflexivity.
    - unfold searchSettled. rewrite Hlost, Hthrow. split; reflexivity. }
  destruct Hfailed as [Hpage Hruns].
  assert (Hfind' : find_run id (step w failure) = Some r).
  { rewrite (find_run_after_drop failing id w (step w failure) Hne Hruns).
    exact Hfind. }
  assert (Hafter : after
                   = setIsLoading false (setRecommendations result (fail_run (page w)))).
  { subst after.
    change (exec [failure; SearchSettled id settled] w)
      with (searchSettled id settled (step w failure)).
    rewrite (searchSettled_commits _ id r screenshot settled result Hfind' Hstage Hok).
    cbn [page with_runs with_page]. rewrite Hpage. reflexivity. }
  clearbody after. subst after.
  split; [reflexivity | split; [reflexivity | split]].
  - reflexivity.
  - intros later apis selectedText Hblank Hel.
    unfold processSelectionWithScreenshot. rewrite Hblank, Hel. reflexivity.
Qed.

End LayoutFacts.

Lemma built_cards_show_a_percentage_witness :
  Forall (fun r => (0 <= Layout.relevancePercent (ApiClient.relevanceScore r) <= 100)%Z)
    [ {| ApiClient.id := JS.JStr "rec-0";
         ApiClient.sourceDocument := "Unknown Document";
         ApiClient.snippet := "a";
         ApiClient.pageNumber := JS.Fin 1%Q;
         ApiClient.boundingBox := ApiClient.zero_bbox;
         ApiClient.relevanceScore := (3 # 4)%Q;
         ApiClient.connectionType := ApiClient.correlation |} ].
Proof.
  apply (built_cards_show_a_percentage (RT := Doubles.table_runtime [])
           (JS.JObj [("documents", JS.JArr [JS.JArr [JS.JStr "a"]]);
                     ("distances", JS.JArr [JS.JArr [JS.JNum 0.25%Q]])])).
  vm_compute. reflexivity.
Defined.

Lemma error_outlives_success_witness :
  Page.recommendations
    (EventLoop.page
       (EventLoop.exec (RT := Doubles.search_runtime)
          [EventLoop.SearchSettled 0 ApiClient.Rejected;
           EventLoop.SearchSettled 1 (Doubles.answer "results-for-beta")]
          Samples.both_searching))
  = ApiClient.PassedThrough [Doubles.ready_made "beta-1" 0.8%Q] /\
  Page.error
    (EventLoop.page
       (EventLoop.exec (RT := Doubles.search_runtime)
          [EventLoop.SearchSettled 0 ApiClient.Rejected;
           EventLoop.SearchSettled 1 (Doubles.answer "results-for-beta")]
          Samples.both_searching))
  = Some "Failed to process selection. Try again.".
Proof.
  destruct (error_outlives_success (RT := Doubles.search_runtime)
              Samples.both_searching 0 1
              {| EventLoop.run_id := 1; EventLoop.run_text := "beta";
                 EventLoop.stage := EventLoop.AwaitingSearch (Doubles.shot "beta.jpg") |}
              (Doubles.shot "beta.jpg")
              (EventLoop.SearchSettled 0 ApiClient.Rejected)
              (Doubles.answer "results-for-beta")
              (ApiClient.PassedThrough [Doubles.ready_made "beta-1" 0.8%Q]))
    as [Hcommitted [Herror _]].
  - discriminate.
  - vm_compute. reflexivity.
  - reflexivity.
  - vm_compute. reflexivity.
  - exists {| EventLoop.run_id := 0; EventLoop.run_text := "alpha";
              EventLoop.stage := EventLoop.AwaitingSearch (Doubles.shot "alpha.jpg") |}.
    split; [vm_compute; reflexivity | ].
    right. exists (Doubles.shot "alpha.jpg"), ApiClient.Rejected, JS.NetworkError.
    repeat split.
  - split; [exact Hcommitted | exact Herror].
Defined.

(** A run started after the failure clears the error when it starts, and
    its recommendations are shown. *)
Example later_run_clears_the_error :
  Layout.renderContent
    (Page.recommendations
       (EventLoop.page
          (EventLoop.exec (RT := Doubles.search_runtime)
             [EventLoop.TextSelect "beta"; EventLoop.Elapse 600;
              EventLoop.ScreenshotSettled 3 (Some (Doubles.shot "beta.jpg"));
              EventLoop.SearchSettled 3 (Doubles.answer "results-for-beta")]
             (EventLoop.exec (RT := Doubles.search_runtime)
                [EventLoop.TextSelect "alpha"; EventLoop.Elapse 600;
                 EventLoop.ScreenshotSettled 2 None]
                Doubles.overtaken))))
    false None
  = Layout.Cards (ApiClient.PassedThrough [Doubles.ready_made "beta-1" 0.8%Q]) /\
  Page.error
    (EventLoop.page
       (EventLoop.exec (RT := Doubles.search_runtime)
          [EventLoop.TextSelect "beta"; EventLoop.Elapse 600;
           EventLoop.ScreenshotSettled 3 (Some (Doubles.shot "beta.jpg"));
           EventLoop.SearchSettled 3 (Doubles.answer "results-for-beta")]
          (EventLoop.exec (RT := Doubles.search_runtime)
             [EventLoop.TextSelect "alpha"; EventLoop.Elapse 600;
              EventLoop.ScreenshotSettled 2 None]
             Doubles.overtaken)))
  = None.
Proof. vm_compute. split; reflexivity. Qed.

(* ================================================================== *)
(** ** The buttons of the header *)
(* ================================================================== *)

Section ToolbarFacts.
Import JS ApiClient Page EventLoop Toolbar Layout Samples Doubles.
Context `{RT : Runtime}.

(** *** Suspended invocations *)

Lemma stage_of_In (id : nat) (d : Desk) (st : Stage) :
  stage_of id d = Some st -> In (id, st) (pending d).
Proof.
  unfold stage_of. destruct (find _ (pending d)) as [[i s] | ] eqn:Hfind;
    cbn; [ | discriminate].
  intros [= <-]. apply find_some in Hfind. destruct Hfind as [Hin Heq].
  cbn in Heq. apply Nat.eqb_eq in Heq. subst i. exact Hin.
Qed.

Lemma stage_of_fresh (d : Desk) (st : Stage) :
  tidy d ->
  stage_of (next_pending d)
    {| world := world d; pending := pending d ++ [(next_pending d, st)];
       next_pending := S (next_pending d); outbox := outbox d |}
  = Some st.
Proof.
  intros [_ Hlt]. unfold stage_of. cbn [pending].
  assert (Hfind : forall l,
             (forall entry, In entry l -> fst entry < next_pending d) ->
             find (fun entry : nat * Stage => Nat.eqb (fst entry) (next_pending d))
                  (l ++ [(next_pending d, st)])
             = Some (next_pending d, st)).
  { induction l as [ | x l IH]; intros Hl; cbn.
    - rewrite Nat.eqb_refl. reflexivity.
    - assert (Hx : Nat.eqb (fst x) (next_pending d) = false).
      { apply Nat.eqb_neq. specialize (Hl x (or_introl eq_refl)). lia. }
      rewrite Hx. apply IH. intros e He. apply Hl. right. exact He. }
  rewrite (Hfind (pending d) Hlt). reflexivity.
Qed.

Lemma resume_fresh (l : list (nat * Stage)) (n : nat) (st : Stage) :
  (forall entry, In entry l -> fst entry < n) ->
  filter (fun entry : nat * Stage => negb (Nat.eqb (fst entry) n)) (l ++ [(n, st)]) = l.
Proof.
  induction l as [ | x l IH]; intros Hl; cbn.
  - rewrite Nat.eqb_refl. reflexivity.
  - assert (Hx : Nat.eqb (fst x) n = false).
    { apply Nat.eqb_neq. specialize (Hl x (or_introl eq_refl)). lia. }
    rewrite Hx. cbn. f_equal. apply IH. intros e He. apply Hl. right. exact He.
Qed.

(** X8.  Analyze Page never reaches the gateway.  Whatever the state and
    whatever [getSelectedContent] answers, the invocation ends at the first
    statement after the selection, [document.createElement], with nothing
    sent: the error text of the handler is set, the loading flag is down,
    the recommendations are as before and nothing is left suspended. *)
Theorem analyze_page_never_searches (d : Desk) (outcome : option (option string)) :
  tidy d ->
  let clicked := handleUseSelection d in
  let ended :=
    match viewerApis (page (world d)) with
    | Some _ => selectedContentSettled (next_pending d) outcome clicked
    | None => clicked
    end in
  outbox ended = outbox d /\
  pending ended = pending d /\
  requests (world ended) = requests (world d) /\
  error (page (world ended)) = Some analysis_failure /\
  isLoading (page (world ended)) = false /\
  recommendations (page (world ended)) = recommendations (page (world d)).
Proof.
  intros Htidy clicked ended. subst ended clicked.
  unfold handleUseSelection.
  destruct (viewerApis (page (world d))) as [apis | ] eqn:Hready.
  - unfold selectedContentSettled, suspend, fresh, on_page. cbn [world pending next_pending outbox].
    match goal with
    | |- context [stage_of (next_pending d) ?d'] =>
        assert (Hstage : stage_of (next_pending d) d' = Some AnalysisSelection)
    end.
    { apply (stage_of_fresh
               {| world := with_page
                             (setInsights None
                                (setError None (setIsLoading true (page (world d)))))
                             (world d);
                  pending := pending d; next_pending := next_pending d;
                  outbox := outbox d |} AnalysisSelection).
      exact Htidy. }
    rewrite Hstage. unfold analysis_from_text, resume. cbn.
    destruct (document (page (world d))); cbn;
      (rewrite (resume_fresh (pending d) (next_pending d) AnalysisSelection);
       [repeat split | apply Htidy]).
  - unfold analysis_from_text, fresh, on_page. cbn.
    destruct (document (page (world d))); cbn; repeat split.
Qed.

(** X9.  An invocation of the Insights handler that finds no insights on
    show empties the recommendations and ends at [document.createElement]
    as well: neither the search nor the insights request is sent, no
    insights are stored, and the error state holds the message of the
    exception of the platform. *)
Theorem insights_click_only_clears (d : Desk) (outcome : option (option string)) :
  tidy d ->
  insights (page (world d)) = None ->
  let clicked := handleFetchInsights d in
  let ended :=
    match viewerApis (page (world d)) with
    | Some _ => selectedContentSettled (next_pending d) outcome clicked
    | None => clicked
    end in
  outbox ended = outbox d /\
  pending ended = pending d /\
  recommendations (page (world ended)) = Normalized [] /\
  insights (page (world ended)) = None /\
  isInsightsLoading (page (world ended)) = false /\
  error (page (world ended)) = Some (native_message TypeError).
Proof.
  intros Htidy Hnone clicked ended. subst ended clicked.
  unfold handleFetchInsights. rewrite Hnone.
  destruct (viewerApis (page (world d))) as [apis | ] eqn:Hready.
  - unfold selectedContentSettled, suspend, fresh, on_page. cbn [world pending next_pending outbox].
    match goal with
    | |- context [stage_of (next_pending d) ?d'] =>
        assert (Hstage : stage_of (next_pending d) d' = Some InsightsSelection)
    end.
    { apply (stage_of_fresh
               {| world := with_page
                             (setError None
                                (setRecommendations (Normalized [])
                                   (setIsInsightsLoading true (page (world d)))))
                             (world d);
                  pending := pending d; next_pending := next_pending d;
                  outbox := outbox d |} InsightsSelection).
      exact Htidy. }
    rewrite Hstage. unfold insights_from_text, resume. cbn.
    destruct (document (page (world d))); cbn; rewrite ?Hnone;
      (rewrite (resume_fresh (pending d) (next_pending d) InsightsSelection);
       [repeat split | apply Htidy]).
  - unfold insights_from_text, fresh, on_page. cbn.
    destruct (document (page (world d))); cbn; rewrite ?Hnone; repeat split.
Qed.

(** *** The selection pipeline, seen from the header *)

Lemma frame_refl (w : World) : pipeline_frame w w.
Proof. unfold pipeline_frame. repeat split; auto. Qed.

Lemma frame_trans (w1 w2 w3 : World) :
  pipeline_frame w1 w2 -> pipeline_frame w2 w3 -> pipeline_frame w1 w3.
Proof.
  intros [Hv1 [Hd1 [Hi1 Hl1]]] [Hv2 [Hd2 [Hi2 Hl2]]].
  unfold pipeline_frame. split; [congruence | split; [congruence | split]].
  - destruct Hi2 as [Hi2 | Hi2]; [left; exact Hi2 | ].
    destruct Hi1 as [Hi1 | Hi1]; [left | right]; congruence.
  - intros Hl3. destruct (Hl2 Hl3) as [Hr | [Hl Hr]]; [left; exact Hr | ].
    destruct (Hl1 Hl) as [Hr1 | [Hl0 Hr1]].
    + left. rewrite Hr. exact Hr1.
    + right. split; [exact Hl0 | congruence].
Qed.

Lemma frame_same_page (w w' : World) :
  page w' = page w -> runs w' = runs w -> pipeline_frame w w'.
Proof.
  intros Hp Hr. unfold pipeline_frame. rewrite Hp.
  repeat split; auto.
Qed.

Lemma processSelection_framed apis text (w : World) :
  pipeline_frame w (processSelectionWithScreenshot apis text w).
Proof.
  unfold processSelectionWithScreenshot.
  destruct apis; [ | apply frame_refl].
  destruct (blank text); [apply frame_refl | ].
  destruct (viewer_element w); unfold pipeline_frame; cbn.
  - repeat split; auto. intros _. left. destruct (runs w); discriminate.
  - repeat split; auto. discriminate.
Qed.

Lemma fired_framed (ts : list Timer) :
  forall w, pipeline_frame w (fold_left fire ts w).
Proof.
  induction ts as [ | t ts IH]; intros w; cbn; [apply frame_refl | ].
  eapply frame_trans; [ | apply IH]. apply processSelection_framed.
Qed.

Lemma elapse_framed (ms : N) (w : World) : pipeline_frame w (elapse ms w).
Proof.
  unfold elapse.
  eapply frame_trans; [ | apply fired_framed].
  apply frame_same_page; reflexivity.
Qed.

Lemma handleTextSelect_framed text (w : World) :
  pipeline_frame w (handleTextSelect text w).
Proof. unfold pipeline_frame, handleTextSelect. cbn. repeat split; auto. Qed.

Lemma screenshotSettled_framed id outcome (w : World) :
  pipeline_frame w (screenshotSettled id outcome w).
Proof.
  unfold screenshotSettled.
  destruct (find_run id w) as [[rid rtext [ | s]] | ]; try apply frame_refl.
  destruct outcome as [screenshot | ]; unfold pipeline_frame; cbn.
  - repeat split; auto. intros _. left. destruct (drop_run id w); discriminate.
  - repeat split; auto. discriminate.
Qed.

Lemma searchSettled_framed id settled (w : World) :
  pipeline_frame w (searchSettled id settled w).
Proof.
  unfold searchSettled.
  destruct (find_run id w) as [[rid rtext [ | s]] | ]; try apply frame_refl.
  destruct (extractAndSearch settled); unfold pipeline_frame; cbn;
    repeat split; auto; discriminate.
Qed.

Lemma handleJumpToPage_framed r (w : World) :
  pipeline_frame w (handleJumpToPage r w).
Proof.
  unfold handleJumpToPage. destruct (viewerApis (page w)); [ | apply frame_refl].
  unfold pipeline_frame. cbn. repeat split; auto.
Qed.

(** A step of the page keeps the three facts the header relies on. *)
Lemma step_keeps (w : World) (e : Event) :
  (insights (page w) = None -> insights (page (step w e)) = None) /\
  (document_on_show (page w) -> document_on_show (page (step w e))) /\
  (isLoading (page (step w e)) = true ->
   runs (step w e) <> [] \/ (isLoading (page w) = true /\ runs (step w e) = runs w)).
Proof.
  assert (Hframed : forall w', pipeline_frame w w' ->
            (insights (page w) = None -> insights (page w') = None) /\
            (document_on_show (page w) -> document_on_show (page w')) /\
            (isLoading (page w') = true ->
             runs w' <> [] \/ (isLoading (page w) = true /\ runs w' = runs w))).
  { intros w' [Hv [Hd [Hi Hl]]]. split; [ | split; [ | exact Hl]].
    - intros Hnone. destruct Hi as [Hi | Hi]; congruence.
    - unfold document_on_show. rewrite Hv, Hd. auto. }
  destruct e; cbn [step].
  - apply Hframed. unfold selectionEnded.
    destruct (Nat.ltb 0 (String.length (trim rawText)));
      [apply handleTextSelect_framed | apply frame_refl].
  - apply Hframed, handleTextSelect_framed.
  - apply Hframed, elapse_framed.
  - apply Hframed, screenshotSettled_framed.
  - apply Hframed, searchSettled_framed.
  - apply Hframed, handleJumpToPage_framed.
  - apply Hframed. unfold pipeline_frame. cbn. repeat split; auto.
  - unfold document_on_show. cbn. repeat split; auto; discriminate.
  - unfold document_on_show. cbn. repeat split; auto; discriminate.
  - unfold document_on_show. cbn. repeat split; auto; discriminate.
  - unfold document_on_show. cbn. repeat split; auto; discriminate.
  - unfold document_on_show. cbn. repeat split; auto; discriminate.
  - unfold document_on_show. cbn. repeat split; auto; discriminate.
  - apply Hframed. apply frame_same_page; reflexivity.
Qed.

(** *** What every reachable state of the page and its header satisfies *)

Lemma ids_filter (l : list (nat * Stage)) (id : nat) :
  NoDup (map fst l) ->
  NoDup (map fst (filter (fun entry : nat * Stage => negb (Nat.eqb (fst entry) id)) l)).
Proof.
  induction l as [ | x l IH]; cbn; intros Hnd; [constructor | ].
  inversion Hnd as [ | a l' Hnotin Hrest]; subst.
  destruct (negb (Nat.eqb (fst x) id)); cbn; [ | apply IH; exact Hrest].
  constructor; [ | apply IH; exact Hrest].
  intros Hin. apply Hnotin.
  apply in_map_iff in Hin. destruct Hin as [y [Hy Hin]].
  apply filter_In in Hin. apply in_map_iff. exists y. tauto.
Qed.

Lemma ids_snoc (l : list (nat * Stage)) (n : nat) (st : Stage) :
  NoDup (map fst l) ->
  (forall entry, In entry l -> fst entry < n) ->
  NoDup (map fst (l ++ [(n, st)])).
Proof.
  intros Hnd Hlt. rewrite map_app. apply NoDup_app.
  - exact Hnd.
  - cbn. constructor; [intros [] | constructor].
  - intros a Ha Hlast. cbn in Hlast. destruct Hlast as [<- | []].
    apply in_map_iff in Ha. destruct Ha as [y [Hy Hin]].
    specialize (Hlt y Hin). lia.
Qed.

Lemma one_stage_per_id (l : list (nat * Stage)) (id : nat) (x y : Stage) :
  NoDup (map fst l) -> In (id, x) l -> In (id, y) l -> x = y.
Proof.
  induction l as [ | [i s] l IH]; cbn; intros Hnd Hx Hy; [contradiction | ].
  inversion Hnd as [ | a l' Hnotin Hrest]; subst.
  destruct Hx as [Hx | Hx]; destruct Hy as [Hy | Hy].
  - congruence.
  - exfalso. apply Hnotin. apply in_map_iff. exists (id, y).
    split; [cbn; congruence | exact Hy].
  - exfalso. apply Hnotin. apply in_map_iff. exists (id, x).
    split; [cbn; congruence | exact Hx].
  - apply IH; assumption.
Qed.

Lemma tidy_resume (id : nat) (d : Desk) : tidy d -> tidy (resume id d).
Proof.
  intros [Hnd Hlt]. split; cbn.
  - apply ids_filter. exact Hnd.
  - intros entry Hin. apply filter_In in Hin. apply Hlt. tauto.
Qed.

Lemma selection_only_resume (id : nat) (d : Desk) :
  at_selection_only d -> at_selection_only (resume id d).
Proof.
  intros Hsel entry Hin. cbn in Hin. apply filter_In in Hin.
  apply Hsel. tauto.
Qed.

(** A handler of the header starts and suspends at its first [await]. *)
Lemma suspended_start (f : State -> State) (st : Stage) (d : Desk) :
  settled_desk d ->
  st = AnalysisSelection \/ st = InsightsSelection ->
  (forall s, insights s = None -> insights (f s) = None) ->
  (forall s, currentView (f s) = currentView s /\ document (f s) = document s) ->
  (st = InsightsSelection -> forall s, isLoading (f s) = isLoading s) ->
  settled_desk (suspend (next_pending d) st (fresh (on_page f d))).
Proof.
  intros [[Hnd Hlt] [Hsel [Hout [Hins [Hdoc Hload]]]]] Hst Hf_ins Hf_nav Hf_load.
  unfold settled_desk. cbn.
  split; [split | split; [ | split; [ | split; [ | split]]]].
  - apply ids_snoc; assumption.
  - intros entry Hin. apply in_app_or in Hin.
    destruct Hin as [Hin | [<- | []]]; [specialize (Hlt entry Hin) | ]; cbn; lia.
  - intros entry Hin. apply in_app_or in Hin.
    destruct Hin as [Hin | [<- | []]]; [apply Hsel; exact Hin | exact Hst].
  - exact Hout.
  - apply Hf_ins. exact Hins.
  - unfold document_on_show.
    destruct (Hf_nav (page (world d))) as [-> ->]. exact Hdoc.
  - unfold loading_accounted. cbn. intros Hup.
    destruct Hst as [-> | ->].
    + right. exists (next_pending d). apply in_or_app. right. left. reflexivity.
    + rewrite (Hf_load eq_refl) in Hup.
      destruct (Hload Hup) as [Hruns | [id Hin]]; [left; exact Hruns | ].
      right. exists id. apply in_or_app. left. exact Hin.
Qed.

(** A handler of the header, resumed after the selection, ends in its
    [catch]. *)
Lemma ended_in_catch (f : State -> State) (id : nat) (st : Stage) (d : Desk) :
  settled_desk d ->
  stage_of id d = Some st ->
  (forall s, insights s = None -> insights (f s) = None) ->
  (forall s, currentView (f s) = currentView s /\ document (f s) = document s) ->
  (st = AnalysisSelection -> forall s, isLoading (f s) = false) ->
  (st <> AnalysisSelection -> forall s, isLoading (f s) = isLoading s) ->
  settled_desk (on_page f (resume id d)).
Proof.
  intros [Htidy [Hsel [Hout [Hins [Hdoc Hload]]]]] Hstage Hf_ins Hf_nav Hdown Hsame.
  unfold settled_desk.
  split; [apply (tidy_resume id d Htidy) | ].
  split; [apply (selection_only_resume id d Hsel) | ].
  cbn. split; [exact Hout | ].
  split; [apply Hf_ins; exact Hins | ].
  split.
  - unfold document_on_show.
    destruct (Hf_nav (page (world d))) as [-> ->]. exact Hdoc.
  - unfold loading_accounted. cbn. intros Hup.
    assert (Hcase : {st = AnalysisSelection} + {st <> AnalysisSelection}).
    { destruct st; (left; reflexivity) || (right; discriminate). }
    destruct Hcase as [Hst | Hst].
    + rewrite (Hdown Hst) in Hup. discriminate.
    + rewrite (Hsame Hst) in Hup.
      destruct (Hload Hup) as [Hruns | [id' Hin]]; [left; exact Hruns | ].
      right. exists id'. apply filter_In. split; [exact Hin | ].
      cbn. apply negb_true_iff, Nat.eqb_neq. intros ->.
      apply Hst. symmetry.
      apply (one_stage_per_id (pending d) id AnalysisSelection st (proj1 Htidy) Hin).
      apply stage_of_In. exact Hstage.
Qed.

Lemma stage_is_selection (id : nat) (d : Desk) (st : Stage) :
  at_selection_only d -> stage_of id d = Some st ->
  st = AnalysisSelection \/ st = InsightsSelection.
Proof.
  intros Hsel Hstage. apply stage_of_In in Hstage.
  apply (Hsel (id, st) Hstage).
Qed.

Lemma act_keeps (d : Desk) (a : Action) : settled_desk d -> settled_desk (act d a).
Proof.
  intros Hd.
  pose proof Hd as [Htidy [Hsel [Hout [Hins [Hdoc Hload]]]]].
  destruct a as [e | | | id outcome | id blob | id settled | id settled]; cbn [act].
  - destruct (step_keeps (world d) e) as [Hi [Hn Hl]].
    unfold settled_desk. cbn.
    split; [exact Htidy | split; [exact Hsel | split; [exact Hout | ]]].
    split; [apply Hi; exact Hins | split; [apply Hn; exact Hdoc | ]].
    unfold loading_accounted. cbn. intros Hup.
    destruct (Hl Hup) as [Hruns | [Hbefore Hsame]]; [left; exact Hruns | ].
    rewrite Hsame. apply Hload. exact Hbefore.
  - destruct (analyze_enabled (page (world d))) eqn:Hen; [ | exact Hd].
    unfold handleUseSelection.
    assert (Hready : exists apis, viewerApis (page (world d)) = Some apis).
    { unfold analyze_enabled in Hen.
      destruct (currentView (page (world d))); try discriminate.
      destruct (document (page (world d))); try discriminate.
      destruct (viewerApis (page (world d))) as [apis | ]; [ | discriminate].
      exists apis. reflexivity. }
    destruct Hready as [apis ->].
    apply suspended_start; auto; try discriminate; intros s; split; reflexivity.
  - destruct (insights_enabled (page (world d))); [ | exact Hd].
    unfold handleFetchInsights. rewrite Hins.
    destruct (viewerApis (page (world d))).
    + apply suspended_start; auto; intros s; split; reflexivity.
    + unfold insights_from_text.
      assert (Hthrows : forall doc, createElement doc "canvas" = Throw TypeError)
        by (intros [doc | ]; reflexivity).
      rewrite Hthrows.
      unfold settled_desk. cbn.
      split; [split | split; [ | split; [ | split; [ | split]]]].
      * exact (proj1 Htidy).
      * intros entry Hin. pose proof (proj2 Htidy entry Hin) as Hlt. cbn. lia.
      * exact Hsel.
      * exact Hout.
      * exact Hins.
      * exact Hdoc.
      * exact Hload.
  - unfold selectedContentSettled.
    destruct (stage_of id d) as [st | ] eqn:Hstage; [ | exact Hd].
    assert (Hthrows : forall doc, createElement doc "canvas" = Throw TypeError)
      by (intros [doc | ]; reflexivity).
    destruct st; try exact Hd.
    + unfold analysis_from_text. cbn [resume world page]. rewrite Hthrows.
      apply (ended_in_catch analysis_failed id AnalysisSelection d Hd Hstage); auto;
        try (intros s; split; reflexivity); intros Hne; contradiction.
    + unfold insights_from_text. cbn [resume world page]. rewrite Hthrows.
      apply (ended_in_catch (handleFetchInsights_failed TypeError) id
               InsightsSelection d Hd Hstage); auto;
        try (intros s; split; reflexivity); discriminate.
  - unfold blobSettled.
    destruct (stage_of id d) as [st | ] eqn:Hstage; [ | exact Hd].
    destruct (stage_is_selection id d st Hsel Hstage) as [-> | ->]; exact Hd.
  - unfold searchReturned.
    destruct (stage_of id d) as [st | ] eqn:Hstage; [ | exact Hd].
    destruct (stage_is_selection id d st Hsel Hstage) as [-> | ->]; exact Hd.
  - unfold insightsReturned.
    destruct (stage_of id d) as [st | ] eqn:Hstage; [ | exact Hd].
    destruct (stage_is_selection id d st Hsel Hstage) as [-> | ->]; exact Hd.
Qed.

Lemma seated_settled : settled_desk seated.
Proof.
  unfold settled_desk, tidy, at_selection_only, document_on_show, loading_accounted.
  cbn. repeat split; try (intros x []); try discriminate. constructor.
Qed.

Lemma perform_keeps (actions : list Action) :
  forall d, settled_desk d -> settled_desk (perform actions d).
Proof.
  induction actions as [ | a actions IH]; intros d Hd; cbn; [exact Hd | ].
  apply IH, act_keeps, Hd.
Qed.

(** X10.  However the page is used, the two buttons of the header never
    get a request out and no insights are ever stored, so the insights
    panel is never shown. *)
Theorem header_never_delivers (actions : list Action) :
  let d := perform actions seated in
  outbox d = [] /\
  insights (page (world d)) = None /\
  forall text, aside (page (world d)) <> Some (InsightsPanel text).
Proof.
  cbv zeta.
  destruct (perform_keeps actions seated seated_settled)
    as [_ [_ [Hout [Hins _]]]].
  split; [exact Hout | split; [exact Hins | ]].
  intros text. unfold aside. rewrite Hins.
  destruct (currentView (page (world (perform actions seated)))); try discriminate.
  destruct (isInsightsLoading (page (world (perform actions seated)))); discriminate.
Qed.

(** X11.  However the page is used, when it is in the viewer there is a
    document to show. *)
Theorem viewer_has_a_document (actions : list Action) :
  document_on_show (page (world (perform actions seated))).
Proof.
  destruct (perform_keeps actions seated seated_settled)
    as [_ [_ [_ [_ [Hdoc _]]]]].
  exact Hdoc.
Qed.

(** X12.  However the page is used, the loading flag is only up while
    something is under way that will take it down: an invocation of the
    selection pipeline, or one of Analyze Page waiting for the selected
    content. *)
Theorem loading_flag_is_accounted_for (actions : list Action) :
  loading_accounted (perform actions seated).
Proof.
  destruct (perform_keeps actions seated seated_settled)
    as [_ [_ [_ [_ [_ Hload]]]]].
  exact Hload.
Qed.

End ToolbarFacts.

Lemma analyze_page_never_searches_witness :
  Toolbar.outbox
    (Toolbar.perform (RT := Doubles.search_runtime)
       [Toolbar.AnalyzePage;
        Toolbar.SelectedContentSettled 0 (Some (Some "chosen words"))]
       Samples.at_desk)
  = [] /\
  Page.error
    (EventLoop.page
       (Toolbar.world
          (Toolbar.perform (RT := Doubles.search_runtime)
             [Toolbar.AnalyzePage;
              Toolbar.SelectedContentSettled 0 (Some (Some "chosen words"))]
             Samples.at_desk)))
  = Some "Failed to analyze page. Please try again.".
Proof.
  assert (Htidy : Toolbar.tidy Samples.at_desk).
  { split; [apply NoDup_nil | intros entry Hin; vm_compute in Hin; contradiction]. }
  destruct (analyze_page_never_searches (RT := Doubles.search_runtime)
              Samples.at_desk (Some (Some "chosen words")) Htidy)
    as [Hout [_ [_ [Herr _]]]].
  vm_compute in Hout, Herr. vm_compute.
  split; [exact Hout | exact Herr].
Defined.

Lemma insights_click_only_clears_witness :
  Page.recommendations
    (EventLoop.page
       (Toolbar.world
          (Toolbar.perform (RT := Doubles.search_runtime)
             [Toolbar.FetchInsights; Toolbar.SelectedContentSettled 0 None]
             Samples.at_desk)))
  = ApiClient.Normalized [] /\
  Page.insights
    (EventLoop.page
       (Toolbar.world
          (Toolbar.perform (RT := Doubles.search_runtime)
             [Toolbar.FetchInsights; Toolbar.SelectedContentSettled 0 None]
             Samples.at_desk)))
  = None /\
  Toolbar.outbox
    (Toolbar.perform (RT := Doubles.search_runtime)
       [Toolbar.FetchInsights; Toolbar.SelectedContentSettled 0 None]
       Samples.at_desk)
  = [].
Proof.
  assert (Htidy : Toolbar.tidy Samples.at_desk).
  { split; [apply NoDup_nil | intros entry Hin; vm_compute in Hin; contradiction]. }
  destruct (insights_click_only_clears (RT := Doubles.search_runtime)
              Samples.at_desk None Htidy eq_refl)
    as [Hout [_ [Hrecs [Hins _]]]].
  vm_compute in Hout, Hrecs, Hins. vm_compute.
  split; [exact Hrecs | split; [exact Hins | exact Hout]].
Defined.

(* ================================================================== *)
(** ** More on the selection pipeline *)
(* ================================================================== *)

Section PipelineMore.
Import JS ApiClient Page EventLoop Samples Doubles.
Context `{RT : Runtime}.

(** X13.  Choosing another document cancels nothing: an invocation whose
    search is under way when the document changes still commits its result,
    which then stands as the recommendations of the new document. *)
Theorem run_outlives_document_change (w : World) (id : nat) (r : Run)
    (screenshot : File) (settled : FetchOutcome) (result : Recommendations)
    (doc : Document) :
  find_run id w = Some r ->
  stage r = AwaitingSearch screenshot ->
  extractAndSearch settled = Ok result ->
  let w' := exec [DocumentSelect doc; SearchSettled id settled] w in
  recommendations (page (step w (DocumentSelect doc))) = Normalized [] /\
  selectedDocument (page w') = Some doc /\
  currentView (page w') = viewer /\
  recommendations (page w') = result.
Proof.
  intros Hfind Hstage Hok w'. subst w'.
  change (exec [DocumentSelect doc; SearchSettled id settled] w)
    with (searchSettled id settled (step w (DocumentSelect doc))).
  assert (Hfind' : find_run id (step w (DocumentSelect doc)) = Some r) by exact Hfind.
  rewrite (searchSettled_commits _ id r screenshot settled result Hfind' Hstage Hok).
  cbn. repeat split.
Qed.

(** *** [trim] *)

Lemma append_empty_r (s : string) : s ++ "" = s.
Proof. induction s as [ | c s IH]; cbn; [reflexivity | rewrite IH; reflexivity]. Qed.

Lemma append_assoc (a b c : string) : (a ++ b) ++ c = a ++ (b ++ c).
Proof. induction a as [ | x a IH]; cbn; [reflexivity | rewrite IH; reflexivity]. Qed.

Lemma reverse_app (a b : string) : reverse (a ++ b) = reverse b ++ reverse a.
Proof.
  induction a as [ | x a IH]; cbn.
  - rewrite append_empty_r. reflexivity.
  - rewrite IH, append_assoc. reflexivity.
Qed.

Lemma reverse_involutive (s : string) : reverse (reverse s) = s.
Proof.
  induction s as [ | c s IH]; cbn; [reflexivity | ].
  rewrite reverse_app, IH. reflexivity.
Qed.

Lemma trim_start_shorter (s : string) :
  String.length (trim_start s) <= String.length s.
Proof.
  induction s as [ | c s IH]; cbn; [lia | ].
  destruct (is_space c); cbn; lia.
Qed.

Lemma trim_start_leading (s : string) :
  exists spaces, s = spaces ++ trim_start s.
Proof.
  induction s as [ | c s [spaces IH]]; cbn.
  - exists "". reflexivity.
  - destruct (is_space c).
    + exists (String c spaces). cbn. rewrite <- IH. reflexivity.
    + exists "". reflexivity.
Qed.

Lemma trim_start_head (c : ascii) (s : string) :
  trim_start (String c s) = String c s -> is_space c = false.
Proof.
  cbn. destruct (is_space c); [ | reflexivity].
  intros Heq. pose proof (trim_start_shorter s) as Hlen.
  rewrite Heq in Hlen. cbn in Hlen. lia.
Qed.

Lemma trim_start_idempotent (s : string) : trim_start (trim_start s) = trim_start s.
Proof.
  induction s as [ | c s IH]; cbn; [reflexivity | ].
  destruct (is_space c) eqn:Hc; [exact IH | ].
  cbn. rewrite Hc. reflexivity.
Qed.

Lemma trim_start_of_end (a : string) :
  trim_start a = a ->
  trim_start (reverse (trim_start (reverse a))) = reverse (trim_start (reverse a)).
Proof.
  intros Hclean.
  destruct (trim_start_leading (reverse a)) as [spaces Hsplit].
  set (b := trim_start (reverse a)) in *.
  assert (Ha : a = reverse b ++ reverse spaces).
  { rewrite <- reverse_app, <- Hsplit, reverse_involutive. reflexivity. }
  destruct (reverse b) as [ | c rest] eqn:Hrb; [reflexivity | ].
  cbn in Ha. rewrite Ha in Hclean.
  apply trim_start_head in Hclean.
  cbn. rewrite Hclean. reflexivity.
Qed.

(** [trim] leaves a trimmed text as it is. *)
Lemma trim_idempotent (s : string) : trim (trim s) = trim s.
Proof.
  unfold trim.
  rewrite (trim_start_of_end (trim_start s) (trim_start_idempotent s)).
  rewrite reverse_involutive, trim_start_idempotent. reflexivity.
Qed.

(** X14.  A selection that the listener of the viewer forwards is sent as
    it was forwarded: with no timer pending, the viewer ready and its
    element mounted, a selection with something in it leads, once the quiet
    period has passed and the screenshot is there, to exactly one request,
    whose text is the selection trimmed once. *)
Theorem forwarded_selection_is_sent (w : World) (apis : ViewerAPIs)
    (rawText : string) (quiet : N) (screenshot : File) :
  wellformed w ->
  timers w = [] ->
  viewerApis (page w) = Some apis ->
  viewer_element w = true ->
  trim rawText <> "" ->
  (debounce_ms <= quiet)%N ->
  requests
    (exec [SelectionEnded rawText; Elapse quiet;
           ScreenshotSettled (next_run w) (Some screenshot)] w)
  = (requests w ++ [ {| issued_by := next_run w; image := screenshot;
                        text := trim rawText |} ])%list.
Proof.
  intros [Htracked Hnumbered] Hquiet Hready Hel Hsome Hlong.
  change (exec [SelectionEnded rawText; Elapse quiet;
                ScreenshotSettled (next_run w) (Some screenshot)] w)
    with (screenshotSettled (next_run w) (Some screenshot)
            (elapse quiet (selectionEnded rawText w))).
  assert (Hforward : selectionEnded rawText w = handleTextSelect (trim rawText) w).
  { unfold selectionEnded. destruct (trim rawText); [contradiction | reflexivity]. }
  rewrite Hforward.
  pose proof (handleTextSelect_arms_one (trim rawText) w Htracked) as Hts.
  rewrite (elapse_when_due quiet _ _ Hts); [ | cbn; lia].
  assert (Hblank : blank (trim rawText) = false).
  { unfold blank. rewrite trim_idempotent.
    apply String.eqb_neq in Hsome. rewrite Hsome. reflexivity. }
  unfold processSelectionWithScreenshot.
  cbn [captured_viewerApis captured_text]. rewrite Hready, Hblank.
  cbn [viewer_element handleTextSelect]. rewrite Hel.
  unfold screenshotSettled, find_run. cbn [runs next_run handleTextSelect].
  pose proof (find_fresh_run (runs w)
                {| run_id := next_run w; run_text := trim (trim rawText);
                   stage := AwaitingScreenshot |} Hnumbered) as Hfind.
  cbn [run_id] in Hfind. rewrite Hfind.
  cbn. rewrite trim_idempotent. reflexivity.
Qed.

End PipelineMore.

Lemma run_outlives_document_change_witness :
  Page.recommendations
    (EventLoop.page
       (EventLoop.exec (RT := Doubles.search_runtime)
          [EventLoop.DocumentSelect Samples.report;
           EventLoop.SearchSettled 0 (Doubles.answer "results-for-alpha")]
          Doubles.overtaken))
  = ApiClient.PassedThrough [Doubles.ready_made "alpha-1" 0.9%Q].
Proof.
  destruct (run_outlives_document_change (RT := Doubles.search_runtime)
              Doubles.overtaken 0
              {| EventLoop.run_id := 0; EventLoop.run_text := "alpha";
                 EventLoop.stage := EventLoop.AwaitingSearch (Doubles.shot "alpha.jpg") |}
              (Doubles.shot "alpha.jpg") (Doubles.answer "results-for-alpha")
              (ApiClient.PassedThrough [Doubles.ready_made "alpha-1" 0.9%Q])
              Samples.report)
    as [_ [_ [_ Hrecs]]].
  - vm_compute. reflexivity.
  - reflexivity.
  - vm_compute. reflexivity.
  - exact Hrecs.
Defined.

Lemma forwarded_selection_is_sent_witness :
  EventLoop.requests
    (EventLoop.exec (RT := Doubles.search_runtime)
       [EventLoop.SelectionEnded "  net revenue  "; EventLoop.Elapse 600;
        EventLoop.ScreenshotSettled 0 (Some (Doubles.shot "page.jpg"))]
       Doubles.idle)
  = [ {| EventLoop.issued_by := 0; EventLoop.image := Doubles.shot "page.jpg";
         EventLoop.text := "net revenue" |} ].
Proof.
  assert (Hwf : EventLoop.wellformed Doubles.idle).
  { split; intros x Hin; vm_compute in Hin; contradiction. }
  apply (forwarded_selection_is_sent (RT := Doubles.search_runtime)
           Doubles.idle Doubles.surface "  net revenue  " 600%N
           (Doubles.shot "page.jpg") Hwf eq_refl eq_refl eq_refl).
  - vm_compute. discriminate.
  - vm_compute. discriminate.
Defined.

(* ================================================================== *)
(** ** The upload list *)
(* ================================================================== *)

Section UploadFacts.
Import JS ApiClient Upload.
Context `{RT : Runtime}.

Lemma marked_queue (maxFiles : nat) (g : UploadProgress -> UploadProgress)
    (st : Status) (l : list UploadProgress) :
  (forall p, file (g p) = file p) ->
  (forall p, status (g p) = st) ->
  Forall (fun p => is_pdf (file p) = true) l ->
  List.length l <= maxFiles ->
  Forall (fun p => is_pdf (file p) = true) (map g l) /\
  List.length (map g l) <= maxFiles /\
  Forall (fun p => status p = st) (map g l).
Proof.
  intros Hfile Hstatus Hpdf Hlen.
  split; [ | split].
  - apply Forall_map. eapply Forall_impl; [ | exact Hpdf].
    intros p Hp. cbn. rewrite Hfile. exact Hp.
  - rewrite length_map. exact Hlen.
  - apply Forall_map. apply Forall_forall. intros p _. apply Hstatus.
Qed.

Lemma handleFiles_queue (maxFiles : nat) (files : list PickedFile) (s : State) :
  queue_ok maxFiles s -> queue_ok maxFiles (handleFiles maxFiles files s).
Proof.
  intros Hs. unfold handleFiles.
  destruct (Nat.eqb (List.length (filter is_pdf files)) 0); [exact Hs | ].
  destruct (Nat.ltb maxFiles (List.length (filter is_pdf files))) eqn:Hmany;
    [exact Hs | ].
  apply Nat.ltb_ge in Hmany.
  unfold queue_ok, all_status. cbn. split; [ | split].
  - apply Forall_map. apply Forall_forall. intros f Hin. cbn.
    apply filter_In in Hin. tauto.
  - rewrite length_map. exact Hmany.
  - exists pending. apply Forall_map. apply Forall_forall. intros f _. reflexivity.
Qed.

Lemma step_queue (maxFiles : nat) (s : State) (e : Event) :
  queue_ok maxFiles s -> queue_ok maxFiles (step maxFiles s e).
Proof.
  intros Hs. pose proof Hs as [Hpdf [Hlen [st Hst]]].
  assert (Hempty : forall s', uploadProgress s' = [] -> queue_ok maxFiles s').
  { intros s' Hnil. unfold queue_ok, all_status. rewrite Hnil.
    split; [constructor | split; [cbn; lia | exists pending; constructor]]. }
  assert (Hmarked : forall s' g st',
             uploadProgress s' = map g (uploadProgress s) ->
             (forall p, file (g p) = file p) ->
             (forall p, status (g p) = st') ->
             queue_ok maxFiles s').
  { intros s' g st' Hq Hfile Hstatus.
    destruct (marked_queue maxFiles g st' (uploadProgress s) Hfile Hstatus Hpdf Hlen)
      as [H1 [H2 H3]].
    unfold queue_ok, all_status. rewrite Hq.
    split; [exact H1 | split; [exact H2 | exists st'; exact H3]]. }
  destruct e; cbn [step].
  - unfold handleDrop. destruct files; [exact Hs | ].
    apply handleFiles_queue. exact Hs.
  - unfold handleChange. destruct files; [exact Hs | ].
    apply handleFiles_queue. exact Hs.
  - destruct kind; exact Hs.
  - destruct (upload_all_shown s); [ | exact Hs].
    unfold startUpload. destruct (uploadProgress s) as [ | p l] eqn:Hq; [exact Hs | ].
    apply (Hmarked _ (mark uploading) uploading); [cbn; rewrite Hq | | ]; reflexivity.
  - destruct (isUploading s); [exact Hs | ].
    apply Hempty. reflexivity.
  - unfold uploadSettled. destruct (uploads s) as [ | u others]; [exact Hs | ].
    destruct (Gateway.uploadPDFs settled) as [result | err].
    + destruct result;
        try (apply (Hmarked _ (mark success) success); reflexivity).
      apply (Hmarked _ (fun p => mark_error (upload_error_message TypeError)
                                            (mark success p)) error);
        [cbn; rewrite map_map | | ]; reflexivity.
    + apply (Hmarked _ (mark_error (upload_error_message err)) error); reflexivity.
  - unfold clearTimerFired. destruct (clear_timers s); [exact Hs | ].
    apply Hempty. reflexivity.
Qed.

(** X15.  However the upload box is used, its list holds PDF files only,
    never more than [maxFiles] of them, and all of them in the same status:
    the files are pending, uploading, done or failed together. *)
Theorem upload_list_is_uniform (maxFiles : nat) (events : list Event) :
  queue_ok maxFiles (exec maxFiles events mounted).
Proof.
  assert (Hall : forall s, queue_ok maxFiles s ->
                           queue_ok maxFiles (exec maxFiles events s)).
  { induction events as [ | e events IH]; intros s Hs; cbn; [exact Hs | ].
    apply IH, step_queue, Hs. }
  apply Hall. unfold queue_ok, all_status. cbn.
  split; [constructor | split; [lia | exists pending; constructor]].
Qed.

Lemma step_one_upload (maxFiles : nat) (s : State) (e : Event) :
  one_upload s -> one_upload (step maxFiles s e).
Proof.
  intros Hs.
  assert (Hfiles : forall files s', one_upload s' -> one_upload (handleFiles maxFiles files s')).
  { intros files s' Hs'. unfold handleFiles.
    destruct (Nat.eqb (List.length (filter is_pdf files)) 0); [exact Hs' | ].
    destruct (Nat.ltb maxFiles (List.length (filter is_pdf files))); exact Hs'. }
  destruct e; cbn [step].
  - unfold handleDrop. destruct files; [exact Hs | ]. apply Hfiles. exact Hs.
  - unfold handleChange. destruct files; [exact Hs | ]. apply Hfiles. exact Hs.
  - destruct kind; exact Hs.
  - destruct (upload_all_shown s) eqn:Hshown; [ | exact Hs].
    unfold upload_all_shown in Hshown. apply andb_true_iff in Hshown.
    destruct Hshown as [Hidle _]. apply negb_true_iff in Hidle.
    destruct Hs as [[_ Hnone] | [Hbusy _]]; [ | congruence].
    unfold startUpload. destruct (uploadProgress s) as [ | p l]; [left; auto | ].
    right. cbn. rewrite Hnone. split; reflexivity.
  - destruct (isUploading s); exact Hs.
  - unfold uploadSettled. destruct (uploads s) as [ | u others] eqn:Hu; [exact Hs | ].
    destruct Hs as [[_ Hnone] | [_ Hone]]; [congruence | ].
    rewrite Hu in Hone. destruct others; [ | discriminate Hone].
    left. destruct (Gateway.uploadPDFs settled) as [result | err];
      [destruct result | ]; cbn; split; reflexivity.
  - unfold clearTimerFired. destruct (clear_timers s); exact Hs.
Qed.

(** X16.  However the upload box is used, at most one upload is under way
    at a time, and the busy flag is up exactly while it is. *)
Theorem one_upload_at_a_time (maxFiles : nat) (events : list Event) :
  one_upload (exec maxFiles events mounted).
Proof.
  assert (Hall : forall s, one_upload s -> one_upload (exec maxFiles events s)).
  { induction events as [ | e events IH]; intros s Hs; cbn; [exact Hs | ].
    apply IH, step_one_upload, Hs. }
  apply Hall. left. split; reflexivity.
Qed.

End UploadFacts.

Example thirty_one_files_are_refused :
  Upload.uploadProgress
    (Upload.handleFiles 2
       [Samples.pdf "a.pdf"; Samples.picture "b.png"; Samples.pdf "c.pdf";
        Samples.pdf "d.pdf"]
       Upload.mounted)
  = [] /\
  Upload.alerts
    (Upload.handleFiles 2
       [Samples.pdf "a.pdf"; Samples.picture "b.png"; Samples.pdf "c.pdf";
        Samples.pdf "d.pdf"]
       Upload.mounted)
  = ["You can only upload up to 2 files at once."].
Proof. split; reflexivity. Qed.

Example pictures_are_left_out :
  map (fun p => Upload.file_name (Upload.file p))
      (Upload.uploadProgress
         (Upload.handleFiles 30 [Samples.pdf "a.pdf"; Samples.picture "b.png"]
            Upload.mounted))
  = ["a.pdf"].
Proof. reflexivity. Qed.

(* ================================================================== *)
(** ** More on the normalizer *)
(* ================================================================== *)

Section NormalizerMore.
Import JS JSNotations ApiClient.
Context `{RT : Runtime}.

Lemma substring_short (s : string) :
  forall n, String.length s <= n -> substring 0 n s = s.
Proof.
  induction s as [ | c s IH]; intros [ | n] Hlen; cbn in *; try reflexivity; try lia.
  rewrite IH; [reflexivity | lia].
Qed.

Lemma substring_bound (s : string) :
  forall n, String.length (substring 0 n s) <= n.
Proof.
  induction s as [ | c s IH]; intros [ | n]; cbn; try lia.
  specialize (IH n). lia.
Qed.

Lemma length_append (a b : string) :
  String.length (a ++ b) = String.length a + String.length b.
Proof. induction a as [ | c a IH]; cbn; [reflexivity | rewrite IH; reflexivity]. Qed.

(** X17.  A snippet given as text is shown whole when it has at most 200
    characters; in any case the text on the card has at most 203. *)
Theorem text_snippet_is_kept_or_cut (metadatas ids distances : list json)
    (i : nat) (s : string) (r : BackendRecommendation) :
  recommendation_of metadatas ids distances i (JStr s) = Ok r ->
  String.length (snippet r) <= 203 /\
  (String.length s <= 200 -> snippet r = s).
Proof.
  intros Hr.
  pose proof (recommendation_of_cases metadatas ids distances i (JStr s)) as Hcases.
  cbv zeta in Hcases. rewrite Hr in Hcases.
  destruct Hcases as [[name [shown [over [_ [Hshown [Hover [_ Hsnippet]]]]]]] _].
  assert (Hs : shown = s).
  { unfold or_empty in Hshown. destruct s; cbn in Hshown; congruence. }
  change (length_over_200 (JStr s)) with (Ok (Nat.ltb 200 (String.length s))) in Hover.
  injection Hover as <-. subst shown. rewrite Hsnippet. split.
  - rewrite length_append.
    pose proof (substring_bound s 200) as Hcut.
    destruct (Nat.ltb 200 (String.length s)); cbn [String.length]; lia.
  - intros Hshort.
    assert (Hnot : Nat.ltb 200 (String.length s) = false)
      by (apply Nat.ltb_ge; exact Hshort).
    rewrite Hnot, (substring_short s 200 Hshort). apply append_empty_r.
Qed.

(** The thresholds of the connection type, on the doubles 0.8 and 0.6. *)
Lemma connection_of_thresholds (q : Q) :
  (connection_of q = elaboration <-> (binary64 0.8 < q)%Q) /\
  (connection_of q = correlation <->
   (binary64 0.6 < q)%Q /\ (q <= binary64 0.8)%Q) /\
  (connection_of q = context <-> (q <= binary64 0.6)%Q) /\
  connection_of q <> contradiction.
Proof.
  assert (Horder : (binary64 0.6 <= binary64 0.8)%Q) by (vm_compute; discriminate).
  unfold connection_of.
  destruct (Qle_bool q (binary64 0.8)) eqn:H8; cbn [negb].
  - apply Qle_bool_iff in H8.
    destruct (Qle_bool q (binary64 0.6)) eqn:H6; cbn [negb].
    + apply Qle_bool_iff in H6.
      repeat split; try discriminate; try (intros _; assumption).
      * intros Hlt. exfalso. apply (Qlt_not_le _ _ Hlt H8).
      * intros [Hlt _]. exfalso. apply (Qlt_not_le _ _ Hlt H6).
    + assert (Hgt : (binary64 0.6 < q)%Q).
      { apply Qnot_le_lt. intros Hle. apply Qle_bool_iff in Hle. congruence. }
      repeat split; try discriminate; try assumption.
      * intros Hlt. exfalso. apply (Qlt_not_le _ _ Hlt H8).
      * intros Hle. exfalso. apply (Qlt_not_le _ _ Hgt Hle).
  - assert (Hgt : (binary64 0.8 < q)%Q).
    { apply Qnot_le_lt. intros Hle. apply Qle_bool_iff in Hle. congruence. }
    repeat split; try discriminate; try (intros _; assumption).
    + intros [_ Hle]. exfalso. apply (Qlt_not_le _ _ Hgt Hle).
    + intros Hle. exfalso. apply (Qlt_not_le _ _ Hgt).
      apply (Qle_trans _ _ _ Hle Horder).
Qed.

(** X18.  The connection type of a recommendation that the normalizer
    builds follows its relevance score: elaboration above 0.8, correlation
    above 0.6 and up to 0.8, context up to 0.6, the two thresholds being the
    doubles of these literals; it is never contradiction.  An entry for
    which the bundle gives no numeric distance is always a correlation: its
    score is 0.8, 0.7000000000000001 or 0.6000000000000001, each above the
    double 0.6. *)
Theorem built_connection_follows_score (raw : json)
    (items : list BackendRecommendation) (k : nat) (r : BackendRecommendation) :
  normalize raw = Ok (Normalized items) ->
  nth_error items k = Some r ->
  (connectionType r = elaboration <-> (binary64 0.8 < relevanceScore r)%Q) /\
  (connectionType r = correlation <->
   (binary64 0.6 < relevanceScore r)%Q /\ (relevanceScore r <= binary64 0.8)%Q) /\
  (connectionType r = context <-> (relevanceScore r <= binary64 0.6)%Q) /\
  connectionType r <> contradiction /\
  ((forall d,
       nth_error (column "distances" (nullish_or (get_prop "search_results" raw) raw)) k
       <> Some (JNum d)) ->
   connectionType r = correlation /\
   (binary64 0.6 < relevanceScore r)%Q).
Proof.
  intros Hnorm Hk.
  pose proof (normalize_as_bundle raw items Hnorm) as Hbundle.
  unfold normalize_bundle in Hbundle.
  set (sr := nullish_or (get_prop "search_results" raw) raw) in *.
  destruct (map_indexed _ 0 (firstn 3 (column "documents" sr)))
    as [built | e] eqn:Hmap; cbn in Hbundle; [ | discriminate].
  injection Hbundle as <-.
  destruct (map_indexed_ok _ _ _ _ Hmap) as [Hlen Hnth].
  destruct (Hnth _ _ Hk) as [x [Hx Hf]]. cbn [Nat.add] in Hf.
  assert (Hk3 : k < 3).
  { assert (Hb : k < List.length built) by (apply nth_error_Some; congruence).
    pose proof (firstn_le_length 3 (column "documents" sr)). lia. }
  pose proof (recommendation_of_cases (column "metadatas" sr) (column "ids" sr)
                (column "distances" sr) k x) as Hcases.
  cbv zeta in Hcases. rewrite Hf in Hcases.
  destruct Hcases as [_ [_ [_ [Hscore Hconn]]]].
  rewrite Hconn.
  destruct (connection_of_thresholds (relevanceScore r)) as [H1 [H2 [H3 H4]]].
  split; [exact H1 | split; [exact H2 | split; [exact H3 | split; [exact H4 | ]]]].
  intros Hnone. rewrite Hscore.
  assert (Hcases : k = 0 \/ k = 1 \/ k = 2) by lia.
  destruct (nth_error (column "distances" sr) k) as [[ | b | d | s | l | f] | ];
    try (exfalso; eapply Hnone; reflexivity);
    destruct Hcases as [-> | [-> | ->]]; vm_compute; split; reflexivity.
Qed.

End NormalizerMore.

Lemma text_snippet_is_kept_or_cut_witness :
  ApiClient.snippet
    {| ApiClient.id := JS.JStr "rec-0";
       ApiClient.sourceDocument := "Unknown Document";
       ApiClient.snippet := "a short passage";
       ApiClient.pageNumber := JS.Fin 1%Q;
       ApiClient.boundingBox := ApiClient.zero_bbox;
       ApiClient.relevanceScore := JS.binary64 0.8%Q;
       ApiClient.connectionType := ApiClient.correlation |}
  = "a short passage".
Proof.
  apply (text_snippet_is_kept_or_cut (RT := Doubles.table_runtime [])
           [] [] [] 0 "a short passage").
  - vm_compute. reflexivity.
  - vm_compute. lia.
Defined.

Lemma built_connection_follows_score_witness :
  ApiClient.connectionType
    {| ApiClient.id := JS.JStr "rec-2";
       ApiClient.sourceDocument := "Unknown Document";
       ApiClient.snippet := "c";
       ApiClient.pageNumber := JS.Fin 1%Q;
       ApiClient.boundingBox := ApiClient.zero_bbox;
       ApiClient.relevanceScore := (1351079888211149 # 2251799813685248)%Q;
       ApiClient.connectionType := ApiClient.correlation |}
  = ApiClient.correlation /\
  (JS.binary64 0.6
   < ApiClient.relevanceScore
       {| ApiClient.id := JS.JStr "rec-2";
          ApiClient.sourceDocument := "Unknown Document";
          ApiClient.snippet := "c";
          ApiClient.pageNumber := JS.Fin 1%Q;
          ApiClient.boundingBox := ApiClient.zero_bbox;
          ApiClient.relevanceScore := (1351079888211149 # 2251799813685248)%Q;
          ApiClient.connectionType := ApiClient.correlation |})%Q.
Proof.
  destruct (built_connection_follows_score (RT := Doubles.table_runtime [])
              (JS.JObj [("documents",
                         JS.JArr [JS.JArr [JS.JStr "a"; JS.JStr "b"; JS.JStr "c"]])])
              [ {| ApiClient.id := JS.JStr "rec-0";
                   ApiClient.sourceDocument := "Unknown Document";
                   ApiClient.snippet := "a";
                   ApiClient.pageNumber := JS.Fin 1%Q;
                   ApiClient.boundingBox := ApiClient.zero_bbox;
                   ApiClient.relevanceScore := JS.binary64 0.8%Q;
                   ApiClient.connectionType := ApiClient.correlation |};
                {| ApiClient.id := JS.JStr "rec-1";
                   ApiClient.sourceDocument := "Unknown Document";
                   ApiClient.snippet := "b";
                   ApiClient.pageNumber := JS.Fin 1%Q;
                   ApiClient.boundingBox := ApiClient.zero_bbox;
                   ApiClient.relevanceScore := (6305039478318695 # 9007199254740992)%Q;
                   ApiClient.connectionType := ApiClient.correlation |};
                {| ApiClient.id := JS.JStr "rec-2";
                   ApiClient.sourceDocument := "Unknown Document";
                   ApiClient.snippet := "c";
                   ApiClient.pageNumber := JS.Fin 1%Q;
                   ApiClient.boundingBox := ApiClient.zero_bbox;
                   ApiClient.relevanceScore := (1351079888211149 # 2251799813685248)%Q;
                   ApiClient.connectionType := ApiClient.correlation |} ]
              2 _ ltac:(vm_compute; reflexivity) eq_refl)
    as [_ [_ [_ [_ Hplaceholder]]]].
  apply Hplaceholder. intros d. vm_compute. discriminate.
Defined.

Example gateway_failures_carry_the_status :
  Gateway.getDocuments (RT := Samples.listing_runtime)
    (ApiClient.Fulfilled {| ApiClient.ok := false; ApiClient.statusText := "Not Found";
                            ApiClient.body := "" |}) Samples.stamp
  = JS.Throw (JS.Error "Get documents failed: Not Found") /\
  Gateway.generatePodcast (RT := Samples.listing_runtime)
    (ApiClient.Fulfilled {| ApiClient.ok := false; ApiClient.statusText := "Bad Gateway";
                            ApiClient.body := "" |})
  = JS.Throw (JS.Error "Podcast generation failed: Bad Gateway") /\
  Gateway.getPdf ApiClient.Rejected
  = JS.Throw JS.NetworkError.
Proof. repeat split. Qed.

Example failed_refresh_keeps_the_shelf :
  Library.loadDocuments (RT := Samples.listing_runtime) ApiClient.Rejected Samples.stamp
    {| Library.documents := Samples.library_shelf; Library.isLoading := true;
       Library.error := None; Library.searchTerm := "q1" |}
  = {| Library.documents := Samples.library_shelf; Library.isLoading := false;
       Library.error := Some "Failed to fetch"; Library.searchTerm := "q1" |}.
Proof. reflexivity. Qed.

Example card_colours :
  Layout.getConnectionTypeColor (Layout.connection_text ApiClient.elaboration)
  = "text-green-600 dark:text-green-400" /\
  Layout.getConnectionTypeColor "unheard-of" = "text-gray-600 dark:text-gray-400".
Proof. repeat split. Qed.

(** 0.125 shows as 13; 0.285 as 28, its product with 100 being the double
    28.499999999999996. *)
Example card_percentages :
  Layout.relevancePercent 0.125%Q = 13%Z /\
  Layout.relevancePercent (JS.binary64 0.285%Q) = 28%Z /\
  Layout.relevancePercent (JS.binary64 0.9%Q) = 90%Z.
Proof. vm_compute. repeat split. Qed.

Example failed_upload_marks_every_file :
  map (fun p => (Upload.status p, Upload.error_text p))
      (Upload.uploadProgress
         (Upload.exec (RT := Samples.listing_runtime) 30
            [Upload.Change [Samples.pdf "a.pdf"; Samples.pdf "b.pdf"];
             Upload.UploadAll; Upload.UploadSettled ApiClient.Rejected]
            Upload.mounted))
  = [(Upload.error, Some Upload.backend_unavailable);
     (Upload.error, Some Upload.backend_unavailable)].
Proof. reflexivity. Qed.
